(** * Financial ledger API: a shallow embedding of [index.js]

    The Express routes of [index.js] are embedded as programs over the
    SQL statements they send through node-postgres.  Three layers:

    - [JS]: the JavaScript values a JSON request body can hold, truthiness,
      [parseInt], [parseFloat], [Number.prototype.toString] and [toFixed],
      with numbers as IEEE 754 binary64 values;
    - [PG]: the three relations of [design_tables.md], the statements the
      routes issue, and their effect under PostgreSQL's READ COMMITTED
      isolation level (the level the README names);
    - [Ledger]: the route handlers, written statement by statement as in
      the source, and the properties of the ledger proved about them. *)

From Stdlib Require Import ZArith List Bool String Ascii Lia.
From Stdlib Require Import Floats.SpecFloat.
Import ListNotations.

Local Open Scope Z_scope.

(* ================================================================= *)
(** * JavaScript values *)

Module JS.

Local Open Scope string_scope.
Local Open Scope Z_scope.

(** ** Numbers: IEEE 754 binary64 *)

(** A JavaScript number is a binary64 value: [spec_float] with a 53 bit
    mantissa and exponents up to 1024. *)
Definition number := spec_float.

Definition NaN : number := S754_nan.
Definition pos_zero : number := S754_zero false.

(** Rounding of the positive rational [num / den] to the nearest binary64
    value, ties to even; [neg] is the sign of the result.  Values at or
    below half of the least subnormal [2^-1074] round to zero, values that
    round to [2^1024] or more to infinity. *)
Definition round_pos (neg : bool) (num den : positive) : number :=
  let n := Zpos num in
  let d := Zpos den in
  if n * 2 ^ 1075 <=? d then S754_zero neg
  else
    let l := Z.log2 n - Z.log2 d in
    let ge := if 0 <=? l then d * 2 ^ l <=? n else d <=? n * 2 ^ (- l) in
    let f := if ge then l else l - 1 in
    let e := Z.max (f - 52) (-1074) in
    let sn := if e <? 0 then n * 2 ^ (- e) else n in
    let sd := if e <? 0 then d else d * 2 ^ e in
    let q := sn / sd in
    let r := sn mod sd in
    let up :=
      match 2 * r ?= sd with
      | Lt => false
      | Gt => true
      | Eq => Z.odd q
      end in
    let m := if up then q + 1 else q in
    let '(m, e) := if m =? 2 ^ 53 then (2 ^ 52, e + 1) else (m, e) in
    if 971 <? e then S754_infinity neg
    else S754_finite neg (Z.to_pos m) e.

(** The number value of the decimal [m * 10^e], as [StringToNumber] rounds
    a literal.  Exponents far outside the binary64 range are cut short
    before any power of ten is built. *)
Definition of_decimal (neg : bool) (m : Z) (e : Z) : number :=
  match m with
  | Zpos p =>
      if 400 <? e then S754_infinity neg
      else if e + Z.log2 m + 1 <? -400 then S754_zero neg
      else if 0 <=? e then round_pos neg (p * Z.to_pos (10 ^ e)) 1
      else round_pos neg p (Z.to_pos (10 ^ (- e)))
  | _ => S754_zero neg
  end.

(** The number value of an integer. *)
Definition of_Z (z : Z) : number := of_decimal (z <? 0) (Z.abs z) 0.

Definition is_nan (x : number) : bool :=
  match x with S754_nan => true | _ => false end.

Definition is_zero (x : number) : bool :=
  match x with S754_zero _ => true | _ => false end.

(** [x <= y], [x < y] and [x === y] on numbers. *)
Definition leb (x y : number) : bool := SFleb x y.
Definition ltb (x y : number) : bool := SFltb x y.
Definition strict_eq (x y : number) : bool := SFeqb x y.

(** The exact value of a positive finite number as a fraction. *)
Definition fraction_of (m : positive) (e : Z) : Z * Z :=
  if 0 <=? e then (Zpos m * 2 ^ e, 1) else (Zpos m, 2 ^ (- e)).

(** The decimal [s * 10^p] lies within half a unit in the last place of
    the number of mantissa [mp] and exponent [e < 0]. *)
Definition near (mp : positive) (e s p : Z) : Prop :=
  if 0 <=? p then Zpos mp = s * 10 ^ p * 2 ^ (- e)
  else 2 * Z.abs (Zpos mp * 10 ^ (- p) - s * 2 ^ (- e)) <= 10 ^ (- p).

(** ** Decimal digits *)

Definition digit_char (d : Z) : ascii := ascii_of_N (Z.to_N (48 + d)).

Fixpoint digits_acc (fuel : nat) (n : Z) (acc : string) : string :=
  match fuel with
  | O => acc
  | S fuel' =>
      let acc' := String (digit_char (n mod 10)) acc in
      if n <? 10 then acc' else digits_acc fuel' (n / 10) acc'
  end.

(** The decimal digits of a natural number, without leading zeros. *)
Definition digits (n : Z) : string :=
  digits_acc (S (Z.to_nat (Z.log2 n))) n EmptyString.

Fixpoint zeros (n : nat) : string :=
  match n with
  | O => EmptyString
  | S n' => String "0" (zeros n')
  end.

(** ** [Number.prototype.toString] *)

(** [num / den < 10^n] *)
Definition below_pow10 (num den n : Z) : bool :=
  if 0 <=? n then num <? den * 10 ^ n else num * 10 ^ (- n) <? den.

Fixpoint first_above (fuel : nat) (num den n : Z) : Z :=
  match fuel with
  | O => n
  | S fuel' =>
      if below_pow10 num den n then n else first_above fuel' num den (n + 1)
  end.

(** The integer [n] with [10^(n-1) <= num / den < 10^n]. *)
Definition decimal_exponent (num den : Z) : Z :=
  let l := Z.log2 num - Z.log2 den in
  first_above 8 num den ((l - 1) * 30103 / 100000 - 1).

(** The candidate with [k] digits: the digit string [s] and exponent [p]
    with [s * 10^p] nearest to [num / den] among those that read back as
    [x], if there is one. *)
Definition candidate (x : number) (num den n : Z) (k : Z)
  : option (Z * Z) :=
  let p := n - k in
  let lo := if 0 <=? p then num / (den * 10 ^ p)
            else (num * 10 ^ (- p)) / den in
  let hi := lo + 1 in
  let back s := SFeqb (of_decimal false s p) x in
  let lo_nearer :=
    (* compare [2 * num / den] with [(2 * lo + 1) * 10^p] *)
    let c := if 0 <=? p then 2 * num ?= (2 * lo + 1) * 10 ^ p * den
             else 2 * num * 10 ^ (- p) ?= (2 * lo + 1) * den in
    match c with
    | Lt => true
    | Gt => false
    | Eq => Z.even lo
    end in
  match back lo, back hi with
  | true, true => Some (if lo_nearer then lo else hi, p)
  | true, false => Some (lo, p)
  | false, true => Some (hi, p)
  | false, false => None
  end.

Fixpoint shortest_from (fuel : nat) (x : number) (num den n k : Z)
  : Z * Z :=
  match fuel with
  | O => (0, 0)
  | S fuel' =>
      match candidate x num den n k with
      | Some (s, p) => if s =? 10 ^ k then (1, p + k) else (s, p)
      | None => shortest_from fuel' x num den n (k + 1)
      end
  end.

(** The shortest decimal [s * 10^p] that reads back as the positive
    finite number of mantissa [m] and exponent [e]. *)
Definition shortest (m : positive) (e : Z) : Z * Z :=
  let '(num, den) := fraction_of m e in
  shortest_from 17 (S754_finite false m e) num den
    (decimal_exponent num den) 1.

(** The text of a positive finite number from its shortest decimal, laid
    out as the language prescribes: plain digits up to [10^21], a leading
    [0.] down to [10^-6], exponent notation elsewhere. *)
Definition layout (s p : Z) : string :=
  let ds := digits s in
  let k := Z.of_nat (String.length ds) in
  let n := p + k in
  if (k <=? n) && (n <=? 21) then
    ds ++ zeros (Z.to_nat (n - k))
  else if (0 <? n) && (n <=? 21) then
    substring 0 (Z.to_nat n) ds ++ "." ++
    substring (Z.to_nat n) (Z.to_nat (k - n)) ds
  else if (-6 <? n) && (n <=? 0) then
    "0." ++ zeros (Z.to_nat (- n)) ++ ds
  else
    let ex := (if n - 1 <? 0 then "-" else "+") ++ digits (Z.abs (n - 1)) in
    if k =? 1 then ds ++ "e" ++ ex
    else substring 0 1 ds ++ "." ++
         substring 1 (Z.to_nat (k - 1)) ds ++ "e" ++ ex.

Definition to_string (x : number) : string :=
  match x with
  | S754_nan => "NaN"
  | S754_zero _ => "0"
  | S754_infinity false => "Infinity"
  | S754_infinity true => "-Infinity"
  | S754_finite neg m e =>
      let '(s, p) := shortest m e in
      (if neg then "-" else "") ++ layout s p
  end.

(** ** [Number.prototype.toFixed(2)] *)

Definition to_fixed2 (x : number) : string :=
  match x with
  | S754_zero _ => "0.00"
  | S754_finite neg m e =>
      let '(num, den) := fraction_of m e in
      if den * 10 ^ 21 <=? num then to_string x
      else
        (* the integer nearest to [100 * num / den], the larger on a tie *)
        let n := (200 * num + den) / (2 * den) in
        (if neg then "-" else "") ++
        digits (n / 100) ++ "." ++
        String (digit_char (n / 10 mod 10))
          (String (digit_char (n mod 10)) EmptyString)
  | _ => to_string x
  end.

(** ** Values of a JSON request body *)

(** The value of a field of [req.body]: absent ([undefined]) or a JSON
    scalar. *)
Inductive value : Type :=
| Undefined
| Null
| Bool (b : bool)
| Num (x : number)
| Str (s : string).

(** [!!v] *)
Definition truthy (v : value) : bool :=
  match v with
  | Undefined | Null => false
  | Bool b => b
  | Num x => negb (is_zero x || is_nan x)
  | Str s => negb (String.eqb s "")
  end.

(** [ToString(v)] *)
Definition ToString (v : value) : string :=
  match v with
  | Undefined => "undefined"
  | Null => "null"
  | Bool true => "true"
  | Bool false => "false"
  | Num x => to_string x
  | Str s => s
  end.

(** ** [parseInt(v, 10)] and [parseFloat(v)] *)

Definition code (c : ascii) : Z := Z.of_N (N_of_ascii c).

Definition is_space (c : ascii) : bool :=
  let n := code c in
  ((9 <=? n) && (n <=? 13)) || (n =? 32) || (n =? 160).

Definition is_digit (c : ascii) : bool :=
  let n := code c in (48 <=? n) && (n <=? 57).

Fixpoint trim_start (s : string) : string :=
  match s with
  | String c s' => if is_space c then trim_start s' else s
  | EmptyString => s
  end.

Definition read_sign (s : string) : bool * string :=
  match s with
  | String "-" s' => (true, s')
  | String "+" s' => (false, s')
  | _ => (false, s)
  end.

(** The longest prefix of decimal digits: its value on top of [acc], how
    many digits were read on top of [cnt], and the rest of the text. *)
Fixpoint scan_digits (s : string) (acc cnt : Z) : Z * Z * string :=
  match s with
  | String c s' =>
      if is_digit c then scan_digits s' (10 * acc + (code c - 48)) (cnt + 1)
      else (acc, cnt, s)
  | EmptyString => (acc, cnt, s)
  end.

Definition parseInt_string (input : string) : number :=
  let '(neg, s) := read_sign (trim_start input) in
  let '(v, cnt, _) := scan_digits s 0 0 in
  if cnt =? 0 then NaN else of_decimal neg v 0.

Definition read_exponent (s : string) : Z :=
  match s with
  | String ("e" | "E") s' =>
      let '(eneg, s'') := read_sign s' in
      let '(v, cnt, _) := scan_digits s'' 0 0 in
      if cnt =? 0 then 0 else if eneg then - v else v
  | _ => 0
  end.

Definition parseFloat_string (input : string) : number :=
  let '(neg, s) := read_sign (trim_start input) in
  if prefix "Infinity" s then S754_infinity neg
  else
    let '(i, ci, s1) := scan_digits s 0 0 in
    let '(m, cf, s2) :=
      match s1 with
      | String "." s1' => scan_digits s1' i 0
      | _ => (i, 0, s1)
      end in
    if ci + cf =? 0 then NaN
    else of_decimal neg m (read_exponent s2 - cf).

Definition parseInt (v : value) : number := parseInt_string (ToString v).
Definition parseFloat (v : value) : number := parseFloat_string (ToString v).

End JS.

(* ================================================================= *)
(** * The store: PostgreSQL relations, sessions and statements *)

Module PG.

Local Open Scope string_scope.
Local Open Scope list_scope.
Local Open Scope Z_scope.

(** ** Relations ([design_tables.md]) *)

(** Amounts are [numeric(14,2)]: fixed-point decimals with two fractional
    digits, held here as a whole number of hundredths.  The [created_at]
    columns are left out. *)
Definition cents := Z.

Record account : Type := {
  acc_id : Z;
  acc_user_id : string;
  acc_type : string;
  acc_currency : string;
  acc_status : string
}.

Record transaction : Type := {
  tx_id : Z;
  tx_type : string;
  tx_amount : cents;
  tx_currency : string;
  source_account_id : option Z;
  destination_account_id : option Z;
  tx_status : string;
  tx_description : option string
}.

Record ledger_entry : Type := {
  le_id : Z;
  transaction_id : Z;
  account_id : Z;
  entry_type : string;
  le_amount : cents
}.

(** The rows of the three relations.  No relation has a balance column. *)
Record store : Type := {
  accounts : list account;
  transactions : list transaction;
  ledger_entries : list ledger_entry
}.

Definition empty_store : store :=
  {| accounts := []; transactions := []; ledger_entries := [] |}.

(** The last value handed out by each [SERIAL] sequence.  Sequences are
    not transactional: a value drawn inside a transaction that rolls back
    is not handed out again.  They are taken as unbounded. *)
Record sequences : Type := {
  accounts_id_seq : Z;
  transactions_id_seq : Z;
  ledger_entries_id_seq : Z
}.

(** ** Writes and transaction blocks *)

Inductive write : Type :=
| WAccount (a : account)
| WTransaction (t : transaction)
| WEntries (es : list ledger_entry)
| WStatus (id : Z) (status : string).

Definition set_status (id : Z) (status : string) (t : transaction)
  : transaction :=
  if tx_id t =? id then
    {| tx_id := tx_id t; tx_type := tx_type t; tx_amount := tx_amount t;
       tx_currency := tx_currency t;
       source_account_id := source_account_id t;
       destination_account_id := destination_account_id t;
       tx_status := status; tx_description := tx_description t |}
  else t.

Definition apply_write (w : write) (st : store) : store :=
  match w with
  | WAccount a =>
      {| accounts := accounts st ++ [a];
         transactions := transactions st;
         ledger_entries := ledger_entries st |}
  | WTransaction t =>
      {| accounts := accounts st;
         transactions := transactions st ++ [t];
         ledger_entries := ledger_entries st |}
  | WEntries es =>
      {| accounts := accounts st;
         transactions := transactions st;
         ledger_entries := ledger_entries st ++ es |}
  | WStatus id status =>
      {| accounts := accounts st;
         transactions := map (set_status id status) (transactions st);
         ledger_entries := ledger_entries st |}
  end.

(** A session inside [BEGIN ... COMMIT] holds its writes, newest first,
    until it commits; after a failed statement the block is aborted and
    accepts nothing but its end. *)
Inductive block : Type :=
| Active (log : list write)
| Aborted.

Definition session := nat.

Record database : Type := {
  committed : store;
  seqs : sequences;
  blocks : list (session * block)
}.

Definition empty_database : database :=
  {| committed := empty_store;
     seqs := {| accounts_id_seq := 0; transactions_id_seq := 0;
                ledger_entries_id_seq := 0 |};
     blocks := [] |}.

Fixpoint block_of (s : session) (bs : list (session * block))
  : option block :=
  match bs with
  | [] => None
  | (s', b) :: bs' => if Nat.eqb s s' then Some b else block_of s bs'
  end.

Definition without (s : session) (bs : list (session * block))
  : list (session * block) :=
  filter (fun sb => negb (Nat.eqb s (fst sb))) bs.

Definition set_block (s : session) (b : block) (db : database) : database :=
  {| committed := committed db; seqs := seqs db;
     blocks := (s, b) :: without s (blocks db) |}.

Definition end_block (s : session) (db : database) : database :=
  {| committed := committed db; seqs := seqs db;
     blocks := without s (blocks db) |}.

Definition replay (log : list write) (st : store) : store :=
  fold_right apply_write st log.

(** What a statement of session [s] reads under READ COMMITTED: the
    committed rows and the session's own pending writes. *)
Definition view (s : session) (db : database) : store :=
  match block_of s (blocks db) with
  | Some (Active log) => replay log (committed db)
  | _ => committed db
  end.

(** ** Parameters *)

(** A number bound to an [integer] parameter: its text must read as a
    whole number in the 32 bit range. *)
Definition int4_of (x : JS.number) : option Z :=
  let check v :=
    if (- 2 ^ 31 <=? v) && (v <? 2 ^ 31) then Some v else None in
  match x with
  | S754_zero _ => Some 0
  | S754_finite neg m e =>
      let '(num, den) := JS.fraction_of m e in
      if num mod den =? 0
      then check (if neg then - (num / den) else num / den)
      else None
  | _ => None
  end.

(** A number bound to a [numeric(14,2)] column: the decimal its text
    denotes, rounded to two fractional digits, halves away from zero;
    fourteen digits at most. *)
Definition numeric_14_2_of (x : JS.number) : option cents :=
  match x with
  | S754_zero _ => Some 0
  | S754_finite neg m e =>
      let '(s, p) := JS.shortest m e in
      let q := p + 2 in
      let c := if 0 <=? q then s * 10 ^ q
               else (2 * s + 10 ^ (- q)) / (2 * 10 ^ (- q)) in
      if 10 ^ 14 <=? c then None
      else Some (if neg then - c else c)
  | _ => None
  end.

(** A value bound to a [text] column: [null] and [undefined] are sent as
    NULL, anything else as its text, which must not hold a zero byte. *)
Fixpoint has_nul (s : string) : bool :=
  match s with
  | EmptyString => false
  | String c s' => (JS.code c =? 0) || has_nul s'
  end.

Definition text_of (v : JS.value) : option (option string) :=
  match v with
  | JS.Undefined | JS.Null => Some None
  | _ => if has_nul (JS.ToString v) then None else Some (Some (JS.ToString v))
  end.

(** A value bound to a [text NOT NULL] column. *)
Definition text_not_null_of (v : JS.value) : option string :=
  match text_of v with
  | Some (Some s) => Some s
  | _ => None
  end.

(** ** The text of a [numeric] result *)

(** [c] hundredths printed with two fractional digits. *)
Definition numeric_out (c : cents) : string :=
  let a := Z.abs c in
  (if c <? 0 then "-" else "") ++
  JS.digits (a / 100) ++ "." ++
  String (JS.digit_char (a / 10 mod 10))
    (String (JS.digit_char (a mod 10)) EmptyString).

(** ** The balance query *)

(** [CASE WHEN entry_type = 'credit' THEN amount
         WHEN entry_type = 'debit' THEN -amount ELSE 0 END] *)
Definition signed_amount (e : ledger_entry) : cents :=
  if String.eqb (entry_type e) "credit" then le_amount e
  else if String.eqb (entry_type e) "debit" then - le_amount e
  else 0.

Definition is_leg (e : ledger_entry) : bool :=
  String.eqb (entry_type e) "credit" || String.eqb (entry_type e) "debit".

(** [FROM ledger_entries WHERE account_id = a] *)
Definition entries_of (a : Z) (st : store) : list ledger_entry :=
  filter (fun e => account_id e =? a) (ledger_entries st).

(** [SUM(CASE ...)] over the entries of account [a]. *)
Definition sum_entries (a : Z) (st : store) : cents :=
  fold_right Z.add 0 (map signed_amount (entries_of a st)).

(** [COALESCE(SUM(CASE ...), 0) AS balance], as the driver hands it to
    JavaScript: the text of a [numeric].  Without rows the sum is NULL and
    the result the integer [0]; a sum shows two fractional digits as soon
    as one summand is an amount. *)
Definition balance_text (a : Z) (st : store) : string :=
  if existsb is_leg (entries_of a st)
  then numeric_out (sum_entries a st)
  else "0".

(** ** Statements *)

(** The statements [index.js] sends, each with its parameters as the
    route passes them and indexed by what the route reads off the result:
    the [id]s of the rows, the whole rows, the [balance] text, or
    nothing. *)
Inductive statement : Type -> Type :=
| BEGIN : statement unit
| COMMIT : statement unit
| ROLLBACK : statement unit
(** [SELECT id FROM accounts WHERE id = ANY($1::int[])] *)
| SelectAccountIdsAny (ids : list JS.number) : statement (list Z)
(** [SELECT id FROM accounts WHERE id = $1] *)
| SelectAccountId (id : JS.number) : statement (list Z)
(** [SELECT id, user_id, type, currency, status FROM accounts
     WHERE id = $1] *)
| SelectAccount (id : JS.number) : statement (list account)
(** [INSERT INTO accounts (user_id, type, currency) VALUES ($1, $2, $3)
     RETURNING ...] *)
| InsertAccount (userId type currency : JS.value) : statement account
(** [INSERT INTO transactions (type, amount, currency, source_account_id,
     destination_account_id, status, description)
     VALUES (type, $1, $2, source, destination, 'pending', description)
     RETURNING id] *)
| InsertTransaction (type : string) (amount : JS.number)
    (currency : JS.value) (source destination : option JS.number)
    (description : JS.value) : statement Z
(** [INSERT INTO ledger_entries (transaction_id, account_id, entry_type,
     amount) VALUES ...], one statement for all its rows *)
| InsertLedgerEntries (rows : list (Z * JS.number * string * JS.number))
    : statement unit
(** [SELECT COALESCE(SUM(CASE ...), 0) AS balance FROM ledger_entries
     WHERE account_id = $1] *)
| SelectBalance (accountId : JS.number) : statement string
(** [UPDATE transactions SET status = 'completed' WHERE id = $1] *)
| UpdateTransactionStatus (status : string) (id : Z) : statement unit.

(** ** Execution *)

(** A failed statement raises in the route; inside a block it aborts the
    block. *)
Definition fail {R : Type} (s : session) (db : database)
  : database * option R :=
  (match block_of s (blocks db) with
   | Some _ => set_block s Aborted db
   | None => db
   end, None).

(** A write joins the pending writes of the session's block, or goes
    straight to the committed rows when the session has no block open. *)
Definition push (s : session) (w : write) (db : database) : database :=
  match block_of s (blocks db) with
  | Some (Active log) => set_block s (Active (w :: log)) db
  | _ => {| committed := apply_write w (committed db);
            seqs := seqs db; blocks := blocks db |}
  end.

Definition with_seqs (sq : sequences) (db : database) : database :=
  {| committed := committed db; seqs := sq; blocks := blocks db |}.

Definition has_account (a : Z) (st : store) : bool :=
  existsb (fun r => acc_id r =? a) (accounts st).

Definition has_transaction (t : Z) (st : store) : bool :=
  existsb (fun r => tx_id r =? t) (transactions st).

Definition has_entry (i : Z) (st : store) : bool :=
  existsb (fun r => le_id r =? i) (ledger_entries st).

Definition account_ids_in (ids : list Z) (st : store) : list Z :=
  map acc_id
    (filter (fun r => existsb (Z.eqb (acc_id r)) ids) (accounts st)).

Fixpoint all_some {A : Type} (l : list (option A)) : option (list A) :=
  match l with
  | [] => Some []
  | Some a :: l' =>
      match all_some l' with
      | Some r => Some (a :: r)
      | None => None
      end
  | None :: _ => None
  end.

(** An optional account reference: absent is NULL, which any foreign key
    accepts. *)
Definition reference_of (x : option JS.number) : option (option Z) :=
  match x with
  | None => Some None
  | Some n =>
      match int4_of n with
      | Some a => Some (Some a)
      | None => None
      end
  end.

Definition reference_ok (r : option Z) (st : store) : bool :=
  match r with
  | None => true
  | Some a => has_account a st
  end.

(** The rows of one [INSERT INTO ledger_entries], numbered from
    [next]. *)
Fixpoint entry_rows (next : Z)
  (rows : list (Z * JS.number * string * JS.number))
  : option (list ledger_entry) :=
  match rows with
  | [] => Some []
  | (t, a, ty, amt) :: rows' =>
      match int4_of a, numeric_14_2_of amt, entry_rows (next + 1) rows' with
      | Some a', Some c, Some es =>
          Some ({| le_id := next; transaction_id := t; account_id := a';
                   entry_type := ty; le_amount := c |} :: es)
      | _, _, _ => None
      end
  end.

Definition entry_ok (st : store) (e : ledger_entry) : bool :=
  has_transaction (transaction_id e) st
  && has_account (account_id e) st
  && negb (has_entry (le_id e) st).

Definition exec_open {R : Type} (s : session) (q : statement R)
  (db : database) : database * option R :=
  let st := view s db in
  let sq := seqs db in
  match q in statement R return database * option R with
  | BEGIN =>
      (match block_of s (blocks db) with
       | Some _ => db
       | None => set_block s (Active []) db
       end, Some tt)
  | COMMIT =>
      ({| committed := view s db; seqs := sq;
          blocks := without s (blocks db) |}, Some tt)
  | ROLLBACK => (end_block s db, Some tt)
  | SelectAccountIdsAny ids =>
      match all_some (map int4_of ids) with
      | Some ids' => (db, Some (account_ids_in ids' st))
      | None => fail s db
      end
  | SelectAccountId id =>
      match int4_of id with
      | Some a => (db, Some (account_ids_in [a] st))
      | None => fail s db
      end
  | SelectAccount id =>
      match int4_of id with
      | Some a => (db, Some (filter (fun r => acc_id r =? a) (accounts st)))
      | None => fail s db
      end
  | InsertAccount userId type currency =>
      match text_not_null_of userId, text_not_null_of type,
            text_not_null_of currency with
      | Some u, Some t, Some c =>
          let id := accounts_id_seq sq + 1 in
          let db' :=
            with_seqs {| accounts_id_seq := id;
                         transactions_id_seq := transactions_id_seq sq;
                         ledger_entries_id_seq := ledger_entries_id_seq sq |}
                      db in
          let row := {| acc_id := id; acc_user_id := u; acc_type := t;
                        acc_currency := c; acc_status := "active" |} in
          if has_account id st then fail s db'
          else (push s (WAccount row) db', Some row)
      | _, _, _ => fail s db
      end
  | InsertTransaction type amount currency source destination description =>
      match numeric_14_2_of amount, text_not_null_of currency,
            reference_of source, reference_of destination,
            text_of description with
      | Some c, Some cur, Some src, Some dst, Some d =>
          let id := transactions_id_seq sq + 1 in
          let db' :=
            with_seqs {| accounts_id_seq := accounts_id_seq sq;
                         transactions_id_seq := id;
                         ledger_entries_id_seq := ledger_entries_id_seq sq |}
                      db in
          let row := {| tx_id := id; tx_type := type; tx_amount := c;
                        tx_currency := cur; source_account_id := src;
                        destination_account_id := dst;
                        tx_status := "pending"; tx_description := d |} in
          if negb (has_transaction id st)
             && reference_ok src st && reference_ok dst st
          then (push s (WTransaction row) db', Some id)
          else fail s db'
      | _, _, _, _, _ => fail s db
      end
  | InsertLedgerEntries rows =>
      match entry_rows (ledger_entries_id_seq sq + 1) rows with
      | Some es =>
          let db' :=
            with_seqs {| accounts_id_seq := accounts_id_seq sq;
                         transactions_id_seq := transactions_id_seq sq;
                         ledger_entries_id_seq :=
                           ledger_entries_id_seq sq
                           + Z.of_nat (List.length es) |}
                      db in
          if forallb (entry_ok st) es
          then (push s (WEntries es) db', Some tt)
          else fail s db'
      | None => fail s db
      end
  | SelectBalance accountId =>
      match int4_of accountId with
      | Some a => (db, Some (balance_text a st))
      | None => fail s db
      end
  | UpdateTransactionStatus status id =>
      (push s (WStatus id status) db, Some tt)
  end.

(** In an aborted block every statement fails until the block ends;
    [COMMIT] then ends it as [ROLLBACK] does. *)
Definition exec_aborted {R : Type} (s : session) (q : statement R)
  (db : database) : database * option R :=
  match q in statement R return database * option R with
  | COMMIT => (end_block s db, Some tt)
  | ROLLBACK => (end_block s db, Some tt)
  | _ => (db, None)
  end.

(** One statement of session [s]: the database after it, and its result
    unless it failed. *)
Definition exec {R : Type} (s : session) (q : statement R) (db : database)
  : database * option R :=
  match block_of s (blocks db) with
  | Some Aborted => exec_aborted s q db
  | _ => exec_open s q db
  end.

End PG.

(* ================================================================= *)
(** * The routes of [index.js] *)

Module Ledger.

Import JS PG.

Local Open Scope string_scope.
Local Open Scope list_scope.
Local Open Scope Z_scope.

(** ** Route programs *)

(** An [async] route body: it returns, or awaits a statement and goes on
    with its result, or runs a [try] block with its [catch] handler. *)
Inductive program (A : Type) : Type :=
| Return (a : A)
| Query {R : Type} (q : statement R) (k : R -> program A)
| TryCatch {B : Type} (body handler : program B) (k : B -> program A).

Arguments Return {A} a.
Arguments Query {A R} q k.
Arguments TryCatch {A B} body handler k.

Fixpoint bind {A B : Type} (p : program A) (f : A -> program B)
  : program B :=
  match p with
  | Return a => f a
  | Query q k => Query q (fun r => bind (k r) f)
  | TryCatch body handler k => TryCatch body handler (fun x => bind (k x) f)
  end.

Notation "x <- 'await' q ;; k" := (Query q (fun x => k))
  (at level 61, q at next level, right associativity).
Notation "'await' q ;; k" := (Query q (fun _ => k))
  (at level 61, q at next level, right associativity).

(** A statement as it went over the wire. *)
Definition sent : Type := {R : Type & statement R}.

Definition wire {R : Type} (q : statement R) : sent := existT _ R q.

(** Running a program as session [s]: the database after it, the
    statements it sent, and its value unless an exception escaped.  A
    failed statement throws at its [await]. *)
Fixpoint run {A : Type} (s : session) (p : program A) (db : database)
  : database * list sent * option A :=
  match p with
  | Return a => (db, [], Some a)
  | Query q k =>
      match exec s q db with
      | (db1, Some r) =>
          let '(db2, tr, a) := run s (k r) db1 in (db2, wire q :: tr, a)
      | (db1, None) => (db1, [wire q], None)
      end
  | TryCatch body handler k =>
      let '(db1, tr1, b) := run s body db in
      match b with
      | Some x =>
          let '(db2, tr2, a) := run s (k x) db1 in (db2, tr1 ++ tr2, a)
      | None =>
          let '(db2, tr2, b') := run s handler db1 in
          match b' with
          | Some x =>
              let '(db3, tr3, a) := run s (k x) db2 in
              (db3, tr1 ++ tr2 ++ tr3, a)
          | None => (db2, tr1 ++ tr2, None)
          end
      end
  end.

(** ** Requests and responses *)

(** A parsed JSON object: [req.body], or the object given to
    [res.json]. *)
Definition object := list (string * value).

Fixpoint get (key : string) (o : object) : value :=
  match o with
  | [] => Undefined
  | (k, v) :: o' => if String.eqb key k then v else get key o'
  end.

Fixpoint has_key (key : string) (o : object) : bool :=
  match o with
  | [] => false
  | (k, _) :: o' => String.eqb key k || has_key key o'
  end.

Record response : Type := {
  status : Z;
  json : object
}.

Definition message (code : Z) (text : string) : response :=
  {| status := code; json := [("message", Str text)] |}.

(** [description || null] *)
Definition or_null (v : value) : value := if truthy v then v else Null.

(** [try { await client.query('ROLLBACK') } catch (rollbackErr) { ... }] *)
Definition rollback_quietly : program unit :=
  TryCatch (await ROLLBACK ;; Return tt) (Return tt) Return.

(** The [try { ... } catch (err) { ROLLBACK; 500 }] frame of the three
    money routes. *)
Definition guarded (body : program response) : program response :=
  TryCatch body
    (bind rollback_quietly
       (fun _ => Return (message 500 "Internal server error")))
    Return.

(** The [try { ... } catch (err) { 500 }] frame of the other routes. *)
Definition caught (body : program response) : program response :=
  TryCatch body (Return (message 500 "Internal server error")) Return.

(** ** [POST /accounts] *)

Definition account_json (a : account) : object :=
  [("id", Num (of_Z (acc_id a))); ("userId", Str (acc_user_id a));
   ("type", Str (acc_type a)); ("currency", Str (acc_currency a));
   ("status", Str (acc_status a))].

Definition post_accounts (body : object) : program response :=
  caught (
    let userId := get "userId" body in
    let type := get "type" body in
    let currency := get "currency" body in
    if negb (truthy userId) || negb (truthy type) || negb (truthy currency)
    then Return (message 400 "userId, type, and currency are required")
    else
      row <- await InsertAccount userId type currency ;;
      Return {| status := 201; json := account_json row |}).

(** ** [POST /transfers] *)

Definition post_transfers (body : object) : program response :=
  guarded (
    let sourceAccountId := get "sourceAccountId" body in
    let destinationAccountId := get "destinationAccountId" body in
    let amount := get "amount" body in
    let currency := get "currency" body in
    let description := get "description" body in
    if negb (truthy sourceAccountId) || negb (truthy destinationAccountId)
       || negb (truthy amount) || negb (truthy currency)
    then Return (message 400
      "sourceAccountId, destinationAccountId, amount, and currency are required")
    else
    let sourceId := parseInt sourceAccountId in
    let destId := parseInt destinationAccountId in
    let numericAmount := parseFloat amount in
    if is_nan sourceId || is_nan destId || is_nan numericAmount
       || leb numericAmount pos_zero
    then Return (message 400 "Invalid account ids or amount")
    else
    if strict_eq sourceId destId
    then Return (message 400
      "Source and destination accounts must be different")
    else
    await BEGIN ;;
    accountsResult <- await SelectAccountIdsAny [sourceId; destId] ;;
    if negb (Nat.eqb (List.length accountsResult) 2)
    then
      await ROLLBACK ;;
      Return (message 404 "One or both accounts not found")
    else
    transactionId <- await InsertTransaction "transfer" numericAmount
                       currency (Some sourceId) (Some destId)
                       (or_null description) ;;
    await InsertLedgerEntries
            [(transactionId, sourceId, "debit", numericAmount);
             (transactionId, destId, "credit", numericAmount)] ;;
    balance <- await SelectBalance sourceId ;;
    let newBalance := parseFloat (Str balance) in
    if ltb newBalance pos_zero
    then
      await ROLLBACK ;;
      Return (message 422 "Insufficient funds")
    else
    await UpdateTransactionStatus "completed" transactionId ;;
    await COMMIT ;;
    Return {| status := 201;
              json := [("transactionId", Num (of_Z transactionId));
                       ("status", Str "completed");
                       ("sourceAccountId", Num sourceId);
                       ("destinationAccountId", Num destId);
                       ("amount", Str (to_fixed2 numericAmount));
                       ("currency", currency)] |}).

(** ** [POST /deposits] *)

Definition post_deposits (body : object) : program response :=
  guarded (
    let accountId := get "accountId" body in
    let amount := get "amount" body in
    let currency := get "currency" body in
    let description := get "description" body in
    if negb (truthy accountId) || negb (truthy amount)
       || negb (truthy currency)
    then Return (message 400 "accountId, amount, and currency are required")
    else
    let accId := parseInt accountId in
    let numericAmount := parseFloat amount in
    if is_nan accId || is_nan numericAmount || leb numericAmount pos_zero
    then Return (message 400 "Invalid accountId or amount")
    else
    await BEGIN ;;
    accountResult <- await SelectAccountId accId ;;
    if Nat.eqb (List.length accountResult) 0
    then
      await ROLLBACK ;;
      Return (message 404 "Account not found")
    else
    transactionId <- await InsertTransaction "deposit" numericAmount
                       currency None (Some accId) (or_null description) ;;
    await InsertLedgerEntries
            [(transactionId, accId, "credit", numericAmount)] ;;
    await UpdateTransactionStatus "completed" transactionId ;;
    await COMMIT ;;
    Return {| status := 201;
              json := [("transactionId", Num (of_Z transactionId));
                       ("status", Str "completed");
                       ("accountId", Num accId);
                       ("amount", Str (to_fixed2 numericAmount));
                       ("currency", currency)] |}).

(** ** [POST /withdrawals] *)

Definition post_withdrawals (body : object) : program response :=
  guarded (
    let accountId := get "accountId" body in
    let amount := get "amount" body in
    let currency := get "currency" body in
    let description := get "description" body in
    if negb (truthy accountId) || negb (truthy amount)
       || negb (truthy currency)
    then Return (message 400 "accountId, amount, and currency are required")
    else
    let accId := parseInt accountId in
    let numericAmount := parseFloat amount in
    if is_nan accId || is_nan numericAmount || leb numericAmount pos_zero
    then Return (message 400 "Invalid accountId or amount")
    else
    await BEGIN ;;
    accountResult <- await SelectAccountId accId ;;
    if Nat.eqb (List.length accountResult) 0
    then
      await ROLLBACK ;;
      Return (message 404 "Account not found")
    else
    transactionId <- await InsertTransaction "withdrawal" numericAmount
                       currency (Some accId) None (or_null description) ;;
    await InsertLedgerEntries
            [(transactionId, accId, "debit", numericAmount)] ;;
    balance <- await SelectBalance accId ;;
    let newBalance := parseFloat (Str balance) in
    if ltb newBalance pos_zero
    then
      await ROLLBACK ;;
      Return (message 422 "Insufficient funds")
    else
    await UpdateTransactionStatus "completed" transactionId ;;
    await COMMIT ;;
    Return {| status := 201;
              json := [("transactionId", Num (of_Z transactionId));
                       ("status", Str "completed");
                       ("accountId", Num accId);
                       ("amount", Str (to_fixed2 numericAmount));
                       ("currency", currency)] |}).

(** ** [GET /accounts/:id] *)

Definition get_account (id : string) : program response :=
  caught (
    let accountId := parseInt (Str id) in
    if is_nan accountId
    then Return (message 400 "Invalid account id")
    else
    accountResult <- await SelectAccount accountId ;;
    match accountResult with
    | [] => Return (message 404 "Account not found")
    | account :: _ =>
        balance <- await SelectBalance accountId ;;
        Return {| status := 200;
                  json := account_json account
                          ++ [("balance", Str balance)] |}
    end).

(** ** The service *)

Inductive request : Type :=
| PostAccounts (body : object)
| PostTransfers (body : object)
| PostDeposits (body : object)
| PostWithdrawals (body : object)
| GetAccount (id : string).

Definition route (r : request) : program response :=
  match r with
  | PostAccounts body => post_accounts body
  | PostTransfers body => post_transfers body
  | PostDeposits body => post_deposits body
  | PostWithdrawals body => post_withdrawals body
  | GetAccount id => get_account id
  end.

(** One request served to its end on session [s]: the database after it,
    the statements sent and the response.  Every route answers from its
    own [catch]; the last case stands for Express's handler of an
    exception no route caught. *)
Definition handle (s : session) (r : request) (db : database)
  : database * list sent * response :=
  let '(db', tr, a) := run s (route r) db in
  (db', tr,
   match a with
   | Some resp => resp
   | None => message 500 "Internal Server Error"
   end).

(** A sequence of requests served one after the other. *)
Fixpoint serve (s : session) (rs : list request) (db : database)
  : database * list response :=
  match rs with
  | [] => (db, [])
  | r :: rs' =>
      let '(db1, _, resp) := handle s r db in
      let '(db2, resps) := serve s rs' db1 in
      (db2, resp :: resps)
  end.

(** ** Interleaved requests *)

(** A route between two awaits. *)
Inductive thread (A : Type) : Type :=
| Running (p : program A)
| Finished (a : A)
| Thrown.

Arguments Running {A} p.
Arguments Finished {A} a.
Arguments Thrown {A}.

(** The program up to and including its next statement. *)
Fixpoint step {A : Type} (s : session) (p : program A) (db : database)
  : database * thread A :=
  match p with
  | Return a => (db, Finished a)
  | Query q k =>
      match exec s q db with
      | (db', Some r) => (db', Running (k r))
      | (db', None) => (db', Thrown)
      end
  | TryCatch body handler k =>
      match step s body db with
      | (db', Running body') => (db', Running (TryCatch body' handler k))
      | (db', Finished x) => (db', Running (k x))
      | (db', Thrown) => (db', Running (bind handler k))
      end
  end.

Definition advance {A : Type} (s : session) (t : thread A) (db : database)
  : database * thread A :=
  match t with
  | Running p => step s p db
  | _ => (db, t)
  end.

(** Two requests in flight, each on its own pool client (sessions 1 and
    2); the schedule says whose turn it is, [true] for the first. *)
Fixpoint interleave {A : Type} (schedule : list bool) (t1 t2 : thread A)
  (db : database) : database * thread A * thread A :=
  match schedule with
  | [] => (db, t1, t2)
  | true :: rest =>
      let '(db', t1') := advance 1%nat t1 db in interleave rest t1' t2 db'
  | false :: rest =>
      let '(db', t2') := advance 2%nat t2 db in interleave rest t1 t2' db'
  end.

(** What a run leaves behind, the statements aside. *)
Definition outcome {A : Type} (x : database * list sent * option A)
  : database * option A :=
  (fst (fst x), snd x).

(** ** Databases met while one session runs alone *)

Definition at_rest (st : store) (sq : sequences) : database :=
  {| committed := st; seqs := sq; blocks := [] |}.

Definition in_block (s : session) (log : list write) (st : store)
  (sq : sequences) : database :=
  {| committed := st; seqs := sq; blocks := [(s, Active log)] |}.

Definition in_aborted (s : session) (st : store) (sq : sequences)
  : database :=
  {| committed := st; seqs := sq; blocks := [(s, Aborted)] |}.

Definition next_transaction (sq : sequences) : sequences :=
  {| accounts_id_seq := accounts_id_seq sq;
     transactions_id_seq := transactions_id_seq sq + 1;
     ledger_entries_id_seq := ledger_entries_id_seq sq |}.

Definition next_entries (n : nat) (sq : sequences) : sequences :=
  {| accounts_id_seq := accounts_id_seq sq;
     transactions_id_seq := transactions_id_seq sq;
     ledger_entries_id_seq := ledger_entries_id_seq sq + Z.of_nat n |}.

Definition next_account (sq : sequences) : sequences :=
  {| accounts_id_seq := accounts_id_seq sq + 1;
     transactions_id_seq := transactions_id_seq sq;
     ledger_entries_id_seq := ledger_entries_id_seq sq |}.

(** ** Properties of requests and databases *)

(** No session has a transaction block open. *)
Definition idle (db : database) : Prop := blocks db = [].

Fixpoint distinct (l : list Z) : bool :=
  match l with
  | [] => true
  | x :: l' => negb (existsb (Z.eqb x) l') && distinct l'
  end.

(** The keys of the committed rows: account ids are distinct, every id
    was handed out by its sequence, and every entry belongs to a
    transaction id that was handed out. *)
Definition keyed (db : database) : bool :=
  let st := committed db in
  let sq := seqs db in
  distinct (map acc_id (accounts st))
  && forallb (fun r => acc_id r <=? accounts_id_seq sq) (accounts st)
  && forallb (fun r => tx_id r <=? transactions_id_seq sq) (transactions st)
  && forallb (fun e => (le_id e <=? ledger_entries_id_seq sq)
                       && (transaction_id e <=? transactions_id_seq sq))
       (ledger_entries st).

(** A deposit or withdrawal body that passes both validation steps of its
    route. *)
Definition valid_single (body : object) : bool :=
  truthy (get "accountId" body) && truthy (get "amount" body)
  && truthy (get "currency" body)
  && negb (is_nan (parseInt (get "accountId" body)))
  && negb (is_nan (parseFloat (get "amount" body)))
  && negb (leb (parseFloat (get "amount" body)) pos_zero).

(** A transfer body that passes the three validation steps of its
    route. *)
Definition valid_transfer (body : object) : bool :=
  truthy (get "sourceAccountId" body)
  && truthy (get "destinationAccountId" body)
  && truthy (get "amount" body) && truthy (get "currency" body)
  && negb (is_nan (parseInt (get "sourceAccountId" body)))
  && negb (is_nan (parseInt (get "destinationAccountId" body)))
  && negb (is_nan (parseFloat (get "amount" body)))
  && negb (leb (parseFloat (get "amount" body)) pos_zero)
  && negb (strict_eq (parseInt (get "sourceAccountId" body))
                     (parseInt (get "destinationAccountId" body))).

(** The account a body field names, as the store reads it. *)
Definition account_named (field : string) (body : object) : option Z :=
  int4_of (parseInt (get field body)).

(** The amount of a body as the store keeps it. *)
Definition amount_stored (body : object) : option cents :=
  numeric_14_2_of (parseFloat (get "amount" body)).

(** The currency and description of a body can be stored as text. *)
Definition texts_storable (body : object) : bool :=
  match text_not_null_of (get "currency" body),
        text_of (or_null (get "description" body)) with
  | Some _, Some _ => true
  | _, _ => false
  end.

(** The three money routes. *)
Inductive money_route : Type := Deposit | Withdrawal | Transfer.

Definition money_request (m : money_route) (body : object) : request :=
  match m with
  | Deposit => PostDeposits body
  | Withdrawal => PostWithdrawals body
  | Transfer => PostTransfers body
  end.

(** The account a money request debits, if any. *)
Definition debited (m : money_route) (body : object) : option Z :=
  match m with
  | Deposit => None
  | Withdrawal => account_named "accountId" body
  | Transfer => account_named "sourceAccountId" body
  end.

(** ** The balance in the words of the specification *)

(** These follow the specification, not the balance query of the routes:
    they go through every row of [ledger_entries]. *)

(** The amounts of the entries of kind [kind] on account [a], among all
    the rows of [ledger_entries]. *)
Definition amounts_of (kind : string) (a : Z) (st : store) : list cents :=
  map le_amount
    (filter (fun e => (account_id e =? a) && String.eqb (entry_type e) kind)
       (ledger_entries st)).

Definition total (l : list cents) : cents := fold_right Z.add 0 l.

(** Sum of the credit amounts minus sum of the debit amounts over all
    the ledger entries of the account. *)
Definition credits_minus_debits (a : Z) (st : store) : cents :=
  total (amounts_of "credit" a st) - total (amounts_of "debit" a st).

(** No row of [ledger_entries] is an entry of the account. *)
Definition no_entries (a : Z) (st : store) : Prop :=
  forall e, In e (ledger_entries st) -> account_id e <> a.

(** ** Transactions and their entries *)

Definition entries_of_transaction (t : Z) (st : store) : list ledger_entry :=
  filter (fun e => transaction_id e =? t) (ledger_entries st).

(** The two legs of a transfer: a debit on its source and a credit on its
    destination, both of its amount. *)
Definition two_legs (t : transaction) (es : list ledger_entry) : Prop :=
  exists d c src dst,
    es = [d; c]
    /\ source_account_id t = Some src /\ destination_account_id t = Some dst
    /\ entry_type d = "debit" /\ account_id d = src
    /\ entry_type c = "credit" /\ account_id c = dst
    /\ le_amount d = tx_amount t /\ le_amount c = tx_amount t
    /\ transaction_id d = tx_id t /\ transaction_id c = tx_id t.

Definition transfers_paired (st : store) : Prop :=
  forall t, In t (transactions st) -> tx_type t = "transfer" ->
    two_legs t (entries_of_transaction (tx_id t) st).

Definition all_completed (st : store) : Prop :=
  forall t, In t (transactions st) -> tx_status t = "completed".

(** ** Requests in the words of the claims *)

Definition valid_body (m : money_route) (body : object) : bool :=
  match m with
  | Transfer => valid_transfer body
  | _ => valid_single body
  end.

(** The existence check of the route finds what it looks for: the one
    account of a deposit or withdrawal, or the two different accounts of
    a transfer. *)
Definition accounts_found (m : money_route) (body : object) (st : store)
  : bool :=
  match m with
  | Transfer =>
      match account_named "sourceAccountId" body,
            account_named "destinationAccountId" body with
      | Some a, Some b =>
          has_account a st && has_account b st && negb (a =? b)
      | _, _ => false
      end
  | _ =>
      match account_named "accountId" body with
      | Some a => has_account a st
      | None => false
      end
  end.

Definition account_fields (m : money_route) : list string :=
  match m with
  | Transfer => ["sourceAccountId"; "destinationAccountId"]
  | _ => ["accountId"]
  end.




Definition required_fields (m : money_route) : list string :=
  account_fields m ++ ["amount"; "currency"].

Definition missing_argument (m : money_route) (body : object) : Prop :=
  exists f, In f (required_fields m) /\ get f body = Undefined.

Definition non_positive_amount (body : object) : Prop :=
  leb (parseFloat (get "amount" body)) pos_zero = true.

Definition same_accounts (body : object) : Prop :=
  get "sourceAccountId" body = get "destinationAccountId" body
  \/ strict_eq (parseInt (get "sourceAccountId" body))
               (parseInt (get "destinationAccountId" body)) = true.

(** The 400 response of the presence test of each route. *)
Definition fields_required (m : money_route) : response :=
  match m with
  | Transfer => message 400
      "sourceAccountId, destinationAccountId, amount, and currency are required"
  | _ => message 400 "accountId, amount, and currency are required"
  end.

(** The 404 response of each route. *)
Definition not_found (m : money_route) : response :=
  match m with
  | Transfer => message 404 "One or both accounts not found"
  | _ => message 404 "Account not found"
  end.


(** The status updates among the statements sent. *)
Definition update_of (q : sent) : option (string * Z) :=
  match q with
  | existT _ _ (UpdateTransactionStatus status id) => Some (status, id)
  | _ => None
  end.

Fixpoint updates (tr : list sent) : list (string * Z) :=
  match tr with
  | [] => []
  | q :: tr' =>
      match update_of q with
      | Some u => u :: updates tr'
      | None => updates tr'
      end
  end.

Definition is_commit (q : sent) : bool :=
  match q with
  | existT _ _ COMMIT => true
  | _ => false
  end.

Definition keys (o : object) : list string := map fst o.

(** What one request may do to the committed rows when the sequences
    stood at [sq]: nothing, one more account, or one more transaction,
    completed, under the next id, with its entries. *)
Inductive effect (sq : sequences) (st : store) : store -> Prop :=
| Unchanged : effect sq st st
| Opened (a : account) :
    acc_id a = accounts_id_seq sq + 1 ->
    effect sq st (apply_write (WAccount a) st)
| Posted (t : transaction) (es : list ledger_entry) :
    tx_id t = transactions_id_seq sq + 1 ->
    tx_status t = "completed" ->
    Forall (fun e => transaction_id e = tx_id t) es ->
    (tx_type t = "transfer" -> two_legs t es) ->
    effect sq st {| accounts := accounts st;
                    transactions := transactions st ++ [t];
                    ledger_entries := ledger_entries st ++ es |}.

(** The sequences only move forward. *)
Definition seqs_le (sq sq' : sequences) : Prop :=
  accounts_id_seq sq <= accounts_id_seq sq'
  /\ transactions_id_seq sq <= transactions_id_seq sq'
  /\ ledger_entries_id_seq sq <= ledger_entries_id_seq sq'.

(** What holds of the database, the statements and the response after
    one request on a database that was at rest. *)
Definition step_ok (db : database) (out : database * list sent * response)
  : Prop :=
  let '(db', tr, resp) := out in
  idle db' /\ keyed db' = true /\ seqs_le (seqs db) (seqs db')
  /\ effect (seqs db) (committed db) (committed db')
  /\ (committed db' = committed db \/ status resp = 201)
  /\ (updates tr = []
      \/ updates tr = [("completed", transactions_id_seq (seqs db) + 1)]).

(** The rows of [transactions] and [ledger_entries] are only ever added
    to. *)
Definition extends (st st' : store) : Prop :=
  (exists txs, transactions st' = transactions st ++ txs)
  /\ (exists es, ledger_entries st' = ledger_entries st ++ es).

(** The balance query as the route sees it once the debit of [c] on
    account [a] is among the entries. *)
Definition balance_after_debit (a : Z) (c : cents) (st : store) : cents :=
  sum_entries a
    (apply_write
       (WEntries [{| le_id := 0; transaction_id := 0; account_id := a;
                     entry_type := "debit"; le_amount := c |}]) st).

(** The payload of a response has a field for the new balance. *)
Definition carries_new_balance (resp : response) : Prop :=
  has_key "newBalance" (json resp) = true.

(** ** Sample requests and databases *)

Definition open_account (user : string) : request :=
  PostAccounts [("userId", Str user); ("type", Str "checking");
                ("currency", Str "INR")].

Definition single_body (a : Z) (amount : string) : object :=
  [("accountId", Num (of_Z a)); ("amount", Str amount);
   ("currency", Str "INR")].

Definition transfer_body (a b : Z) (amount : string) : object :=
  [("sourceAccountId", Num (of_Z a)); ("destinationAccountId", Num (of_Z b));
   ("amount", Str amount); ("currency", Str "INR");
   ("description", Str "test transfer")].

(** Accounts 1 and 2, with 100.00 deposited into account 1. *)
Definition sample_database : database :=
  fst (serve 0%nat
         [open_account "x"; open_account "y";
          PostDeposits (single_body 1 "100.00")]
         empty_database).

(** Accounts 1 and 2, without entries. *)
Definition fresh_database : database :=
  fst (serve 0%nat [open_account "x"; open_account "y"] empty_database).

(** Both clients take turns, statement by statement. *)
Definition alternating : list bool :=
  [true; false; true; false; true; false; true; false; true; false;
   true; false; true; false; true; false; true; false; true; false].

(** ** What a posting writes *)

Definition leg (id t a : Z) (kind : string) (c : cents) : ledger_entry :=
  {| le_id := id; transaction_id := t; account_id := a;
     entry_type := kind; le_amount := c |}.

(** The transaction and the entries a money request answered 201 has
    written when the sequences stood at [sq]: the checks its route has
    made on the way are recorded with them. *)
Inductive posting (sq : sequences) (st : store)
  : request -> transaction -> list ledger_entry -> Prop :=
| Deposited (body : object) (a : Z) (c : cents) (cur : string)
    (d : option string) :
    account_named "accountId" body = Some a ->
    amount_stored body = Some c ->
    has_account a st = true -> 0 <= c ->
    posting sq st (PostDeposits body)
      {| tx_id := transactions_id_seq sq + 1; tx_type := "deposit";
         tx_amount := c; tx_currency := cur; source_account_id := None;
         destination_account_id := Some a; tx_status := "completed";
         tx_description := d |}
      [leg (ledger_entries_id_seq sq + 1) (transactions_id_seq sq + 1)
         a "credit" c]
| Withdrawn (body : object) (a : Z) (c : cents) (cur : string)
    (d : option string) :
    account_named "accountId" body = Some a ->
    amount_stored body = Some c ->
    has_account a st = true -> 0 <= c ->
    0 <= sum_entries a st - c ->
    posting sq st (PostWithdrawals body)
      {| tx_id := transactions_id_seq sq + 1; tx_type := "withdrawal";
         tx_amount := c; tx_currency := cur; source_account_id := Some a;
         destination_account_id := None; tx_status := "completed";
         tx_description := d |}
      [leg (ledger_entries_id_seq sq + 1) (transactions_id_seq sq + 1)
         a "debit" c]
| Transferred (body : object) (a b : Z) (c : cents) (cur : string)
    (d : option string) :
    account_named "sourceAccountId" body = Some a ->
    account_named "destinationAccountId" body = Some b ->
    amount_stored body = Some c ->
    has_account a st = true -> has_account b st = true -> a <> b ->
    0 <= c -> 0 <= sum_entries a st - c ->
    posting sq st (PostTransfers body)
      {| tx_id := transactions_id_seq sq + 1; tx_type := "transfer";
         tx_amount := c; tx_currency := cur; source_account_id := Some a;
         destination_account_id := Some b; tx_status := "completed";
         tx_description := d |}
      [leg (ledger_entries_id_seq sq + 1) (transactions_id_seq sq + 1)
         a "debit" c;
       leg (ledger_entries_id_seq sq + 1 + 1) (transactions_id_seq sq + 1)
         b "credit" c].

(** What one request has done to the committed rows, by its answer:
    nothing unless it is answered 201; then [POST /accounts] has added
    its account, and a money route its posting. *)
Definition served (r : request) (sq : sequences) (st : store)
  (resp : response) (st' : store) : Prop :=
  (status resp <> 201 /\ st' = st)
  \/ (status resp = 201
      /\ exists body u t c,
           r = PostAccounts body
           /\ text_not_null_of (get "userId" body) = Some u
           /\ text_not_null_of (get "type" body) = Some t
           /\ text_not_null_of (get "currency" body) = Some c
           /\ let row := {| acc_id := accounts_id_seq sq + 1;
                            acc_user_id := u; acc_type := t;
                            acc_currency := c; acc_status := "active" |} in
              json resp = account_json row
              /\ st' = apply_write (WAccount row) st)
  \/ (status resp = 201
      /\ exists t es,
           posting sq st r t es
           /\ st' = {| accounts := accounts st;
                       transactions := transactions st ++ [t];
                       ledger_entries := ledger_entries st ++ es |}).

(** ** Stores in good order *)

(** Credits minus debits over the whole ledger. *)
Definition ledger_total (st : store) : cents :=
  total (map signed_amount (ledger_entries st)).

(** The amounts of the transactions of one type. *)
Definition moved (type : string) (st : store) : cents :=
  total (map tx_amount
           (filter (fun t => String.eqb (tx_type t) type) (transactions st))).

(** The ledger holds what was deposited less what was withdrawn. *)
Definition books_balance (st : store) : Prop :=
  ledger_total st = moved "deposit" st - moved "withdrawal" st.

(** No account is overdrawn. *)
Definition solvent (st : store) : Prop := forall a, 0 <= sum_entries a st.

(** The foreign keys hold: every entry belongs to a transaction and to
    an account of the store, and the accounts a transaction names are in
    the store. *)
Definition referenced (st : store) : bool :=
  forallb (fun e => has_transaction (transaction_id e) st
                    && has_account (account_id e) st) (ledger_entries st)
  && forallb (fun t => reference_ok (source_account_id t) st
                       && reference_ok (destination_account_id t) st)
       (transactions st).

(** The primary keys of [transactions] and [ledger_entries] are
    unique. *)
Definition ids_unique (st : store) : bool :=
  distinct (map tx_id (transactions st))
  && distinct (map le_id (ledger_entries st)).

(** The one leg of a deposit, a credit on its destination, or of a
    withdrawal, a debit on its source; of its amount, under its id. *)
Definition one_leg (t : transaction) (es : list ledger_entry) : Prop :=
  exists e,
    es = [e] /\ le_amount e = tx_amount t /\ transaction_id e = tx_id t
    /\ ((tx_type t = "deposit" /\ entry_type e = "credit"
         /\ source_account_id t = None
         /\ destination_account_id t = Some (account_id e))
        \/ (tx_type t = "withdrawal" /\ entry_type e = "debit"
            /\ source_account_id t = Some (account_id e)
            /\ destination_account_id t = None)).

Definition singles_paired (st : store) : Prop :=
  forall t, In t (transactions st) ->
    tx_type t = "deposit" \/ tx_type t = "withdrawal" ->
    one_leg t (entries_of_transaction (tx_id t) st).

(** The rows of [st] are the first rows of [st'], relation by
    relation. *)
Definition grown (st st' : store) : Prop :=
  (exists new, accounts st' = accounts st ++ new)
  /\ (exists new, transactions st' = transactions st ++ new)
  /\ (exists new, ledger_entries st' = ledger_entries st ++ new).

(** ** Answers *)

(** The 400 response of the presence test of [POST /accounts]. *)
Definition account_fields_required : response :=
  message 400 "userId, type, and currency are required".

(** The 400 response of the second validation step of each money
    route. *)
Definition numbers_invalid (m : money_route) : response :=
  match m with
  | Transfer => message 400 "Invalid account ids or amount"
  | _ => message 400 "Invalid accountId or amount"
  end.

(** The response of the [catch] block of every route. *)
Definition server_error : response := message 500 "Internal server error".

(** The status codes of each route. *)
Definition statuses_of (r : request) : list Z :=
  match r with
  | PostAccounts _ => [201; 400; 500]
  | PostDeposits _ => [201; 400; 404; 500]
  | PostWithdrawals _ | PostTransfers _ => [201; 400; 404; 422; 500]
  | GetAccount _ => [200; 400; 404; 500]
  end.

(** The fields of the 201 payload of each money route. *)
Definition payload_keys (m : money_route) : list string :=
  match m with
  | Transfer => ["transactionId"; "status"; "sourceAccountId";
                 "destinationAccountId"; "amount"; "currency"]
  | _ => ["transactionId"; "status"; "accountId"; "amount"; "currency"]
  end.

(** The store cannot take a request that passed validation: an account
    id is no 32 bit integer or, the accounts being found, the amount does
    not fit [numeric(14,2)] or a text holds a zero byte. *)
Definition unstorable (m : money_route) (body : object) (st : store)
  : Prop :=
  (exists f, In f (account_fields m) /\ account_named f body = None)
  \/ (accounts_found m body st = true
      /\ (amount_stored body = None \/ texts_storable body = false)).

(** ** Texts of a request *)

(** Text that does not go on with a digit. *)
Definition ends_number (rest : string) : bool :=
  match rest with
  | EmptyString => true
  | String c _ => negb (is_digit c)
  end.

(** The three fields of [POST /accounts] pass its presence test. *)
Definition account_fields_present (body : object) : bool :=
  truthy (get "userId" body) && truthy (get "type" body)
  && truthy (get "currency" body).

(** The row [POST /accounts] inserts under [id]. *)
Definition account_row (id : Z) (body : object) : option account :=
  match text_not_null_of (get "userId" body),
        text_not_null_of (get "type" body),
        text_not_null_of (get "currency" body) with
  | Some u, Some t, Some c =>
      Some {| acc_id := id; acc_user_id := u; acc_type := t;
              acc_currency := c; acc_status := "active" |}
  | _, _, _ => None
  end.

(** The description a route stores: [description || null] as text. *)
Definition description_stored (body : object) : option string :=
  if truthy (get "description" body)
  then Some (ToString (get "description" body))
  else None.

(** ** Transactions of other clients *)

(** The database with the open transaction blocks [others] of other
    sessions beside its own. *)
Definition beside (others : list (session * block)) (db : database)
  : database :=
  {| committed := committed db; seqs := seqs db;
     blocks := blocks db ++ others |}.

(** ** The ledger against the transaction log *)

Definition names (a : Z) (r : option Z) : bool :=
  match r with
  | Some b => b =? a
  | None => false
  end.

(** What the transactions brought into account [a], and what they took
    out of it. *)
Definition inflow (a : Z) (st : store) : cents :=
  total (map tx_amount
           (filter (fun t => names a (destination_account_id t))
              (transactions st))).

Definition outflow (a : Z) (st : store) : cents :=
  total (map tx_amount
           (filter (fun t => names a (source_account_id t))
              (transactions st))).

(** The balance of every account, computed from its ledger entries, is
    what the transaction log says came in less what it says went out. *)
Definition ledger_matches_log (st : store) : Prop :=
  forall a, sum_entries a st = inflow a st - outflow a st.

(** ** One session among others *)

(** The database as session [s] alone would have it: the committed
    rows, the sequences, and its own block if it has one. *)
Definition alone (s : session) (db : database) : database :=
  {| committed := committed db; seqs := seqs db;
     blocks := match block_of s (blocks db) with
               | Some b => [(s, b)]
               | None => []
               end |}.

(** ** More sample requests and databases *)

(** Two accounts are opened, 100.00 is deposited into the first, 30.00
    withdrawn from it, 50.00 transferred to the second, and a withdrawal
    of 60.00 is then refused. *)
Definition busy_day : list request :=
  [open_account "x"; open_account "y";
   PostDeposits (single_body 1 "100.00");
   PostWithdrawals (single_body 1 "30.00");
   PostTransfers (transfer_body 1 2 "50.00");
   PostWithdrawals (single_body 1 "60.00")].

(** A request whose account id is beyond the 32 bit integers, and one
    whose amount is beyond [numeric(14,2)]. *)
Definition far_account : object :=
  [("accountId", Str "99999999999"); ("amount", Str "5.00");
   ("currency", Str "INR")].


(** Requests whose amount has a third fractional digit, whose amount
    has two fractional digits and is beyond [numeric(14,2)], and whose
    currency holds a zero byte. *)
Definition small_amount : object :=
  [("accountId", Num (of_Z 1)); ("amount", Str "0.004");
   ("currency", Str "INR")].

Definition wide_amount : object :=
  [("accountId", Num (of_Z 1)); ("amount", Str "1000000000000.00");
   ("currency", Str "INR")].

Definition zero_byte_currency : object :=
  [("accountId", Num (of_Z 1)); ("amount", Str "5.00");
   ("currency", Str (String (ascii_of_nat 0) "INR"))].

Definition huge_amount : object :=
  [("accountId", Str "1"); ("amount", Str "1e15"); ("currency", Str "INR")].

(** The second pool client has sent the first four statements of a
    deposit of 50.00 into account 1 and not yet its COMMIT. *)
Definition mid_deposit : database :=
  fst (fst (interleave [false; false; false; false]
              (Finished (message 200 "")) 
              (Running (route (PostDeposits (single_body 1 "50.00"))))
              sample_database)).

End Ledger.

(* ================================================================= *)
(** * Properties *)

Import JS PG Ledger.

Local Open Scope string_scope.
Local Open Scope list_scope.
Local Open Scope Z_scope.

(** * Decimal text read back *)

Section Digits.

Lemma digit_char_spec (d : Z) :
  0 <= d <= 9 ->
  is_digit (digit_char d) = true /\ code (digit_char d) - 48 = d.
Proof.
  intros H.
  assert (E : d = 0 \/ d = 1 \/ d = 2 \/ d = 3 \/ d = 4 \/ d = 5 \/ d = 6
              \/ d = 7 \/ d = 8 \/ d = 9) by lia.
  repeat (destruct E as [E | E]; [subst d; split; reflexivity |]).
  subst d; split; reflexivity.
Qed.

Lemma digit_head (c : ascii) (r : string) :
  is_digit c = true ->
  is_space c = false
  /\ read_sign (String c r) = (false, String c r)
  /\ prefix "Infinity" (String c r) = false.
Proof.
  intros H.
  destruct c as [[] [] [] [] [] [] [] []];
    vm_compute in H; try discriminate H; repeat split.
Qed.

(** Scanning the digits of [n], laid before [acc], reads [n] on top of
    what was read before and goes on with [acc]. *)
Lemma scan_digits_acc (fuel : nat) :
  forall n acc, 0 <= n < 10 ^ Z.of_nat (S fuel) ->
  exists len, 1 <= len /\
    forall v k, scan_digits (digits_acc (S fuel) n acc) v k
                = scan_digits acc (v * 10 ^ len + n) (k + len).
Proof.
  induction fuel as [| fuel IH]; intros n acc Hn.
  - exists 1. split; [lia |]. intros v k.
    change (10 ^ Z.of_nat 1) with 10 in Hn.
    assert (Hd : 0 <= n <= 9) by lia.
    cbn [digits_acc]. rewrite Z.mod_small by lia.
    replace (n <? 10) with true by (symmetry; apply Z.ltb_lt; lia).
    cbn [scan_digits].
    destruct (digit_char_spec n Hd) as [-> ->].
    f_equal; lia.
  - cbn [digits_acc]. destruct (n <? 10) eqn:E.
    + apply Z.ltb_lt in E. exists 1. split; [lia |]. intros v k.
      assert (Hd : 0 <= n <= 9) by lia.
      rewrite Z.mod_small by lia. cbn [scan_digits].
      destruct (digit_char_spec n Hd) as [-> ->].
      f_equal; lia.
    + apply Z.ltb_ge in E.
      assert (Hq : 0 <= n / 10 < 10 ^ Z.of_nat (S fuel)).
      { split; [apply Z.div_pos; lia |].
        apply Z.div_lt_upper_bound; [lia |].
        replace (Z.of_nat (S (S fuel))) with (Z.of_nat (S fuel) + 1) in Hn
          by lia.
        rewrite Z.pow_add_r in Hn by lia. lia. }
      destruct (IH (n / 10) (String (digit_char (n mod 10)) acc) Hq)
        as (len & Hlen & Hscan).
      exists (len + 1). split; [lia |]. intros v k.
      rewrite Hscan. cbn [scan_digits].
      assert (Hd : 0 <= n mod 10 <= 9)
        by (pose proof (Z.mod_pos_bound n 10); lia).
      destruct (digit_char_spec _ Hd) as [-> ->].
      rewrite Z.pow_add_r by lia.
      pose proof (Z.div_mod n 10).
      f_equal; lia.
Qed.

Lemma digits_fuel (n : Z) :
  0 <= n -> 0 <= n < 10 ^ Z.of_nat (S (Z.to_nat (Z.log2 n))).
Proof.
  intros H. split; [exact H |].
  destruct (Z.eq_dec n 0) as [-> | Hn].
  - reflexivity.
  - pose proof (Z.log2_nonneg n) as Hl.
    assert (Hlt : n < 2 ^ (Z.log2 n + 1))
      by (apply Z.log2_spec; lia).
    replace (Z.of_nat (S (Z.to_nat (Z.log2 n)))) with (Z.log2 n + 1) by lia.
    assert (2 ^ (Z.log2 n + 1) <= 10 ^ (Z.log2 n + 1))
      by (apply Z.pow_le_mono_l; lia).
    lia.
Qed.

Lemma append_assoc (a b c : string) :
  ((a ++ b) ++ c = a ++ (b ++ c))%string.
Proof.
  induction a as [| x a IH]; cbn [append]; [reflexivity | now rewrite IH].
Qed.

Lemma digits_acc_append (fuel : nat) :
  forall n acc, digits_acc fuel n acc = (digits_acc fuel n "" ++ acc)%string.
Proof.
  induction fuel as [| fuel IH]; intros n acc; cbn [digits_acc].
  - reflexivity.
  - destruct (n <? 10).
    + reflexivity.
    + rewrite (IH _ (String _ acc)), (IH _ (String _ "")).
      now rewrite append_assoc.
Qed.

Lemma scan_digits_digits (n : Z) (rest : string) :
  0 <= n ->
  exists len, 1 <= len /\
    forall v k, scan_digits (digits n ++ rest)%string v k
                = scan_digits rest (v * 10 ^ len + n) (k + len).
Proof.
  intros H. unfold digits. rewrite <- digits_acc_append.
  apply scan_digits_acc, digits_fuel, H.
Qed.

Lemma digit_char_mod (n : Z) : is_digit (digit_char (n mod 10)) = true.
Proof.
  apply digit_char_spec. pose proof (Z.mod_pos_bound n 10). lia.
Qed.

Lemma digits_acc_head (fuel : nat) :
  forall n acc, exists c r,
    digits_acc (S fuel) n acc = String c r /\ is_digit c = true.
Proof.
  induction fuel as [| fuel IH]; intros n acc.
  - cbn [digits_acc]. destruct (n <? 10);
      eexists _, _; (split; [reflexivity | apply digit_char_mod]).
  - change (digits_acc (S (S fuel)) n acc)
      with (let acc' := String (digit_char (n mod 10)) acc in
            if n <? 10 then acc' else digits_acc (S fuel) (n / 10) acc').
    cbv zeta. destruct (n <? 10).
    + eexists _, _; split; [reflexivity | apply digit_char_mod].
    + apply IH.
Qed.

Lemma digits_head (n : Z) (rest : string) :
  exists c r, (digits n ++ rest)%string = String c r /\ is_digit c = true.
Proof.
  unfold digits. rewrite <- digits_acc_append. apply digits_acc_head.
Qed.

End Digits.

(** * The sign of a balance read back by [parseFloat] *)

Section BalanceSign.

Lemma round_pos_sign (neg : bool) (num den : positive) :
  Zpos den < Zpos num * 2 ^ 1075 ->
  ltb (round_pos neg num den) pos_zero = neg.
Proof.
  intros H. unfold round_pos.
  replace (Zpos num * 2 ^ 1075 <=? Zpos den) with false
    by (symmetry; apply Z.leb_gt; exact H).
  cbv zeta.
  match goal with
  | |- ltb (let '(m, e) := ?c in _) _ = _ => destruct c as [m e]
  end.
  destruct (971 <? e); destruct neg; reflexivity.
Qed.

Lemma of_decimal_hundredths_sign (neg : bool) (a : Z) :
  0 <= a ->
  ltb (of_decimal neg a (-2)) pos_zero = neg && (0 <? a).
Proof.
  intros Ha. destruct a as [| p | p]; [| | lia].
  - destruct neg; reflexivity.
  - unfold of_decimal.
    change (400 <? -2) with false. cbv iota.
    replace (-2 + Z.log2 (Z.pos p) + 1 <? -400) with false
      by (symmetry; apply Z.ltb_ge; pose proof (Z.log2_nonneg (Z.pos p)); lia).
    change (0 <=? -2) with false. cbv iota.
    change (Z.to_pos (10 ^ (- -2))) with 100%positive.
    rewrite round_pos_sign.
    + now rewrite andb_true_r.
    + assert (100 < 2 ^ 1075) by (apply Z.ltb_lt; vm_compute; reflexivity).
      nia.
Qed.

(** [parseFloat] reads the text of a [numeric] with two fractional digits
    as the number nearest to that decimal. *)
Lemma parseFloat_numeric_out (c : cents) :
  parseFloat_string (numeric_out c) = of_decimal (c <? 0) (Z.abs c) (-2).
Proof.
  unfold numeric_out.
  set (a := Z.abs c).
  assert (Ha : 0 <= a) by (subst a; lia).
  assert (Hq : 0 <= a / 100) by (apply Z.div_pos; lia).
  remember (String (digit_char (a / 10 mod 10))
              (String (digit_char (a mod 10)) EmptyString)) as tail eqn:Htail.
  destruct (digits_head (a / 100) (String "." tail))
    as (h & r & Hhead & Hdig).
  destruct (digit_head h r Hdig) as (Hsp & Hsign & Hinf).
  destruct (scan_digits_digits (a / 100) (String "." tail) Hq)
    as (len & Hlen & Hscan).
  assert (Hd1 : 0 <= a / 10 mod 10 <= 9)
    by (pose proof (Z.mod_pos_bound (a / 10) 10); lia).
  assert (Hd0 : 0 <= a mod 10 <= 9)
    by (pose proof (Z.mod_pos_bound a 10); lia).
  destruct (digit_char_spec _ Hd1) as [D1 V1].
  destruct (digit_char_spec _ Hd0) as [D0 V0].
  assert (Hval : 10 * (10 * (a / 100) + a / 10 mod 10) + a mod 10 = a).
  { pose proof (Z.div_mod a 10). pose proof (Z.div_mod (a / 10) 10).
    replace (a / 100) with (a / 10 / 10)
      by (rewrite Z.div_div by lia; reflexivity).
    lia. }
  assert (Hparse : forall neg : bool,
    parseFloat_string
      ((if neg then "-" else "") ++ digits (a / 100) ++ "." ++ tail)%string
    = of_decimal neg a (-2)).
  { intros neg. unfold parseFloat_string.
    assert (Hrs : read_sign (trim_start
              ((if neg then "-" else "") ++ digits (a / 100) ++ "." ++ tail)%string)
            = (neg, (digits (a / 100) ++ String "." tail)%string)).
    { cbn [append]. destruct neg.
      - reflexivity.
      - cbn [append]. rewrite Hhead. cbn [trim_start]. rewrite Hsp.
        exact Hsign. }
    rewrite Hrs. rewrite Hhead at 1. rewrite Hinf.
    rewrite Hscan. cbn [append scan_digits].
    change (is_digit ".") with false. cbv iota.
    subst tail. cbn [scan_digits]. rewrite D1, D0, V1, V0.
    replace (0 * 10 ^ len + a / 100 ) with (a / 100) by lia.
    cbv iota beta.
    replace (0 + len + (0 + 1 + 1) =? 0) with false
      by (symmetry; apply Z.eqb_neq; lia).
    cbn [read_exponent]. rewrite Hval. reflexivity. }
  apply Hparse.
Qed.

(** [parseFloat] of the text of a [numeric] with two fractional digits is
    below zero exactly when the [numeric] is. *)
Lemma parseFloat_numeric_out_sign (c : cents) :
  ltb (parseFloat_string (numeric_out c)) pos_zero = (c <? 0).
Proof.
  rewrite parseFloat_numeric_out, of_decimal_hundredths_sign by lia.
  destruct (c <? 0) eqn:E; cbn [andb]; [| reflexivity].
  apply Z.ltb_lt in E. apply Z.ltb_lt. lia.
Qed.

End BalanceSign.

(** * Rounding to binary64 and back *)

Section Rounding.

(** The exponent [f] the rounding starts from is at or below the binary
    logarithm of the fraction. *)
Lemma log2_fraction_below (n d : Z) :
  0 < n -> 0 < d ->
  let l := Z.log2 n - Z.log2 d in
  let f := if (if 0 <=? l then d * 2 ^ l <=? n else d <=? n * 2 ^ (- l))
           then l else l - 1 in
  (0 <= f -> d * 2 ^ f <= n) /\ (f < 0 -> d <= n * 2 ^ (- f)).
Proof.
  intros Hn Hd l f.
  destruct (Z.log2_spec n Hn) as [Ln _].
  destruct (Z.log2_spec d Hd) as [_ Ld].
  pose proof (Z.log2_nonneg n) as Nn. pose proof (Z.log2_nonneg d) as Nd.
  subst f. destruct (0 <=? l) eqn:El.
  - apply Z.leb_le in El. destruct (d * 2 ^ l <=? n) eqn:G.
    + apply Z.leb_le in G. split; [intros _; exact G | lia].
    + split.
      * intros Hf.
        assert (E : 2 ^ Z.log2 n = 2 ^ (l - 1) * 2 ^ Z.succ (Z.log2 d)).
        { rewrite <- Z.pow_add_r by lia. f_equal. subst l. lia. }
        assert (0 < 2 ^ (l - 1)) by (apply Z.pow_pos_nonneg; lia).
        nia.
      * intros Hf. assert (l = 0) by lia.
        assert (E : Z.log2 n = Z.log2 d) by lia.
        replace (- (l - 1)) with 1 by lia. rewrite E in Ln.
        rewrite Z.pow_succ_r in Ld by lia. lia.
  - apply Z.leb_gt in El. destruct (d <=? n * 2 ^ (- l)) eqn:G.
    + apply Z.leb_le in G. split; [lia | intros _; exact G].
    + split; [lia |]. intros _.
      assert (E : 2 ^ Z.succ (Z.log2 d) = 2 ^ Z.log2 n * 2 ^ (- (l - 1))).
      { rewrite <- Z.pow_add_r by lia. f_equal. subst l. lia. }
      assert (0 < 2 ^ (- (l - 1))) by (apply Z.pow_pos_nonneg; lia).
      nia.
Qed.

Lemma nearest_within (sn d q r m1 : Z) :
  0 < d -> sn = d * q + r -> 0 <= r < d ->
  m1 = (if match 2 * r ?= d with
           | Eq => Z.odd q
           | Lt => false
           | Gt => true
           end then q + 1 else q) ->
  2 * Z.abs (m1 * d - sn) <= d.
Proof.
  intros Hd -> Hr ->.
  assert (Up : (q + 1) * d - (d * q + r) = d - r) by ring.
  assert (Down : q * d - (d * q + r) = - r) by ring.
  destruct (2 * r ?= d) eqn:C.
  - apply Z.compare_eq in C.
    destruct (Z.odd q); [rewrite Up | rewrite Down]; lia.
  - change (2 * r < d) in C. rewrite Down. lia.
  - apply Z.compare_gt_iff in C. rewrite Up. lia.
Qed.

(** A finite result with a negative exponent lies within half a unit in
    the last place of the fraction it was rounded from. *)
Lemma round_pos_near (neg neg' : bool) (num den mp : positive) (e : Z) :
  round_pos neg num den = S754_finite neg' mp e -> e < 0 ->
  2 * Z.abs (Zpos mp * Zpos den - Zpos num * 2 ^ (- e)) <= Zpos den
  /\ e <= Z.max (Z.log2 (Zpos num) - Z.log2 (Zpos den) - 52) (-1074) + 1.
Proof.
  intros H He. unfold round_pos in H.
  set (n := Zpos num) in *. set (d := Zpos den) in *.
  assert (Hn : 0 < n) by (subst n; lia).
  assert (Hd : 0 < d) by (subst d; lia).
  destruct (n * 2 ^ 1075 <=? d) eqn:Eu; [discriminate |].
  apply Z.leb_gt in Eu. cbv zeta in H.
  pose proof (log2_fraction_below n d Hn Hd) as F. cbv zeta in F.
  set (l := Z.log2 n - Z.log2 d) in *.
  set (f := if (if 0 <=? l then d * 2 ^ l <=? n else d <=? n * 2 ^ (- l))
            then l else l - 1) in *.
  assert (Hfl : f <= l) by (subst f; destruct (if 0 <=? l then _ else _); lia).
  set (e0 := Z.max (f - 52) (-1074)) in *.
  set (sn := if e0 <? 0 then n * 2 ^ (- e0) else n) in *.
  set (sd := if e0 <? 0 then d else d * 2 ^ e0) in *.
  set (q := sn / sd) in *. set (r := sn mod sd) in *.
  set (m1 := if match 2 * r ?= sd with
                | Eq => Z.odd q
                | Lt => false
                | Gt => true
                end then q + 1 else q) in *.
  destruct (m1 =? 2 ^ 53) eqn:E53.
  - (* the mantissa was rounded up to the next binade *)
    apply Z.eqb_eq in E53.
    destruct (971 <? e0 + 1); [discriminate |].
    injection H as _ Hm Hexp. subst e.
    assert (He0 : e0 < 0) by lia.
    assert (Esn : sn = n * 2 ^ (- e0))
      by (subst sn; now replace (e0 <? 0) with true
            by (symmetry; apply Z.ltb_lt; lia)).
    assert (Esd : sd = d)
      by (subst sd; now replace (e0 <? 0) with true
            by (symmetry; apply Z.ltb_lt; lia)).
    assert (Hqr : sn = sd * q + r /\ 0 <= r < sd).
    { subst q r. split; [apply Z.div_mod | apply Z.mod_pos_bound]; lia. }
    assert (Hm1 : 2 * Z.abs (m1 * d - sn) <= d).
    { apply (nearest_within sn d q r m1 Hd).
      - rewrite <- Esd. apply Hqr.
      - rewrite <- Esd. apply Hqr.
      - rewrite <- Esd. reflexivity. }
    split; [| subst e0; lia].
    assert (Ep : Z.pos mp = 2 ^ 52) by (rewrite <- Hm; reflexivity).
    rewrite Ep.
    replace (- (e0 + 1)) with (- e0 - 1) by lia.
    assert (E2 : 2 ^ (- e0) = 2 * 2 ^ (- e0 - 1)).
    { rewrite <- Z.pow_succ_r by lia. f_equal. lia. }
    rewrite E53, Esn, E2 in Hm1.
    change (2 ^ 53) with (2 * 2 ^ 52) in Hm1. lia.
  - apply Z.eqb_neq in E53.
    destruct (971 <? e0); [discriminate |].
    injection H as _ Hm Hexp. subst e.
    assert (Esn : sn = n * 2 ^ (- e0))
      by (subst sn; now replace (e0 <? 0) with true
            by (symmetry; apply Z.ltb_lt; lia)).
    assert (Esd : sd = d)
      by (subst sd; now replace (e0 <? 0) with true
            by (symmetry; apply Z.ltb_lt; lia)).
    assert (Hqr : sn = sd * q + r /\ 0 <= r < sd).
    { subst q r. split; [apply Z.div_mod | apply Z.mod_pos_bound]; lia. }
    assert (Hm1 : 2 * Z.abs (m1 * d - sn) <= d).
    { apply (nearest_within sn d q r m1 Hd).
      - rewrite <- Esd. apply Hqr.
      - rewrite <- Esd. apply Hqr.
      - rewrite <- Esd. reflexivity. }
    split; [| subst e0; lia].
    (* the mantissa is positive *)
    assert (Hpos : 1 <= m1).
    { assert (Hq : 0 <= q) by (subst q; apply Z.div_pos; lia).
      destruct (Z.eq_dec q 0) as [Hq0 | Hq0].
      - (* only at the least exponent, and then it rounds up *)
        assert (Hr : r = sn) by lia.
        assert (Hlow : e0 = -1074).
        { destruct (Z.eq_dec e0 (-1074)) as [E | E]; [exact E | exfalso].
          assert (Ef : e0 = f - 52) by (subst e0; lia).
          assert (Hbig : d * 2 ^ 52 <= sn).
          { rewrite Esn, Ef. destruct F as [F1 F2].
            replace (- (f - 52)) with (52 - f) by lia.
            destruct (Z_lt_le_dec f 0) as [Hf | Hf].
            - specialize (F2 Hf).
              replace (52 - f) with (- f + 52) by lia.
              rewrite Z.pow_add_r by lia.
              assert (0 < 2 ^ 52) by reflexivity. nia.
            - specialize (F1 Hf).
              assert (E2 : 2 ^ 52 = 2 ^ f * 2 ^ (52 - f)).
              { rewrite <- Z.pow_add_r by lia. f_equal. lia. }
              assert (0 < 2 ^ (52 - f)) by (apply Z.pow_pos_nonneg; lia).
              rewrite E2. nia. }
          assert (0 < 2 ^ 52) by reflexivity. nia. }
        assert (Hup : sd < 2 * r).
        { rewrite Hr, Esn, Esd, Hlow.
          change (- -1074) with 1074.
          change (2 ^ 1075) with (2 * 2 ^ 1074) in Eu. lia. }
        subst m1. rewrite (proj2 (Z.compare_gt_iff _ _) Hup). lia.
      - subst m1. destruct (match 2 * r ?= sd with
                            | Eq => Z.odd q | Lt => false | Gt => true
                            end); lia. }
    assert (Ep : Z.pos mp = m1).
    { rewrite <- Hm. destruct m1; lia. }
    rewrite Ep, <- Esn. exact Hm1.
Qed.

Lemma round_pos_finite (neg : bool) (num den : positive) :
  Zpos den < Zpos num * 2 ^ 1075 ->
  Z.log2 (Zpos num) - Z.log2 (Zpos den) <= 1000 ->
  exists mp e, round_pos neg num den = S754_finite neg mp e.
Proof.
  intros Hu Hl. unfold round_pos.
  replace (Zpos num * 2 ^ 1075 <=? Zpos den) with false
    by (symmetry; apply Z.leb_gt; exact Hu).
  cbv zeta.
  set (l := Z.log2 (Zpos num) - Z.log2 (Zpos den)) in *.
  set (f := if (if 0 <=? l then Zpos den * 2 ^ l <=? Zpos num
                else Zpos den <=? Zpos num * 2 ^ (- l))
            then l else l - 1).
  assert (Hfl : f <= l)
    by (subst f; destruct (if 0 <=? l then _ else _); lia).
  set (e0 := Z.max (f - 52) (-1074)).
  assert (He0 : e0 <= 948) by (subst e0; lia).
  match goal with
  | |- context [if ?c =? 2 ^ 53 then _ else _] => destruct (c =? 2 ^ 53)
  end.
  - replace (971 <? e0 + 1) with false by (symmetry; apply Z.ltb_ge; lia).
    now eexists _, _.
  - replace (971 <? e0) with false by (symmetry; apply Z.ltb_ge; lia).
    now eexists _, _.
Qed.

(** The number read from an amount of [c] hundredths, at most
    [999999999999.99]: a finite number within [2^-13] of [c / 100]. *)
Lemma hundredths_read (c : Z) :
  1 <= c < 10 ^ 14 ->
  exists mp e,
    of_decimal false c (-2) = S754_finite false mp e
    /\ e <= -11
    /\ 2 * Z.abs (Zpos mp * 100 - c * 2 ^ (- e)) <= 100.
Proof.
  intros Hc. destruct c as [| p | p]; try lia.
  assert (Hlog : Z.log2 (Z.pos p) <= 46).
  { assert (Z.log2 (Z.pos p) < 47); [| lia].
    apply Z.log2_lt_pow2; [lia |].
    assert (10 ^ 14 < 2 ^ 47) by reflexivity. lia. }
  pose proof (Z.log2_nonneg (Z.pos p)) as Hnn.
  assert (E : of_decimal false (Z.pos p) (-2) = round_pos false p 100).
  { unfold of_decimal. change (400 <? -2) with false. cbv iota.
    replace (-2 + Z.log2 (Z.pos p) + 1 <? -400) with false
      by (symmetry; apply Z.ltb_ge; lia).
    reflexivity. }
  rewrite E.
  assert (Hu : Z.pos 100 < Z.pos p * 2 ^ 1075).
  { assert (100 < 2 ^ 1075) by (apply Z.ltb_lt; vm_compute; reflexivity).
    nia. }
  assert (Hl6 : Z.log2 100 = 6) by reflexivity.
  destruct (round_pos_finite false p 100 Hu) as (mp & e & R); [lia |].
  exists mp, e. split; [exact R |].
  assert (He : e <= -11).
  { destruct (Z_lt_le_dec e 0) as [Hneg | Hpos].
    - destruct (round_pos_near _ _ _ _ _ _ R Hneg) as [_ B]. lia.
    - exfalso.
      (* a nonnegative exponent would put the number above 2^52 *)
      unfold round_pos in R.
      replace (Z.pos p * 2 ^ 1075 <=? 100) with false in R
        by (symmetry; apply Z.leb_gt; exact Hu).
      cbv zeta in R.
      set (l := Z.log2 (Z.pos p) - Z.log2 100) in *.
      set (f := if (if 0 <=? l then 100 * 2 ^ l <=? Z.pos p
                    else 100 <=? Z.pos p * 2 ^ (- l))
                then l else l - 1) in *.
      assert (Hfl : f <= l)
        by (subst f; destruct (if 0 <=? l then _ else _); lia).
      set (e0 := Z.max (f - 52) (-1074)) in *.
      assert (He0 : e0 <= -12) by (subst e0 l; lia).
      match type of R with
      | context [if ?c =? 2 ^ 53 then _ else _] => destruct (c =? 2 ^ 53)
      end.
      + destruct (971 <? e0 + 1); [discriminate |].
        injection R as _ R. lia.
      + destruct (971 <? e0); [discriminate |].
        injection R as _ R. lia. }
  split; [exact He |].
  destruct (round_pos_near _ _ _ _ _ _ R) as [N _]; [lia | exact N].
Qed.

Lemma pow10_pos (k : Z) : 0 <= k -> 0 < 10 ^ k.
Proof. intros H. apply Z.pow_pos_nonneg; lia. Qed.

Lemma pow2_pos (k : Z) : 0 <= k -> 0 < 2 ^ k.
Proof. intros H. apply Z.pow_pos_nonneg; lia. Qed.

(** A decimal that reads as a number is near it. *)
Lemma of_decimal_near (s p : Z) (mp : positive) (e : Z) :
  of_decimal false s p = S754_finite false mp e -> e < 0 ->
  near mp e s p.
Proof.
  intros H He. unfold of_decimal in H. destruct s as [| ps | ps];
    try discriminate.
  destruct (400 <? p); [discriminate |].
  destruct (p + Z.log2 (Z.pos ps) + 1 <? -400); [discriminate |].
  unfold near. destruct (0 <=? p) eqn:Ep.
  - apply Z.leb_le in Ep. pose proof (pow10_pos p Ep) as Hp.
    destruct (round_pos_near _ _ _ _ _ _ H He) as [N _].
    rewrite Pos2Z.inj_mul, Z2Pos.id in N by exact Hp. lia.
  - apply Z.leb_gt in Ep. assert (Hp : 0 < 10 ^ (- p)) by (apply pow10_pos; lia).
    destruct (round_pos_near _ _ _ _ _ _ H He) as [N _].
    rewrite Z2Pos.id in N by exact Hp. exact N.
Qed.

Lemma near_scale (mp : positive) (e p k : Z) :
  0 <= k -> near mp e (10 ^ k) p -> near mp e 1 (p + k).
Proof.
  intros Hk. unfold near.
  destruct (0 <=? p) eqn:Ep; destruct (0 <=? p + k) eqn:Epk;
    try apply Z.leb_le in Ep; try apply Z.leb_le in Epk;
    try apply Z.leb_gt in Ep; try apply Z.leb_gt in Epk; try lia.
  - intros ->. rewrite Z.pow_add_r by lia. ring.
  - intros H.
    assert (E : 10 ^ k = 10 ^ (p + k) * 10 ^ (- p)).
    { rewrite <- Z.pow_add_r by lia. f_equal. lia. }
    assert (Hp : 0 < 10 ^ (- p)) by (apply pow10_pos; lia).
    rewrite E in H.
    replace (Z.pos mp * 10 ^ (- p) - 10 ^ (p + k) * 10 ^ (- p) * 2 ^ (- e))
      with ((Z.pos mp - 10 ^ (p + k) * 2 ^ (- e)) * 10 ^ (- p)) in H by ring.
    rewrite Z.abs_mul, (Z.abs_eq (10 ^ (- p))) in H by lia.
    assert (Z.abs (Z.pos mp - 10 ^ (p + k) * 2 ^ (- e)) = 0) by nia.
    lia.
  - intros H.
    assert (E : 10 ^ (- p) = 10 ^ k * 10 ^ (- (p + k))).
    { rewrite <- Z.pow_add_r by lia. f_equal. lia. }
    assert (Hk' : 0 < 10 ^ k) by (apply pow10_pos; lia).
    rewrite E in H.
    replace (Z.pos mp * (10 ^ k * 10 ^ (- (p + k))) - 10 ^ k * 2 ^ (- e))
      with (10 ^ k * (Z.pos mp * 10 ^ (- (p + k)) - 1 * 2 ^ (- e)))
      in H by ring.
    rewrite Z.abs_mul, (Z.abs_eq (10 ^ k)) in H by lia.
    nia.
Qed.

(** A decimal near the number read from [c] hundredths rounds to [c]
    hundredths. *)
Lemma near_rounds (mp : positive) (e s p c : Z) :
  e <= -11 ->
  2 * Z.abs (Zpos mp * 100 - c * 2 ^ (- e)) <= 100 ->
  near mp e s p ->
  (if 0 <=? p + 2 then s * 10 ^ (p + 2)
   else (2 * s + 10 ^ (- (p + 2))) / (2 * 10 ^ (- (p + 2)))) = c.
Proof.
  intros He Hc Hn. unfold near in Hn.
  set (U := 2 ^ (- e)) in *.
  assert (HU : 2048 <= U).
  { subst U. change 2048 with (2 ^ 11). apply Z.pow_le_mono_r; lia. }
  clearbody U.
  destruct (0 <=? p) eqn:Ep.
  - apply Z.leb_le in Ep.
    replace (0 <=? p + 2) with true by (symmetry; apply Z.leb_le; lia).
    rewrite Z.pow_add_r by lia. change (10 ^ 2) with 100.
    rewrite Z.mul_assoc. set (v := s * 10 ^ p) in *. clearbody v.
    assert (E : Z.pos mp * 100 - c * U = (v * 100 - c) * U)
      by (rewrite Hn; ring).
    rewrite E, Z.abs_mul, (Z.abs_eq U) in Hc by lia.
    assert (Z.abs (v * 100 - c) = 0) by nia. lia.
  - apply Z.leb_gt in Ep.
    set (W := 10 ^ (- p)) in *.
    assert (HW : 0 < W) by (subst W; apply pow10_pos; lia).
    destruct (0 <=? p + 2) eqn:Eq.
    + apply Z.leb_le in Eq.
      assert (EW : W * 10 ^ (p + 2) = 100).
      { subst W. rewrite <- Z.pow_add_r by lia.
        replace (- p + (p + 2)) with 2 by lia. reflexivity. }
      set (V := 10 ^ (p + 2)) in *.
      assert (HV : 0 < V) by (subst V; apply pow10_pos; lia).
      clearbody V W. nia.
    + apply Z.leb_gt in Eq.
      set (V := 10 ^ (- (p + 2))) in *.
      assert (HV : 0 < V) by (subst V; apply pow10_pos; lia).
      assert (EW : W = 100 * V).
      { subst W V. replace (- p) with (2 + - (p + 2)) by lia.
        rewrite Z.pow_add_r by lia. reflexivity. }
      clearbody V W. subst W.
      assert (B : 2 * Z.abs (s - c * V) * U <= 400 * V) by nia.
      assert (B' : 2 * Z.abs (s - c * V) < V) by nia.
      symmetry. apply Z.div_unique with (r := 2 * s + V - c * (2 * V)); lia.
Qed.

(** * The shortest decimal of an amount *)

Lemma SFeqb_finite (y : number) (m : positive) (e : Z) :
  SFeqb y (S754_finite false m e) = true -> y = S754_finite false m e.
Proof.
  unfold SFeqb, SFcompare.
  destruct y as [sg | sg | | sg m' e']; try (destruct sg; discriminate);
    try discriminate.
  destruct sg; [discriminate |].
  destruct (e' ?= e) eqn:Ee; try discriminate.
  apply Z.compare_eq in Ee. subst e'.
  destruct (Pos.compare_cont Eq m' m) eqn:Em; try discriminate.
  apply Pos.compare_eq in Em. subst m'. reflexivity.
Qed.

Lemma first_above_bounds (num den L H : Z) :
  (forall j, j < L -> below_pow10 num den j = false) ->
  (forall j, H <= j -> below_pow10 num den j = true) ->
  forall (fuel : nat) (n0 : Z),
    L <= n0 + Z.of_nat fuel ->
    L <= first_above fuel num den n0 <= Z.max n0 H.
Proof.
  intros HL HH. induction fuel as [| fuel IH]; intros n0 Hn0.
  - cbn [first_above]. lia.
  - cbn [first_above]. destruct (below_pow10 num den n0) eqn:E.
    + destruct (Z_lt_le_dec n0 L) as [Hlt | Hge]; [| lia].
      rewrite (HL n0 Hlt) in E. discriminate.
    + assert (n0 < H).
      { destruct (Z_lt_le_dec n0 H) as [Hlt | Hge]; [exact Hlt |].
        rewrite (HH n0 Hge) in E. discriminate. }
      specialize (IH (n0 + 1)). lia.
Qed.

Lemma candidate_reads_back (x : number) (num den n k s p : Z) :
  candidate x num den n k = Some (s, p) ->
  p = n - k /\ SFeqb (of_decimal false s p) x = true.
Proof.
  unfold candidate.
  set (lo := if 0 <=? n - k then num / (den * 10 ^ (n - k))
             else num * 10 ^ (- (n - k)) / den).
  clearbody lo.
  destruct (SFeqb (of_decimal false lo (n - k)) x) eqn:Elo,
    (SFeqb (of_decimal false (lo + 1) (n - k)) x) eqn:Ehi;
    try discriminate.
  - match goal with |- Some (if ?c then _ else _, _) = _ -> _ =>
      destruct c end; intros [= <- <-]; split; auto.
  - intros [= <- <-]; split; auto.
  - intros [= <- <-]; split; auto.
Qed.

(** The search ends at a candidate when there is one within its fuel. *)
Lemma shortest_from_found (x : number) (num den n k0 : Z) :
  candidate x num den n k0 <> None ->
  forall (fuel : nat) (k : Z),
    k <= k0 < k + Z.of_nat fuel ->
    exists k' s p,
      k <= k' /\ candidate x num den n k' = Some (s, p)
      /\ shortest_from fuel x num den n k
         = if s =? 10 ^ k' then (1, p + k') else (s, p).
Proof.
  intros Hc. induction fuel as [| fuel IH]; intros k Hk; [lia |].
  cbn [shortest_from].
  destruct (candidate x num den n k) as [[s p] |] eqn:E.
  - exists k, s, p. split; [lia |]. split; [exact E | reflexivity].
  - assert (k <> k0) by (intros ->; apply Hc; exact E).
    destruct (IH (k + 1)) as (k' & s & p & Hk' & Ec & Es); [lia |].
    exists k', s, p. split; [lia |]. split; [exact Ec | exact Es].
Qed.

(** What the search returns for a number of negative exponent is near
    it. *)
Lemma shortest_from_near (mp : positive) (e : Z) (num den n k0 : Z)
  (fuel : nat) :
  e < 0 -> 1 <= k0 < 1 + Z.of_nat fuel ->
  candidate (S754_finite false mp e) num den n k0 <> None ->
  let '(s, p) := shortest_from fuel (S754_finite false mp e) num den n 1 in
  near mp e s p.
Proof.
  intros He Hk Hc.
  destruct (shortest_from_found _ _ _ _ _ Hc fuel 1 Hk)
    as (k' & s & p & Hk' & Ec & ->).
  apply candidate_reads_back in Ec. destruct Ec as [_ Eb].
  apply SFeqb_finite in Eb. apply of_decimal_near in Eb; [| exact He].
  destruct (s =? 10 ^ k') eqn:Es; [| exact Eb].
  apply Z.eqb_eq in Es. subst s. apply near_scale; [lia | exact Eb].
Qed.

Lemma SFeqb_refl_finite (m : positive) (e : Z) :
  SFeqb (S754_finite false m e) (S754_finite false m e) = true.
Proof.
  unfold SFeqb, SFcompare. rewrite Z.compare_refl, Pos.compare_cont_refl.
  reflexivity.
Qed.

(** The decimal exponent of the number read from [c >= 2] hundredths. *)
Lemma hundredths_exponent (c : Z) (mp : positive) (e : Z) :
  2 <= c < 10 ^ 14 -> e <= -11 ->
  2 * Z.abs (Zpos mp * 100 - c * 2 ^ (- e)) <= 100 ->
  -1 <= decimal_exponent (Zpos mp) (2 ^ (- e)) <= 15.
Proof.
  intros Hc He N.
  assert (EU : 2 ^ (- e) = 2 ^ (- e - 11) * 2048).
  { change 2048 with (2 ^ 11).
    rewrite <- (Z.pow_add_r 2 (- e - 11) 11) by lia. f_equal. lia. }
  assert (HU' : 0 < 2 ^ (- e - 11)) by (apply pow2_pos; lia).
  assert (Hlog : Z.log2 (2 ^ (- e)) = - e) by (apply Z.log2_pow2; lia).
  set (U := 2 ^ (- e)) in *. set (U' := 2 ^ (- e - 11)) in *.
  assert (Hhi : Z.pos mp < 10 ^ 12 * U).
  { assert (10 ^ 14 = 100 * 10 ^ 12) by reflexivity. nia. }
  assert (Hlo : U <= Z.pos mp * 100) by nia.
  assert (Hl : -7 <= Z.log2 (Z.pos mp) + e < 40).
  { split.
    - assert (- e - 7 <= Z.log2 (Z.pos mp)); [| lia].
      apply Z.log2_le_pow2; [lia |].
      replace (- e - 7) with ((- e - 11) + 4) by lia.
      rewrite Z.pow_add_r by lia. change (2 ^ 4) with 16.
      fold U'. lia.
    - assert (Z.log2 (Z.pos mp) < 40 - e); [| lia].
      apply Z.log2_lt_pow2; [lia |].
      replace (40 - e) with (40 + - e) by lia.
      rewrite Z.pow_add_r by lia. fold U.
      assert (10 ^ 12 < 2 ^ 40) by reflexivity. nia. }
  unfold decimal_exponent. rewrite Hlog.
  set (l := Z.log2 (Z.pos mp) - - e).
  assert (Hl' : -8 <= l - 1 <= 39) by (subst l; lia).
  set (n0 := (l - 1) * 30103 / 100000 - 1).
  assert (Hn0 : -4 <= n0 <= 10).
  { subst n0.
    assert (-3 <= (l - 1) * 30103 / 100000).
    { change (-3) with (-8 * 30103 / 100000).
      apply Z.div_le_mono; lia. }
    assert ((l - 1) * 30103 / 100000 <= 11).
    { change 11 with (39 * 30103 / 100000).
      apply Z.div_le_mono; lia. }
    lia. }
  assert (B : -1 <= first_above 8 (Z.pos mp) U n0 <= Z.max n0 12).
  { apply first_above_bounds.
    - intros j Hj. unfold below_pow10.
      replace (0 <=? j) with false by (symmetry; apply Z.leb_gt; lia).
      apply Z.ltb_ge.
      assert (10 ^ 2 <= 10 ^ (- j)) by (apply Z.pow_le_mono_r; lia).
      change (10 ^ 2) with 100 in *. nia.
    - intros j Hj. unfold below_pow10.
      replace (0 <=? j) with true by (symmetry; apply Z.leb_le; lia).
      apply Z.ltb_lt.
      assert (10 ^ 12 <= 10 ^ j) by (apply Z.pow_le_mono_r; lia).
      assert (0 < U) by lia. nia.
    - lia. }
  lia.
Qed.

(** Among the decimals with two fractional digits, [c] hundredths reads
    back as the number it was read as. *)
Lemma hundredths_candidate (c : Z) (mp : positive) (e n : Z) :
  e <= -11 ->
  of_decimal false c (-2) = S754_finite false mp e ->
  2 * Z.abs (Zpos mp * 100 - c * 2 ^ (- e)) <= 100 ->
  candidate (S754_finite false mp e) (Zpos mp) (2 ^ (- e)) n (n + 2)
  <> None.
Proof.
  intros He R N. unfold candidate.
  replace (n - (n + 2)) with (-2) by lia.
  change (0 <=? -2) with false. cbv iota.
  change (10 ^ (- -2)) with 100.
  assert (HU : 2048 <= 2 ^ (- e)).
  { change 2048 with (2 ^ 11). apply Z.pow_le_mono_r; lia. }
  set (U := 2 ^ (- e)) in *. clearbody U.
  set (lo := Z.pos mp * 100 / U).
  assert (Hlo : lo = c \/ lo + 1 = c).
  { destruct (Z_le_gt_dec (c * U) (Z.pos mp * 100)) as [Hge | Hlt].
    - left. subst lo. symmetry.
      apply Z.div_unique with (r := Z.pos mp * 100 - c * U); lia.
    - right. subst lo.
      assert (c - 1 = Z.pos mp * 100 / U); [| lia].
      apply Z.div_unique with (r := Z.pos mp * 100 - (c - 1) * U); lia. }
  clearbody lo. cbv zeta.
  destruct Hlo as [-> | <-].
  - rewrite R, SFeqb_refl_finite.
    destruct (SFeqb (of_decimal false (c + 1) (-2)) _);
      discriminate.
  - rewrite R, SFeqb_refl_finite.
    destruct (SFeqb (of_decimal false lo (-2)) _);
      discriminate.
Qed.

(** An amount of [c] hundredths, passed through a number and its
    shortest decimal, is kept as [c] hundredths. *)
Lemma hundredths_kept (c : cents) :
  0 < c < 10 ^ 14 ->
  numeric_14_2_of (of_decimal false c (-2)) = Some c.
Proof.
  intros Hc. destruct (Z.eq_dec c 1) as [-> | H1];
    [vm_compute; reflexivity |].
  destruct (hundredths_read c) as (mp & e & R & He & N); [lia |].
  rewrite R. unfold numeric_14_2_of, shortest, fraction_of.
  replace (0 <=? e) with false by (symmetry; apply Z.leb_gt; lia).
  pose proof (hundredths_exponent c mp e) as Hn.
  set (n := decimal_exponent (Z.pos mp) (2 ^ (- e))) in *.
  assert (Hn' : -1 <= n <= 15) by (apply Hn; [lia | exact He | exact N]).
  pose proof (shortest_from_near mp e (Z.pos mp) (2 ^ (- e)) n (n + 2) 17)
    as Hs.
  destruct (shortest_from 17 (S754_finite false mp e) (Z.pos mp)
              (2 ^ (- e)) n 1) as [s p].
  assert (Hnear : near mp e s p).
  { apply Hs; [lia | lia |].
    apply (hundredths_candidate c); assumption. }
  cbv zeta. rewrite (near_rounds mp e s p c He N Hnear).
  replace (10 ^ 14 <=? c) with false by (symmetry; apply Z.leb_gt; lia).
  reflexivity.
Qed.

(** An amount written with two fractional digits, read by [parseFloat]
    and bound to a [numeric(14,2)] column, is kept exactly. *)
Lemma two_decimals_kept (c : cents) :
  0 < c < 10 ^ 14 ->
  numeric_14_2_of (parseFloat (Str (numeric_out c))) = Some c.
Proof.
  intros Hc. unfold parseFloat. cbn [ToString].
  rewrite parseFloat_numeric_out.
  replace (c <? 0) with false by (symmetry; apply Z.ltb_ge; lia).
  rewrite Z.abs_eq by lia. apply hundredths_kept, Hc.
Qed.

(** [toFixed(2)] of the number read from [c] hundredths prints [c]
    hundredths. *)
Lemma to_fixed2_hundredths (c : cents) :
  0 < c < 10 ^ 14 ->
  to_fixed2 (of_decimal false c (-2)) = numeric_out c.
Proof.
  intros Hc. destruct (hundredths_read c) as (mp & e & R & He & N); [lia |].
  rewrite R. unfold to_fixed2, fraction_of.
  replace (0 <=? e) with false by (symmetry; apply Z.leb_gt; lia).
  assert (HU : 2048 <= 2 ^ (- e)).
  { change 2048 with (2 ^ 11). apply Z.pow_le_mono_r; lia. }
  set (U := 2 ^ (- e)) in *. clearbody U.
  assert (H21 : 10 ^ 21 = 10 ^ 14 * 10 ^ 7) by reflexivity.
  assert (H7 : 10 ^ 7 = 10000000) by reflexivity.
  replace (U * 10 ^ 21 <=? Z.pos mp) with false
    by (symmetry; apply Z.leb_gt; nia).
  assert (En : (200 * Z.pos mp + U) / (2 * U) = c).
  { symmetry.
    apply Z.div_unique with (r := 200 * Z.pos mp + U - c * (2 * U)); lia. }
  rewrite En. unfold numeric_out.
  replace (c <? 0) with false by (symmetry; apply Z.ltb_ge; lia).
  rewrite Z.abs_eq by lia. reflexivity.
Qed.

End Rounding.

(** * Statements of a session that runs alone *)

Section Exec.

Variable s : session.
Variables (st : store) (sq : sequences).

Lemma idle_at_rest (db : database) :
  idle db -> db = at_rest (committed db) (seqs db).
Proof.
  unfold idle. destruct db as [c q b]; cbn. intros ->. reflexivity.
Qed.

Ltac in_block :=
  unfold exec, exec_open, exec_aborted, in_block, in_aborted, at_rest,
    view, push, fail, with_seqs, set_block, end_block, without,
    next_transaction, next_entries, next_account;
  cbn [blocks block_of committed seqs filter fst negb];
  rewrite ?Nat.eqb_refl;
  cbn [blocks block_of committed seqs filter fst negb].

Lemma exec_begin :
  exec s BEGIN (at_rest st sq) = (in_block s [] st sq, Some tt).
Proof. reflexivity. Qed.

Lemma exec_commit (log : list write) :
  exec s COMMIT (in_block s log st sq)
  = (at_rest (replay log st) sq, Some tt).
Proof. in_block. reflexivity. Qed.

Lemma exec_rollback (log : list write) :
  exec s ROLLBACK (in_block s log st sq) = (at_rest st sq, Some tt).
Proof. in_block. reflexivity. Qed.

Lemma exec_rollback_aborted :
  exec s ROLLBACK (in_aborted s st sq) = (at_rest st sq, Some tt).
Proof. in_block. reflexivity. Qed.

Lemma exec_rollback_at_rest :
  exec s ROLLBACK (at_rest st sq) = (at_rest st sq, Some tt).
Proof. reflexivity. Qed.

Lemma exec_select_id (log : list write) (id : number) :
  exec s (SelectAccountId id) (in_block s log st sq)
  = match int4_of id with
    | Some a => (in_block s log st sq,
                 Some (account_ids_in [a] (replay log st)))
    | None => (in_aborted s st sq, None)
    end.
Proof. in_block. destruct (int4_of id); reflexivity. Qed.

Lemma exec_select_any (log : list write) (ids : list number) :
  exec s (SelectAccountIdsAny ids) (in_block s log st sq)
  = match all_some (map int4_of ids) with
    | Some ids' => (in_block s log st sq,
                    Some (account_ids_in ids' (replay log st)))
    | None => (in_aborted s st sq, None)
    end.
Proof. in_block. destruct (all_some _); reflexivity. Qed.

Lemma exec_insert_transaction (log : list write) (type : string)
  (amount : number) (currency : value) (source destination : option number)
  (description : value) :
  exec s (InsertTransaction type amount currency source destination
            description) (in_block s log st sq)
  = match numeric_14_2_of amount, text_not_null_of currency,
          reference_of source, reference_of destination,
          text_of description with
    | Some c, Some cur, Some src, Some dst, Some d =>
        let id := transactions_id_seq sq + 1 in
        let row := {| tx_id := id; tx_type := type; tx_amount := c;
                      tx_currency := cur; source_account_id := src;
                      destination_account_id := dst;
                      tx_status := "pending"; tx_description := d |} in
        if negb (has_transaction id (replay log st))
           && reference_ok src (replay log st)
           && reference_ok dst (replay log st)
        then (in_block s (WTransaction row :: log) st (next_transaction sq),
              Some id)
        else (in_aborted s st (next_transaction sq), None)
    | _, _, _, _, _ => (in_aborted s st sq, None)
    end.
Proof.
  in_block.
  destruct (numeric_14_2_of amount), (text_not_null_of currency),
    (reference_of source), (reference_of destination),
    (text_of description); reflexivity.
Qed.

Lemma exec_insert_entries (log : list write)
  (rows : list (Z * number * string * number)) :
  exec s (InsertLedgerEntries rows) (in_block s log st sq)
  = match entry_rows (ledger_entries_id_seq sq + 1) rows with
    | Some es =>
        if forallb (entry_ok (replay log st)) es
        then (in_block s (WEntries es :: log) st
                (next_entries (List.length es) sq), Some tt)
        else (in_aborted s st (next_entries (List.length es) sq), None)
    | None => (in_aborted s st sq, None)
    end.
Proof.
  in_block. destruct (entry_rows _ rows); reflexivity.
Qed.

Lemma exec_select_balance (log : list write) (id : number) :
  exec s (SelectBalance id) (in_block s log st sq)
  = match int4_of id with
    | Some a => (in_block s log st sq, Some (balance_text a (replay log st)))
    | None => (in_aborted s st sq, None)
    end.
Proof. in_block. destruct (int4_of id); reflexivity. Qed.

Lemma exec_update_status (log : list write) (status : string) (id : Z) :
  exec s (UpdateTransactionStatus status id) (in_block s log st sq)
  = (in_block s (WStatus id status :: log) st sq, Some tt).
Proof. in_block. reflexivity. Qed.

(** Statements sent through the pool, outside any block. *)

Lemma exec_select_account (id : number) :
  exec s (SelectAccount id) (at_rest st sq)
  = match int4_of id with
    | Some a => (at_rest st sq,
                 Some (filter (fun r => acc_id r =? a) (accounts st)))
    | None => (at_rest st sq, None)
    end.
Proof. in_block. destruct (int4_of id); reflexivity. Qed.

Lemma exec_select_balance_at_rest (id : number) :
  exec s (SelectBalance id) (at_rest st sq)
  = match int4_of id with
    | Some a => (at_rest st sq, Some (balance_text a st))
    | None => (at_rest st sq, None)
    end.
Proof. in_block. destruct (int4_of id); reflexivity. Qed.

Lemma exec_insert_account (userId type currency : value) :
  exec s (InsertAccount userId type currency) (at_rest st sq)
  = match text_not_null_of userId, text_not_null_of type,
          text_not_null_of currency with
    | Some u, Some t, Some c =>
        let row := {| acc_id := accounts_id_seq sq + 1; acc_user_id := u;
                      acc_type := t; acc_currency := c;
                      acc_status := "active" |} in
        if has_account (accounts_id_seq sq + 1) st
        then (at_rest st (next_account sq), None)
        else (at_rest (apply_write (WAccount row) st) (next_account sq),
              Some row)
    | _, _, _ => (at_rest st sq, None)
    end.
Proof.
  in_block.
  destruct (text_not_null_of userId), (text_not_null_of type),
    (text_not_null_of currency); reflexivity.
Qed.

End Exec.

(** * Running and stepping agree *)

Section Stepping.

Variable s : session.

Lemma run_bind {A : Type} (p : program A) :
  forall (B : Type) (f : A -> program B) (db : database),
    outcome (run s (bind p f) db)
    = match outcome (run s p db) with
      | (db1, Some a) => outcome (run s (f a) db1)
      | (db1, None) => (db1, None)
      end.
Proof.
  induction p as [A a | A R q k IH | A C body IHb handler IHh k IH];
    intros B f db.
  - cbn [bind run outcome fst snd]. reflexivity.
  - cbn [bind run]. destruct (exec s q db) as [db1 [r |]]; [| reflexivity].
    specialize (IH r B f db1).
    destruct (run s (bind (k r) f) db1) as [[d2 t2] o2].
    destruct (run s (k r) db1) as [[d3 t3] o3].
    exact IH.
  - cbn [bind run].
    destruct (run s body db) as [[db1 tr1] [x |]].
    + specialize (IH x B f db1).
      destruct (run s (bind (k x) f) db1) as [[d2 t2] o2].
      destruct (run s (k x) db1) as [[d3 t3] o3].
      exact IH.
    + destruct (run s handler db1) as [[db2 tr2] [x |]]; [| reflexivity].
      specialize (IH x B f db2).
      destruct (run s (bind (k x) f) db2) as [[d2 t2] o2].
      destruct (run s (k x) db2) as [[d3 t3] o3].
      exact IH.
Qed.

(** One step of a program, then the rest of it, ends as the program run
    in one go. *)
Lemma run_step {A : Type} (p : program A) :
  forall db,
    match step s p db with
    | (db1, Running p') => outcome (run s p' db1) = outcome (run s p db)
    | (db1, Finished a) => outcome (run s p db) = (db1, Some a)
    | (db1, Thrown) => outcome (run s p db) = (db1, None)
    end.
Proof.
  induction p as [A a | A R q k IH | A C body IHb handler IHh k IH];
    intros db.
  - reflexivity.
  - cbn [step run]. destruct (exec s q db) as [db1 [r |]]; [| reflexivity].
    destruct (run s (k r) db1) as [[d2 t2] o2]. reflexivity.
  - cbn [step]. specialize (IHb db).
    destruct (step s body db) as [db1 [body' | x |]].
    + cbn [run].
      destruct (run s body' db1) as [[d1 t1] o1].
      destruct (run s body db) as [[d2 t2] o2].
      unfold outcome in IHb. cbn [fst snd] in IHb.
      injection IHb as -> ->.
      destruct o2 as [x |].
      * destruct (run s (k x) d2) as [[d3 t3] o3]. reflexivity.
      * destruct (run s handler d2) as [[d3 t3] [y |]]; [| reflexivity].
        destruct (run s (k y) d3) as [[d4 t4] o4]. reflexivity.
    + cbn [run].
      destruct (run s body db) as [[d2 t2] o2].
      unfold outcome in IHb. cbn [fst snd] in IHb.
      injection IHb as -> ->.
      destruct (run s (k x) db1) as [[d3 t3] o3]. reflexivity.
    + rewrite run_bind. cbn [run].
      destruct (run s body db) as [[d2 t2] o2].
      unfold outcome in IHb. cbn [fst snd] in IHb.
      injection IHb as -> ->.
      destruct (run s handler db1) as [[d3 t3] [y |]]; [| reflexivity].
      cbn [outcome fst snd].
      destruct (run s (k y) d3) as [[d4 t4] o4]. reflexivity.
Qed.

End Stepping.

(** * Keys and lookups *)

Section Keys.

Lemma existsb_false_filter {A : Type} (f : A -> bool) (l : list A) :
  existsb f l = false -> filter f l = [].
Proof.
  induction l as [| x l IH]; cbn; [reflexivity |].
  destruct (f x); cbn; [discriminate | exact IH].
Qed.

Lemma has_account_ids (a : Z) (st : store) :
  Nat.eqb (List.length (account_ids_in [a] st)) 0 = negb (has_account a st).
Proof.
  unfold account_ids_in, has_account. rewrite length_map.
  induction (accounts st) as [| r l IH]; cbn; [reflexivity |].
  rewrite orb_false_r. destruct (acc_id r =? a); cbn; [reflexivity | exact IH].
Qed.

Lemma distinct_absent (x : Z) (l : list account) :
  existsb (Z.eqb x) (map acc_id l) = false ->
  existsb (fun r => acc_id r =? x) l = false.
Proof.
  induction l as [| r l IH]; cbn; [reflexivity |].
  rewrite (Z.eqb_sym x). destruct (acc_id r =? x); cbn; [discriminate | exact IH].
Qed.

Lemma count_two_accounts (a b : Z) (l : list account) :
  distinct (map acc_id l) = true ->
  List.length (filter (fun r => existsb (Z.eqb (acc_id r)) [a; b]) l)
  = Nat.add
      (if existsb (fun r => acc_id r =? a) l then 1%nat else 0%nat)
      (if existsb (fun r => acc_id r =? b) l && negb (a =? b)
       then 1%nat else 0%nat).
Proof.
  induction l as [| r l IH]; [reflexivity |].
  cbn [map distinct]. intros H. apply andb_true_iff in H as [Hr Hl].
  apply negb_true_iff, distinct_absent in Hr.
  specialize (IH Hl).
  change (filter (fun r0 => existsb (Z.eqb (acc_id r0)) [a; b]) (r :: l))
    with (if (acc_id r =? a) || ((acc_id r =? b) || false)
          then r :: filter (fun r0 => existsb (Z.eqb (acc_id r0)) [a; b]) l
          else filter (fun r0 => existsb (Z.eqb (acc_id r0)) [a; b]) l).
  change (existsb (fun r0 => acc_id r0 =? a) (r :: l))
    with ((acc_id r =? a) || existsb (fun r0 => acc_id r0 =? a) l).
  change (existsb (fun r0 => acc_id r0 =? b) (r :: l))
    with ((acc_id r =? b) || existsb (fun r0 => acc_id r0 =? b) l).
  rewrite orb_false_r.
  destruct (acc_id r =? a) eqn:Ea; destruct (acc_id r =? b) eqn:Eb;
    cbn [orb List.length]; rewrite IH.
  - apply Z.eqb_eq in Ea, Eb. subst a b. rewrite Hr, Z.eqb_refl. reflexivity.
  - apply Z.eqb_eq in Ea. subst a. rewrite Hr.
    rewrite Eb. cbn [negb]. rewrite andb_true_r. reflexivity.
  - apply Z.eqb_eq in Eb. subst b. rewrite Hr.
    rewrite (Z.eqb_sym a), Ea. cbn [andb negb orb].
    destruct (existsb (fun r0 => acc_id r0 =? a) l); reflexivity.
  - reflexivity.
Qed.

Lemma both_accounts (a b : Z) (st : store) :
  distinct (map acc_id (accounts st)) = true ->
  Nat.eqb (List.length (account_ids_in [a; b] st)) 2
  = has_account a st && has_account b st && negb (a =? b).
Proof.
  intros H. unfold account_ids_in, has_account.
  rewrite length_map, (count_two_accounts a b _ H).
  destruct (existsb (fun r => acc_id r =? a) (accounts st));
    destruct (existsb (fun r => acc_id r =? b) (accounts st));
    destruct (a =? b); reflexivity.
Qed.

Lemma keyed_parts (st : store) (sq : sequences) :
  keyed (at_rest st sq) = true ->
  distinct (map acc_id (accounts st)) = true
  /\ Forall (fun r => acc_id r <= accounts_id_seq sq) (accounts st)
  /\ Forall (fun r => tx_id r <= transactions_id_seq sq) (transactions st)
  /\ Forall (fun e => le_id e <= ledger_entries_id_seq sq
                      /\ transaction_id e <= transactions_id_seq sq)
       (ledger_entries st).
Proof.
  unfold keyed, at_rest. cbn [committed seqs]. intros H.
  repeat (apply andb_true_iff in H as [H ?]).
  repeat split; [assumption | | |];
    apply Forall_forall; intros x Hx;
    match goal with
    | F : forallb _ ?l = true, I : In _ ?l |- _ =>
        rewrite forallb_forall in F; specialize (F _ I)
    end.
  - now apply Z.leb_le.
  - now apply Z.leb_le.
  - apply andb_true_iff in H0 as [? ?]. split; now apply Z.leb_le.
Qed.

Lemma absent_above {A : Type} (key : A -> Z) (bound k : Z) (l : list A) :
  Forall (fun r => key r <= bound) l -> bound < k ->
  existsb (fun r => key r =? k) l = false.
Proof.
  intros H Hk. induction H as [| r l Hr _ IH]; cbn; [reflexivity |].
  rewrite IH, orb_false_r. apply Z.eqb_neq. lia.
Qed.

Lemma set_status_above (bound k : Z) (status : string)
  (l : list transaction) :
  Forall (fun r => tx_id r <= bound) l -> bound < k ->
  map (set_status k status) l = l.
Proof.
  intros H Hk. induction H as [| r l Hr _ IH]; cbn; [reflexivity |].
  rewrite IH. unfold set_status.
  replace (tx_id r =? k) with false by (symmetry; apply Z.eqb_neq; lia).
  reflexivity.
Qed.

End Keys.

(** * The routes, path by path *)

Section Routes.

Variable s : session.

Lemma valid_single_parts (body : object) :
  valid_single body = true ->
  truthy (get "accountId" body) = true
  /\ truthy (get "amount" body) = true
  /\ truthy (get "currency" body) = true
  /\ is_nan (parseInt (get "accountId" body)) = false
  /\ is_nan (parseFloat (get "amount" body)) = false
  /\ leb (parseFloat (get "amount" body)) pos_zero = false.
Proof.
  unfold valid_single. intros H.
  repeat (apply andb_true_iff in H as [H ?]).
  repeat match goal with
         | N : negb _ = true |- _ => apply negb_true_iff in N
         end.
  repeat split; assumption.
Qed.

Lemma sum_zeros {A : Type} (l : list A) :
  fold_right Z.add 0 (map (fun _ => 0) l) = 0.
Proof.
  induction l as [| x l IH]; cbn [map fold_right];
    [reflexivity | now rewrite IH].
Qed.

Lemma balance_below_zero (a : Z) (st : store) :
  ltb (parseFloat (Str (balance_text a st))) pos_zero
  = (sum_entries a st <? 0).
Proof.
  unfold parseFloat, ToString, balance_text.
  destruct (existsb is_leg (entries_of a st)) eqn:E.
  - apply parseFloat_numeric_out_sign.
  - unfold sum_entries.
    assert (H : map signed_amount (entries_of a st)
                = map (fun _ => 0) (entries_of a st)).
    { apply map_ext_in. intros e He.
      assert (L : is_leg e = false).
      { destruct (is_leg e) eqn:L; [| reflexivity].
        assert (X : existsb is_leg (entries_of a st) = true)
          by (apply existsb_exists; eauto).
        congruence. }
      unfold is_leg in L. apply orb_false_iff in L as [L1 L2].
      unfold signed_amount. now rewrite L1, L2. }
    rewrite H.
    rewrite sum_zeros. reflexivity.
Qed.

(** An entry of the transaction just inserted, on an account that is
    there, under a fresh id, passes the constraints of [ledger_entries]. *)
Lemma entry_ok_posted (st : store) (sq : sequences) (row : transaction)
  (e : ledger_entry) :
  Forall (fun e => le_id e <= ledger_entries_id_seq sq
                   /\ transaction_id e <= transactions_id_seq sq)
    (ledger_entries st) ->
  transaction_id e = tx_id row ->
  has_account (account_id e) st = true ->
  ledger_entries_id_seq sq < le_id e ->
  entry_ok (apply_write (WTransaction row) st) e = true.
Proof.
  intros Ke Ht Ha Hi. unfold entry_ok, has_transaction, has_entry, has_account.
  cbn [apply_write transactions accounts ledger_entries].
  rewrite existsb_app. cbn [existsb]. rewrite Ht, Z.eqb_refl.
  unfold has_account in Ha. rewrite Ha.
  rewrite (absent_above le_id (ledger_entries_id_seq sq)).
  - now rewrite orb_true_r.
  - eapply Forall_impl; [| exact Ke]. cbn. intros ? [? ?]; assumption.
  - exact Hi.
Qed.

(** What [COMMIT] makes of a block that inserted a transaction under a
    fresh id, then its entries, then marked it completed. *)
Lemma replay_completed (st : store) (bound t : Z) (row : transaction)
  (es : list ledger_entry) :
  Forall (fun r => tx_id r <= bound) (transactions st) ->
  bound < t -> tx_id row = t ->
  replay [WStatus t "completed"; WEntries es; WTransaction row] st
  = {| accounts := accounts st;
       transactions := transactions st ++
         [{| tx_id := tx_id row; tx_type := tx_type row;
             tx_amount := tx_amount row; tx_currency := tx_currency row;
             source_account_id := source_account_id row;
             destination_account_id := destination_account_id row;
             tx_status := "completed";
             tx_description := tx_description row |}];
       ledger_entries := ledger_entries st ++ es |}.
Proof.
  intros Kt Hb Hr. cbn [replay fold_right apply_write accounts transactions
                          ledger_entries].
  rewrite map_app, (set_status_above bound) by assumption.
  cbn [map]. unfold set_status. rewrite Hr, Z.eqb_refl. reflexivity.
Qed.

Lemma run_post_deposits (body : object) (st : store) (sq : sequences) :
  valid_single body = true ->
  keyed (at_rest st sq) = true ->
  run s (post_deposits body) (at_rest st sq)
  = let accId := parseInt (get "accountId" body) in
    let amount := parseFloat (get "amount" body) in
    let currency := get "currency" body in
    let description := or_null (get "description" body) in
    let insert := InsertTransaction "deposit" amount currency None
                    (Some accId) description in
    let t := transactions_id_seq sq + 1 in
    let rows := [(t, accId, "credit", amount)] in
    match int4_of accId with
    | None =>
        (at_rest st sq,
         [wire BEGIN; wire (SelectAccountId accId); wire ROLLBACK],
         Some (message 500 "Internal server error"))
    | Some a =>
        if has_account a st then
          match amount_stored body, text_not_null_of currency,
                text_of description with
          | Some c, Some cur, Some d =>
              (at_rest
                 {| accounts := accounts st;
                    transactions := transactions st ++
                      [{| tx_id := t; tx_type := "deposit"; tx_amount := c;
                          tx_currency := cur; source_account_id := None;
                          destination_account_id := Some a;
                          tx_status := "completed";
                          tx_description := d |}];
                    ledger_entries := ledger_entries st ++
                      [{| le_id := ledger_entries_id_seq sq + 1;
                          transaction_id := t; account_id := a;
                          entry_type := "credit"; le_amount := c |}] |}
                 (next_entries 1 (next_transaction sq)),
               [wire BEGIN; wire (SelectAccountId accId); wire insert;
                wire (InsertLedgerEntries rows);
                wire (UpdateTransactionStatus "completed" t); wire COMMIT],
               Some {| status := 201;
                       json := [("transactionId", Num (of_Z t));
                                ("status", Str "completed");
                                ("accountId", Num accId);
                                ("amount", Str (to_fixed2 amount));
                                ("currency", currency)] |})
          | _, _, _ =>
              (at_rest st sq,
               [wire BEGIN; wire (SelectAccountId accId); wire insert;
                wire ROLLBACK],
               Some (message 500 "Internal server error"))
          end
        else
          (at_rest st sq,
           [wire BEGIN; wire (SelectAccountId accId); wire ROLLBACK],
           Some (message 404 "Account not found"))
    end.
Proof.
  intros Hv Hk.
  destruct (valid_single_parts body Hv) as (T1 & T2 & T3 & N1 & N2 & P).
  destruct (keyed_parts st sq Hk) as (Kd & Ka & Kt & Ke).
  unfold post_deposits, guarded, rollback_quietly, amount_stored.
  rewrite T1, T2, T3, N1, N2, P. cbn [negb orb bind].
  cbn [run]. rewrite exec_begin. cbn [run].
  rewrite exec_select_id.
  destruct (int4_of (parseInt (get "accountId" body))) as [a |] eqn:Ea.
  - cbn [run replay fold_right]. rewrite has_account_ids.
    destruct (has_account a st) eqn:Ha; cbn [negb run].
    + rewrite exec_insert_transaction. cbn [reference_of]. rewrite Ea.
      destruct (numeric_14_2_of (parseFloat (get "amount" body))) as [c |] eqn:Ec.
      2:{ cbn [run]. rewrite exec_rollback_aborted. reflexivity. }
      destruct (text_not_null_of (get "currency" body)) as [cur |] eqn:Ecur.
      2:{ cbn [run]. rewrite exec_rollback_aborted. reflexivity. }
      destruct (text_of (or_null (get "description" body))) as [d |] eqn:Ed.
      2:{ cbn [run]. rewrite exec_rollback_aborted. reflexivity. }
      cbn [replay fold_right reference_ok].
      unfold has_transaction at 1.
      rewrite (absent_above tx_id (transactions_id_seq sq) _ _ Kt) by lia.
      rewrite Ha. cbn [negb andb run].
      rewrite exec_insert_entries.
      cbn [entry_rows next_transaction ledger_entries_id_seq].
      rewrite Ea, Ec.
      cbn [forallb replay fold_right].
      rewrite (entry_ok_posted st sq)
        by first [assumption | reflexivity | cbn; lia].
      cbn [andb run List.length]. rewrite exec_update_status. cbn [run].
      rewrite exec_commit. cbn [run app].
      rewrite (replay_completed st (transactions_id_seq sq))
        by first [assumption | reflexivity | lia].
      reflexivity.
    + rewrite exec_rollback. reflexivity.
  - cbn [run]. rewrite exec_rollback_aborted. reflexivity.
Qed.

Lemma total_app (l1 l2 : list Z) :
  fold_right Z.add 0 (l1 ++ l2)
  = fold_right Z.add 0 l1 + fold_right Z.add 0 l2.
Proof.
  induction l1 as [| x l1 IH]; cbn [app fold_right]; [| rewrite IH]; lia.
Qed.

Lemma sum_entries_append (a : Z) (acs : list account)
  (txs : list transaction) (st : store) (es : list ledger_entry) :
  sum_entries a {| accounts := acs; transactions := txs;
                   ledger_entries := ledger_entries st ++ es |}
  = sum_entries a st
    + fold_right Z.add 0
        (map signed_amount (filter (fun e => account_id e =? a) es)).
Proof.
  unfold sum_entries, entries_of. cbn [ledger_entries].
  now rewrite filter_app, map_app, total_app.
Qed.

Lemma run_post_withdrawals (body : object) (st : store) (sq : sequences) :
  valid_single body = true ->
  keyed (at_rest st sq) = true ->
  run s (post_withdrawals body) (at_rest st sq)
  = let accId := parseInt (get "accountId" body) in
    let amount := parseFloat (get "amount" body) in
    let currency := get "currency" body in
    let description := or_null (get "description" body) in
    let insert := InsertTransaction "withdrawal" amount currency
                    (Some accId) None description in
    let t := transactions_id_seq sq + 1 in
    let rows := [(t, accId, "debit", amount)] in
    match int4_of accId with
    | None =>
        (at_rest st sq,
         [wire BEGIN; wire (SelectAccountId accId); wire ROLLBACK],
         Some (message 500 "Internal server error"))
    | Some a =>
        if has_account a st then
          match amount_stored body, text_not_null_of currency,
                text_of description with
          | Some c, Some cur, Some d =>
              if sum_entries a st - c <? 0 then
                (at_rest st (next_entries 1 (next_transaction sq)),
                 [wire BEGIN; wire (SelectAccountId accId); wire insert;
                  wire (InsertLedgerEntries rows);
                  wire (SelectBalance accId); wire ROLLBACK],
                 Some (message 422 "Insufficient funds"))
              else
                (at_rest
                   {| accounts := accounts st;
                      transactions := transactions st ++
                        [{| tx_id := t; tx_type := "withdrawal";
                            tx_amount := c; tx_currency := cur;
                            source_account_id := Some a;
                            destination_account_id := None;
                            tx_status := "completed";
                            tx_description := d |}];
                      ledger_entries := ledger_entries st ++
                        [{| le_id := ledger_entries_id_seq sq + 1;
                            transaction_id := t; account_id := a;
                            entry_type := "debit"; le_amount := c |}] |}
                   (next_entries 1 (next_transaction sq)),
                 [wire BEGIN; wire (SelectAccountId accId); wire insert;
                  wire (InsertLedgerEntries rows);
                  wire (SelectBalance accId);
                  wire (UpdateTransactionStatus "completed" t);
                  wire COMMIT],
                 Some {| status := 201;
                         json := [("transactionId", Num (of_Z t));
                                  ("status", Str "completed");
                                  ("accountId", Num accId);
                                  ("amount", Str (to_fixed2 amount));
                                  ("currency", currency)] |})
          | _, _, _ =>
              (at_rest st sq,
               [wire BEGIN; wire (SelectAccountId accId); wire insert;
                wire ROLLBACK],
               Some (message 500 "Internal server error"))
          end
        else
          (at_rest st sq,
           [wire BEGIN; wire (SelectAccountId accId); wire ROLLBACK],
           Some (message 404 "Account not found"))
    end.
Proof.
  intros Hv Hk.
  destruct (valid_single_parts body Hv) as (T1 & T2 & T3 & N1 & N2 & P).
  destruct (keyed_parts st sq Hk) as (Kd & Ka & Kt & Ke).
  unfold post_withdrawals, guarded, rollback_quietly, amount_stored.
  rewrite T1, T2, T3, N1, N2, P. cbn [negb orb bind].
  cbn [run]. rewrite exec_begin. cbn [run].
  rewrite exec_select_id.
  destruct (int4_of (parseInt (get "accountId" body))) as [a |] eqn:Ea.
  - cbn [run replay fold_right]. rewrite has_account_ids.
    destruct (has_account a st) eqn:Ha; cbn [negb run].
    + rewrite exec_insert_transaction. cbn [reference_of]. rewrite Ea.
      destruct (numeric_14_2_of (parseFloat (get "amount" body)))
        as [c |] eqn:Ec.
      2:{ cbn [run]. rewrite exec_rollback_aborted. reflexivity. }
      destruct (text_not_null_of (get "currency" body)) as [cur |] eqn:Ecur.
      2:{ cbn [run]. rewrite exec_rollback_aborted. reflexivity. }
      destruct (text_of (or_null (get "description" body))) as [d |] eqn:Ed.
      2:{ cbn [run]. rewrite exec_rollback_aborted. reflexivity. }
      cbn [replay fold_right reference_ok].
      unfold has_transaction at 1.
      rewrite (absent_above tx_id (transactions_id_seq sq) _ _ Kt) by lia.
      rewrite Ha. cbn [negb andb run].
      rewrite exec_insert_entries.
      cbn [entry_rows next_transaction ledger_entries_id_seq].
      rewrite Ea, Ec.
      cbn [forallb replay fold_right].
      rewrite (entry_ok_posted st sq)
        by first [assumption | reflexivity | cbn; lia].
      cbn [andb run List.length]. rewrite exec_select_balance, Ea.
      cbn [run]. rewrite balance_below_zero.
      cbn [replay fold_right apply_write accounts transactions
             ledger_entries].
      rewrite sum_entries_append.
      cbn [filter account_id]. rewrite Z.eqb_refl.
      cbn [map fold_right]. unfold signed_amount at 1.
      cbn [entry_type le_amount String.eqb Ascii.eqb Bool.eqb].
      replace (sum_entries a st + (- c + 0)) with (sum_entries a st - c)
        by lia.
      destruct (sum_entries a st - c <? 0).
      * cbn [run]. rewrite exec_rollback. reflexivity.
      * cbn [run]. rewrite exec_update_status. cbn [run].
        rewrite exec_commit. cbn [run app].
        rewrite (replay_completed st (transactions_id_seq sq))
          by first [assumption | reflexivity | lia].
        reflexivity.
    + rewrite exec_rollback. reflexivity.
  - cbn [run]. rewrite exec_rollback_aborted. reflexivity.
Qed.

Lemma valid_transfer_parts (body : object) :
  valid_transfer body = true ->
  truthy (get "sourceAccountId" body) = true
  /\ truthy (get "destinationAccountId" body) = true
  /\ truthy (get "amount" body) = true
  /\ truthy (get "currency" body) = true
  /\ is_nan (parseInt (get "sourceAccountId" body)) = false
  /\ is_nan (parseInt (get "destinationAccountId" body)) = false
  /\ is_nan (parseFloat (get "amount" body)) = false
  /\ leb (parseFloat (get "amount" body)) pos_zero = false
  /\ strict_eq (parseInt (get "sourceAccountId" body))
               (parseInt (get "destinationAccountId" body)) = false.
Proof.
  unfold valid_transfer. intros H.
  repeat (apply andb_true_iff in H as [H ?]).
  repeat match goal with
         | N : negb _ = true |- _ => apply negb_true_iff in N
         end.
  repeat split; assumption.
Qed.

Lemma run_post_transfers (body : object) (st : store) (sq : sequences) :
  valid_transfer body = true ->
  keyed (at_rest st sq) = true ->
  run s (post_transfers body) (at_rest st sq)
  = let sourceId := parseInt (get "sourceAccountId" body) in
    let destId := parseInt (get "destinationAccountId" body) in
    let amount := parseFloat (get "amount" body) in
    let currency := get "currency" body in
    let description := or_null (get "description" body) in
    let select := SelectAccountIdsAny [sourceId; destId] in
    let insert := InsertTransaction "transfer" amount currency
                    (Some sourceId) (Some destId) description in
    let t := transactions_id_seq sq + 1 in
    let rows := [(t, sourceId, "debit", amount);
                 (t, destId, "credit", amount)] in
    match int4_of sourceId, int4_of destId with
    | Some a, Some b =>
        if has_account a st && has_account b st && negb (a =? b) then
          match amount_stored body, text_not_null_of currency,
                text_of description with
          | Some c, Some cur, Some d =>
              if sum_entries a st - c <? 0 then
                (at_rest st (next_entries 2 (next_transaction sq)),
                 [wire BEGIN; wire select; wire insert;
                  wire (InsertLedgerEntries rows);
                  wire (SelectBalance sourceId); wire ROLLBACK],
                 Some (message 422 "Insufficient funds"))
              else
                (at_rest
                   {| accounts := accounts st;
                      transactions := transactions st ++
                        [{| tx_id := t; tx_type := "transfer";
                            tx_amount := c; tx_currency := cur;
                            source_account_id := Some a;
                            destination_account_id := Some b;
                            tx_status := "completed";
                            tx_description := d |}];
                      ledger_entries := ledger_entries st ++
                        [{| le_id := ledger_entries_id_seq sq + 1;
                            transaction_id := t; account_id := a;
                            entry_type := "debit"; le_amount := c |};
                         {| le_id := ledger_entries_id_seq sq + 1 + 1;
                            transaction_id := t; account_id := b;
                            entry_type := "credit"; le_amount := c |}] |}
                   (next_entries 2 (next_transaction sq)),
                 [wire BEGIN; wire select; wire insert;
                  wire (InsertLedgerEntries rows);
                  wire (SelectBalance sourceId);
                  wire (UpdateTransactionStatus "completed" t);
                  wire COMMIT],
                 Some {| status := 201;
                         json := [("transactionId", Num (of_Z t));
                                  ("status", Str "completed");
                                  ("sourceAccountId", Num sourceId);
                                  ("destinationAccountId", Num destId);
                                  ("amount", Str (to_fixed2 amount));
                                  ("currency", currency)] |})
          | _, _, _ =>
              (at_rest st sq,
               [wire BEGIN; wire select; wire insert; wire ROLLBACK],
               Some (message 500 "Internal server error"))
          end
        else
          (at_rest st sq, [wire BEGIN; wire select; wire ROLLBACK],
           Some (message 404 "One or both accounts not found"))
    | _, _ =>
        (at_rest st sq, [wire BEGIN; wire select; wire ROLLBACK],
         Some (message 500 "Internal server error"))
    end.
Proof.
  intros Hv Hk.
  destruct (valid_transfer_parts body Hv)
    as (T1 & T2 & T3 & T4 & N1 & N2 & N3 & P & Q).
  destruct (keyed_parts st sq Hk) as (Kd & Ka & Kt & Ke).
  unfold post_transfers, guarded, rollback_quietly, amount_stored.
  rewrite T1, T2, T3, T4, N1, N2, N3, P, Q. cbn [negb orb bind].
  cbn [run]. rewrite exec_begin. cbn [run].
  rewrite exec_select_any. cbn [map all_some].
  destruct (int4_of (parseInt (get "sourceAccountId" body)))
    as [a |] eqn:Ea.
  2:{ cbn [run]. rewrite exec_rollback_aborted. reflexivity. }
  destruct (int4_of (parseInt (get "destinationAccountId" body)))
    as [b |] eqn:Eb.
  2:{ cbn [run]. rewrite exec_rollback_aborted. reflexivity. }
  cbn [run replay fold_right]. rewrite (both_accounts a b st Kd).
  destruct (has_account a st && has_account b st && negb (a =? b)) eqn:Hab;
    cbn [negb run].
  2:{ rewrite exec_rollback. reflexivity. }
  apply andb_true_iff in Hab as [Hab Hne].
  apply andb_true_iff in Hab as [Ha Hb].
  apply negb_true_iff in Hne.
  rewrite exec_insert_transaction. cbn [reference_of]. rewrite Ea, Eb.
  destruct (numeric_14_2_of (parseFloat (get "amount" body)))
    as [c |] eqn:Ec.
  2:{ cbn [run]. rewrite exec_rollback_aborted. reflexivity. }
  destruct (text_not_null_of (get "currency" body)) as [cur |] eqn:Ecur.
  2:{ cbn [run]. rewrite exec_rollback_aborted. reflexivity. }
  destruct (text_of (or_null (get "description" body))) as [d |] eqn:Ed.
  2:{ cbn [run]. rewrite exec_rollback_aborted. reflexivity. }
  cbn [replay fold_right reference_ok].
  unfold has_transaction at 1.
  rewrite (absent_above tx_id (transactions_id_seq sq) _ _ Kt) by lia.
  rewrite Ha, Hb. cbn [negb andb run].
  rewrite exec_insert_entries.
  cbn [entry_rows next_transaction ledger_entries_id_seq].
  rewrite Ea, Eb, Ec.
  cbn [forallb replay fold_right].
  rewrite !(entry_ok_posted st sq)
    by first [assumption | reflexivity | cbn; lia].
  cbn [andb run List.length]. rewrite exec_select_balance, Ea.
  cbn [run]. rewrite balance_below_zero.
  cbn [replay fold_right apply_write accounts transactions ledger_entries].
  rewrite sum_entries_append.
  cbn [filter account_id]. rewrite Z.eqb_refl, (Z.eqb_sym b a), Hne.
  cbn [map fold_right]. unfold signed_amount at 1.
  cbn [entry_type le_amount String.eqb Ascii.eqb Bool.eqb].
  replace (sum_entries a st + (- c + 0)) with (sum_entries a st - c) by lia.
  destruct (sum_entries a st - c <? 0).
  - cbn [run]. rewrite exec_rollback. reflexivity.
  - cbn [run]. rewrite exec_update_status. cbn [run].
    rewrite exec_commit. cbn [run app].
    rewrite (replay_completed st (transactions_id_seq sq))
      by first [assumption | reflexivity | lia].
    reflexivity.
Qed.

End Routes.

(** * Requests refused before the store is touched *)

Section Refusals.

Variable s : session.

(** A required field that is falsy stops the route at its first test. *)
Lemma refused_falsy (m : money_route) (body : object) (db : database)
  (f : string) :
  In f (required_fields m) -> truthy (get f body) = false ->
  run s (route (money_request m body)) db = (db, [], Some (fields_required m)).
Proof.
  intros Hin Hf.
  destruct m; cbn [required_fields account_fields app In] in Hin;
    repeat (destruct Hin as [<- | Hin]; [| ]); try contradiction;
    cbn [money_request route];
    unfold post_deposits, post_withdrawals, post_transfers, guarded;
    rewrite Hf; cbn [negb orb]; rewrite ?orb_true_r; reflexivity.
Qed.

(** An amount that is not above zero stops the route at its second test
    at the latest. *)
Lemma refused_amount (m : money_route) (body : object) (db : database) :
  leb (parseFloat (get "amount" body)) pos_zero = true ->
  exists text,
    run s (route (money_request m body)) db = (db, [], Some (message 400 text)).
Proof.
  intros Hle.
  destruct m; cbn [money_request route];
    unfold post_deposits, post_withdrawals, post_transfers, guarded;
    rewrite Hle, ?orb_true_r;
    match goal with
    | |- context [if ?c then _ else _] => destruct c
    end; eexists; reflexivity.
Qed.

Lemma strict_eq_refl (x : number) : is_nan x = false -> strict_eq x x = true.
Proof.
  unfold strict_eq, SFeqb, SFcompare.
  destruct x as [[] | [] | | [] m e]; cbn; try reflexivity; try discriminate;
    intros _; rewrite Z.compare_refl;
    change (Pos.compare_cont Eq m m) with (Pos.compare m m);
    now rewrite Pos.compare_refl.
Qed.

(** A transfer between an account and itself stops at the third test at
    the latest. *)
Lemma refused_same (body : object) (db : database) :
  same_accounts body ->
  exists text,
    run s (post_transfers body) db = (db, [], Some (message 400 text)).
Proof.
  intros Hs. unfold post_transfers, guarded.
  match goal with
  | |- context [if ?c then _ else _] => destruct c
  end; [eexists; reflexivity |].
  match goal with
  | |- context [if ?c then _ else _] => destruct c eqn:E
  end; [eexists; reflexivity |].
  assert (Q : strict_eq (parseInt (get "sourceAccountId" body))
                        (parseInt (get "destinationAccountId" body)) = true).
  { destruct Hs as [Hs | Hs]; [| exact Hs].
    rewrite <- Hs. apply strict_eq_refl.
    repeat (apply orb_false_iff in E as [E ?]). exact E. }
  rewrite Q. eexists; reflexivity.
Qed.

Ltac split_false H :=
  repeat match type of H with
         | _ || _ = false =>
             let H' := fresh H in
             apply orb_false_iff in H as [H H']; split_false H'
         end.

Ltac failed_test :=
  match goal with
  | |- context [if ?c then Return _ else _] =>
      let E := fresh "E" in
      destruct c eqn:E; [eexists; reflexivity |]; split_false E
  end.

(** A body that fails validation is answered 400 at one of the tests. *)
Lemma valid_body_false (m : money_route) (body : object) (db : database) :
  valid_body m body = false ->
  exists text,
    run s (route (money_request m body)) db = (db, [], Some (message 400 text)).
Proof.
  intros H.
  destruct m; cbn [valid_body] in H; cbn [money_request route];
    unfold post_deposits, post_withdrawals, post_transfers, guarded;
    cbv zeta; repeat failed_test; exfalso; revert H;
    unfold valid_single, valid_transfer;
    repeat match goal with
           | N : negb _ = false |- _ => apply negb_false_iff in N
           end;
    repeat match goal with
           | E : _ = _ |- _ => rewrite E; clear E
           end;
    discriminate.
Qed.

End Refusals.

(** * The other routes *)

Section OtherRoutes.

Variable s : session.

Lemma run_post_accounts (body : object) (st : store) (sq : sequences) :
  keyed (at_rest st sq) = true ->
  run s (post_accounts body) (at_rest st sq)
  = let userId := get "userId" body in
    let type := get "type" body in
    let currency := get "currency" body in
    if negb (truthy userId) || negb (truthy type) || negb (truthy currency)
    then (at_rest st sq, [],
          Some (message 400 "userId, type, and currency are required"))
    else
      match text_not_null_of userId, text_not_null_of type,
            text_not_null_of currency with
      | Some u, Some t, Some c =>
          let row := {| acc_id := accounts_id_seq sq + 1; acc_user_id := u;
                        acc_type := t; acc_currency := c;
                        acc_status := "active" |} in
          (at_rest (apply_write (WAccount row) st) (next_account sq),
           [wire (InsertAccount userId type currency)],
           Some {| status := 201; json := account_json row |})
      | _, _, _ =>
          (at_rest st sq, [wire (InsertAccount userId type currency)],
           Some (message 500 "Internal server error"))
      end.
Proof.
  intros Hk. destruct (keyed_parts st sq Hk) as (Kd & Ka & Kt & Ke).
  unfold post_accounts, caught. cbv zeta.
  destruct (negb (truthy (get "userId" body)) || negb (truthy (get "type" body))
            || negb (truthy (get "currency" body))); [reflexivity |].
  cbn [run]. rewrite exec_insert_account.
  unfold has_account.
  rewrite (absent_above acc_id (accounts_id_seq sq) _ _ Ka) by lia.
  destruct (text_not_null_of (get "userId" body)),
    (text_not_null_of (get "type" body)),
    (text_not_null_of (get "currency" body)); reflexivity.
Qed.

Lemma run_get_account (id : string) (st : store) (sq : sequences) :
  run s (get_account id) (at_rest st sq)
  = let accountId := parseInt (Str id) in
    if is_nan accountId
    then (at_rest st sq, [], Some (message 400 "Invalid account id"))
    else
      match int4_of accountId with
      | None => (at_rest st sq, [wire (SelectAccount accountId)],
                 Some (message 500 "Internal server error"))
      | Some a =>
          match filter (fun r => acc_id r =? a) (accounts st) with
          | [] => (at_rest st sq, [wire (SelectAccount accountId)],
                   Some (message 404 "Account not found"))
          | account :: _ =>
              (at_rest st sq,
               [wire (SelectAccount accountId);
                wire (SelectBalance accountId)],
               Some {| status := 200;
                       json := account_json account
                               ++ [("balance", Str (balance_text a st))] |})
          end
      end.
Proof.
  unfold get_account, caught. cbv zeta.
  destruct (is_nan (parseInt (Str id))); [reflexivity |].
  cbn [run]. rewrite exec_select_account.
  destruct (int4_of (parseInt (Str id))) as [a |] eqn:Ea; [| reflexivity].
  destruct (filter (fun r => acc_id r =? a) (accounts st)); [reflexivity |].
  cbn [run]. rewrite exec_select_balance_at_rest, Ea. reflexivity.
Qed.

End OtherRoutes.

(** * What a request leaves behind *)

Section Steps.

Variable s : session.

Lemma keyed_intro (st : store) (sq : sequences) :
  distinct (map acc_id (accounts st)) = true ->
  Forall (fun r => acc_id r <= accounts_id_seq sq) (accounts st) ->
  Forall (fun r => tx_id r <= transactions_id_seq sq) (transactions st) ->
  Forall (fun e => le_id e <= ledger_entries_id_seq sq
                   /\ transaction_id e <= transactions_id_seq sq)
    (ledger_entries st) ->
  keyed (at_rest st sq) = true.
Proof.
  intros Kd Ka Kt Ke. unfold keyed, at_rest. cbn [committed seqs].
  rewrite Kd. cbn [andb].
  repeat (apply andb_true_iff; split);
    apply forallb_forall; intros x Hx;
    match goal with
    | F : Forall _ ?l, I : In _ ?l |- _ =>
        rewrite Forall_forall in F; specialize (F _ I)
    end.
  - now apply Z.leb_le.
  - now apply Z.leb_le.
  - destruct Ke. apply andb_true_iff; split; now apply Z.leb_le.
Qed.

Lemma keyed_forward (st : store) (sq sq' : sequences) :
  keyed (at_rest st sq) = true -> seqs_le sq sq' ->
  keyed (at_rest st sq') = true.
Proof.
  intros Hk (La & Lt & Le).
  destruct (keyed_parts st sq Hk) as (Kd & Ka & Kt & Ke).
  apply keyed_intro; [assumption | | |];
    (eapply Forall_impl; [| eassumption]); cbn; intros; lia.
Qed.

Lemma keyed_posted (st : store) (sq : sequences) (t : transaction)
  (es : list ledger_entry) (n : nat) :
  keyed (at_rest st sq) = true ->
  tx_id t = transactions_id_seq sq + 1 ->
  Forall (fun e => transaction_id e = tx_id t
                   /\ le_id e <= ledger_entries_id_seq sq + Z.of_nat n) es ->
  keyed (at_rest {| accounts := accounts st;
                    transactions := transactions st ++ [t];
                    ledger_entries := ledger_entries st ++ es |}
           (next_entries n (next_transaction sq))) = true.
Proof.
  intros Hk Ht He.
  destruct (keyed_parts st sq Hk) as (Kd & Ka & Kt & Ke).
  apply keyed_intro;
    cbn [accounts transactions ledger_entries next_entries next_transaction
           accounts_id_seq transactions_id_seq ledger_entries_id_seq].
  - assumption.
  - assumption.
  - apply Forall_app; split.
    + eapply Forall_impl; [| exact Kt]. cbn. intros; lia.
    + constructor; [lia | constructor].
  - apply Forall_app; split.
    + eapply Forall_impl; [| exact Ke]. cbn. intros; lia.
    + eapply Forall_impl; [| exact He]. cbn. intros; lia.
Qed.

Lemma distinct_snoc (l : list Z) (x : Z) :
  distinct l = true -> existsb (Z.eqb x) l = false ->
  distinct (l ++ [x]) = true.
Proof.
  induction l as [| y l IH]; cbn [app distinct existsb]; [reflexivity |].
  intros Hd Hx. apply andb_true_iff in Hd as [Hy Hl].
  apply orb_false_iff in Hx as [Hxy Hx].
  rewrite IH by assumption. rewrite existsb_app. cbn [existsb].
  apply negb_true_iff in Hy. rewrite Hy, (Z.eqb_sym y x), Hxy. reflexivity.
Qed.

Lemma keyed_opened (st : store) (sq : sequences) (a : account) :
  keyed (at_rest st sq) = true ->
  acc_id a = accounts_id_seq sq + 1 ->
  keyed (at_rest (apply_write (WAccount a) st) (next_account sq)) = true.
Proof.
  intros Hk Ha.
  destruct (keyed_parts st sq Hk) as (Kd & Ka & Kt & Ke).
  apply keyed_intro;
    cbn [apply_write accounts transactions ledger_entries next_account
           accounts_id_seq transactions_id_seq ledger_entries_id_seq].
  - rewrite map_app. cbn [map]. apply distinct_snoc; [assumption |].
    clear - Ka Ha. induction Ka as [| r l Hr _ IH]; cbn; [reflexivity |].
    rewrite IH, orb_false_r. apply Z.eqb_neq. lia.
  - apply Forall_app; split.
    + eapply Forall_impl; [| exact Ka]. cbn. intros; lia.
    + constructor; [lia | constructor].
  - assumption.
  - assumption.
Qed.

End Steps.

Section Sound.

Variable s : session.

Lemma seqs_le_refl (sq : sequences) : seqs_le sq sq.
Proof. unfold seqs_le. lia. Qed.

Lemma seqs_le_posted (n : nat) (sq : sequences) :
  seqs_le sq (next_entries n (next_transaction sq)).
Proof. unfold seqs_le. cbn. lia. Qed.

Lemma seqs_le_opened (sq : sequences) : seqs_le sq (next_account sq).
Proof. unfold seqs_le. cbn. lia. Qed.

Lemma step_unchanged (st : store) (sq sq' : sequences) (tr : list sent)
  (resp : response) :
  keyed (at_rest st sq) = true -> seqs_le sq sq' -> updates tr = [] ->
  step_ok (at_rest st sq) (at_rest st sq', tr, resp).
Proof.
  intros Hk Hs Hu. unfold step_ok. cbn [committed seqs].
  split; [reflexivity |].
  split; [eapply keyed_forward; eassumption |].
  split; [exact Hs |].
  split; [constructor |].
  split; left; [reflexivity | exact Hu].
Qed.

Ltac step_parts :=
  unfold step_ok; cbn [committed seqs at_rest status];
  split; [reflexivity |]; split; [| split; [| split; [| split]]].

Lemma handle_sound (r : request) (db : database) :
  idle db -> keyed db = true -> step_ok db (handle s r db).
Proof.
  intros Hi Hk. rewrite (idle_at_rest db Hi) in *.
  set (st := committed db) in *. set (sq := seqs db) in *.
  clearbody st sq. clear Hi db.
  unfold handle.
  destruct r as [body | body | body | body | id]; cbn [route].
  - (* POST /accounts *)
    rewrite run_post_accounts by assumption. cbv zeta.
    destruct (negb (truthy (get "userId" body)) || _ || _).
    { apply step_unchanged; auto using seqs_le_refl. }
    destruct (text_not_null_of (get "userId" body)) as [u |];
      [| apply step_unchanged; auto using seqs_le_refl].
    destruct (text_not_null_of (get "type" body)) as [t |];
      [| apply step_unchanged; auto using seqs_le_refl].
    destruct (text_not_null_of (get "currency" body)) as [c |];
      [| apply step_unchanged; auto using seqs_le_refl].
    step_parts.
    + apply keyed_opened; [assumption | reflexivity].
    + apply seqs_le_opened.
    + apply Opened. reflexivity.
    + right; reflexivity.
    + left; reflexivity.
  - (* POST /transfers *)
    destruct (valid_transfer body) eqn:Hv.
    2:{ destruct (valid_body_false s Transfer body (at_rest st sq) Hv)
          as [text E].
        cbn [money_request route] in E. rewrite E.
        apply step_unchanged; auto using seqs_le_refl. }
    rewrite run_post_transfers by assumption. cbv zeta.
    destruct (int4_of (parseInt (get "sourceAccountId" body))) as [a |];
      [| apply step_unchanged; auto using seqs_le_refl].
    destruct (int4_of (parseInt (get "destinationAccountId" body))) as [b |];
      [| apply step_unchanged; auto using seqs_le_refl].
    destruct (has_account a st && has_account b st && negb (a =? b));
      [| apply step_unchanged; auto using seqs_le_refl].
    destruct (amount_stored body) as [c |];
      [| apply step_unchanged; auto using seqs_le_refl].
    destruct (text_not_null_of (get "currency" body)) as [cur |];
      [| apply step_unchanged; auto using seqs_le_refl].
    destruct (text_of (or_null (get "description" body))) as [d |];
      [| apply step_unchanged; auto using seqs_le_refl].
    destruct (sum_entries a st - c <? 0);
      [apply step_unchanged; auto using seqs_le_posted |].
    step_parts.
    + apply keyed_posted; [assumption | reflexivity |].
      repeat constructor; cbn; lia.
    + apply seqs_le_posted.
    + apply Posted; [reflexivity | reflexivity | repeat constructor |].
      intros _. eexists _, _, a, b. repeat split; reflexivity.
    + right; reflexivity.
    + right; reflexivity.
  - (* POST /deposits *)
    destruct (valid_single body) eqn:Hv.
    2:{ destruct (valid_body_false s Deposit body (at_rest st sq) Hv)
          as [text E].
        cbn [money_request route] in E. rewrite E.
        apply step_unchanged; auto using seqs_le_refl. }
    rewrite run_post_deposits by assumption. cbv zeta.
    destruct (int4_of (parseInt (get "accountId" body))) as [a |];
      [| apply step_unchanged; auto using seqs_le_refl].
    destruct (has_account a st);
      [| apply step_unchanged; auto using seqs_le_refl].
    destruct (amount_stored body) as [c |];
      [| apply step_unchanged; auto using seqs_le_refl].
    destruct (text_not_null_of (get "currency" body)) as [cur |];
      [| apply step_unchanged; auto using seqs_le_refl].
    destruct (text_of (or_null (get "description" body))) as [d |];
      [| apply step_unchanged; auto using seqs_le_refl].
    step_parts.
    + apply keyed_posted; [assumption | reflexivity |].
      repeat constructor; cbn; lia.
    + apply seqs_le_posted.
    + apply Posted; [reflexivity | reflexivity | repeat constructor |].
      cbn. discriminate.
    + right; reflexivity.
    + right; reflexivity.
  - (* POST /withdrawals *)
    destruct (valid_single body) eqn:Hv.
    2:{ destruct (valid_body_false s Withdrawal body (at_rest st sq) Hv)
          as [text E].
        cbn [money_request route] in E. rewrite E.
        apply step_unchanged; auto using seqs_le_refl. }
    rewrite run_post_withdrawals by assumption. cbv zeta.
    destruct (int4_of (parseInt (get "accountId" body))) as [a |];
      [| apply step_unchanged; auto using seqs_le_refl].
    destruct (has_account a st);
      [| apply step_unchanged; auto using seqs_le_refl].
    destruct (amount_stored body) as [c |];
      [| apply step_unchanged; auto using seqs_le_refl].
    destruct (text_not_null_of (get "currency" body)) as [cur |];
      [| apply step_unchanged; auto using seqs_le_refl].
    destruct (text_of (or_null (get "description" body))) as [d |];
      [| apply step_unchanged; auto using seqs_le_refl].
    destruct (sum_entries a st - c <? 0);
      [apply step_unchanged; auto using seqs_le_posted |].
    step_parts.
    + apply keyed_posted; [assumption | reflexivity |].
      repeat constructor; cbn; lia.
    + apply seqs_le_posted.
    + apply Posted; [reflexivity | reflexivity | repeat constructor |].
      cbn. discriminate.
    + right; reflexivity.
    + right; reflexivity.
  - (* GET /accounts/:id *)
    rewrite run_get_account. cbv zeta.
    destruct (is_nan (parseInt (Str id)));
      [apply step_unchanged; auto using seqs_le_refl |].
    destruct (int4_of (parseInt (Str id))) as [a |];
      [| apply step_unchanged; auto using seqs_le_refl].
    destruct (filter (fun r => acc_id r =? a) (accounts st));
      apply step_unchanged; auto using seqs_le_refl.
Qed.

End Sound.

(** * Invariants of the ledger *)

Section Invariants.

Variable s : session.

Lemma effect_completed (sq : sequences) (st st' : store) :
  effect sq st st' -> all_completed st -> all_completed st'.
Proof.
  intros He Hc. destruct He as [| a Ha | t es Ht Hs Hes Hl].
  - exact Hc.
  - exact Hc.
  - intros t' Hin. cbn [transactions] in Hin.
    apply in_app_or in Hin as [Hin | [<- | []]]; [now apply Hc | exact Hs].
Qed.

Lemma filter_none {A : Type} (f : A -> bool) (l : list A) :
  Forall (fun x => f x = false) l -> filter f l = [].
Proof.
  induction 1 as [| x l Hx _ IH]; cbn; [reflexivity | now rewrite Hx].
Qed.

Lemma filter_all {A : Type} (f : A -> bool) (l : list A) :
  Forall (fun x => f x = true) l -> filter f l = l.
Proof.
  induction 1 as [| x l Hx _ IH]; cbn; [reflexivity | now rewrite Hx, IH].
Qed.

(** The entries of a transaction after a posting: those of the new
    transaction are the ones just written, those of the others are as
    before. *)
Lemma entries_after_posting (sq : sequences) (st : store)
  (t : transaction) (es : list ledger_entry) (acs : list account)
  (txs : list transaction) (k : Z) :
  keyed (at_rest st sq) = true ->
  tx_id t = transactions_id_seq sq + 1 ->
  Forall (fun e => transaction_id e = tx_id t) es ->
  entries_of_transaction k
    {| accounts := acs; transactions := txs;
       ledger_entries := ledger_entries st ++ es |}
  = if k =? tx_id t then es else entries_of_transaction k st.
Proof.
  intros Hk Ht Hes.
  destruct (keyed_parts st sq Hk) as (_ & _ & _ & Ke).
  unfold entries_of_transaction. cbn [ledger_entries].
  rewrite filter_app. destruct (k =? tx_id t) eqn:E.
  - apply Z.eqb_eq in E. subst k.
    rewrite filter_none, filter_all; [reflexivity | |].
    + eapply Forall_impl; [| exact Hes]. cbn. intros e ->. apply Z.eqb_refl.
    + eapply Forall_impl; [| exact Ke]. cbn. intros e [_ He].
      apply Z.eqb_neq. lia.
  - rewrite (filter_none _ es), app_nil_r; [reflexivity |].
    eapply Forall_impl; [| exact Hes]. cbn. intros e ->.
    rewrite Z.eqb_sym. exact E.
Qed.

Lemma effect_paired (sq : sequences) (st st' : store) :
  keyed (at_rest st sq) = true ->
  effect sq st st' -> transfers_paired st -> transfers_paired st'.
Proof.
  intros Hk He Hp. destruct He as [| a Ha | t es Ht Hs Hes Hl].
  - exact Hp.
  - exact Hp.
  - destruct (keyed_parts st sq Hk) as (_ & _ & Kt & _).
    intros t' Hin Hty. cbn [transactions] in Hin.
    rewrite (entries_after_posting sq st t es) by assumption.
    apply in_app_or in Hin as [Hin | [<- | []]].
    + rewrite Forall_forall in Kt. specialize (Kt _ Hin).
      replace (tx_id t' =? tx_id t) with false
        by (symmetry; apply Z.eqb_neq; lia).
      now apply Hp.
    + rewrite Z.eqb_refl. now apply Hl.
Qed.

Lemma extends_refl (st : store) : extends st st.
Proof. split; exists []; now rewrite app_nil_r. Qed.

Lemma extends_trans (st1 st2 st3 : store) :
  extends st1 st2 -> extends st2 st3 -> extends st1 st3.
Proof.
  intros [[t1 H1] [e1 G1]] [[t2 H2] [e2 G2]]. split.
  - exists (t1 ++ t2). now rewrite H2, H1, app_assoc.
  - exists (e1 ++ e2). now rewrite G2, G1, app_assoc.
Qed.

Lemma effect_extends (sq : sequences) (st st' : store) :
  effect sq st st' -> extends st st'.
Proof.
  intros He. destruct He as [| a Ha | t es Ht Hs Hes Hl].
  - apply extends_refl.
  - split; exists []; cbn; now rewrite app_nil_r.
  - split; eexists; reflexivity.
Qed.

Lemma serve_sound (rs : list request) :
  forall db, idle db -> keyed db = true ->
  let db' := fst (serve s rs db) in
  idle db' /\ keyed db' = true
  /\ extends (committed db) (committed db')
  /\ (all_completed (committed db) -> all_completed (committed db'))
  /\ (transfers_paired (committed db) -> transfers_paired (committed db')).
Proof.
  induction rs as [| r rs IH]; intros db Hi Hk; cbn [serve fst].
  - repeat split; auto using extends_refl; apply extends_refl.
  - pose proof (handle_sound s r db Hi Hk) as Hstep.
    destruct (handle s r db) as [[db1 tr] resp].
    destruct Hstep as (Hi1 & Hk1 & _ & He & _).
    specialize (IH db1 Hi1 Hk1).
    destruct (serve s rs db1) as [db2 resps]. cbn [fst] in *.
    destruct IH as (Hi2 & Hk2 & Hx & Hc & Hp).
    rewrite (idle_at_rest db Hi) in Hk.
    repeat split.
    + exact Hi2.
    + exact Hk2.
    + destruct (effect_extends _ _ _ He) as [A _].
      destruct Hx as [B _]. destruct A as [x A], B as [y B].
      exists (x ++ y). now rewrite B, A, app_assoc.
    + destruct (effect_extends _ _ _ He) as [_ A].
      destruct Hx as [_ B]. destruct A as [x A], B as [y B].
      exists (x ++ y). now rewrite B, A, app_assoc.
    + intros H. apply Hc. eapply effect_completed; eassumption.
    + intros H. apply Hp. eapply effect_paired; eassumption.
Qed.

End Invariants.

(** * The claims *)

Lemma handle_of_run (s : session) (r : request) (db db' : database)
  (tr : list sent) (resp : response) :
  run s (route r) db = (db', tr, Some resp) ->
  handle s r db = (db', tr, resp).
Proof. intros H. unfold handle. now rewrite H. Qed.

(** C7.  A deposit, withdrawal or transfer with a missing required
    argument, an amount that is not above zero, or (for a transfer) the
    same account as source and destination is answered 400 (InvalidInput)
    without a single statement sent: no transaction is opened, nothing is
    read or written, and the database is the one before the call. *)
Theorem invalid_input_never_reaches_store (s : session) (m : money_route)
  (body : object) (db : database) :
  missing_argument m body \/ non_positive_amount body
  \/ (m = Transfer /\ same_accounts body) ->
  exists text,
    handle s (money_request m body) db = (db, [], message 400 text).
Proof.
  intros [(f & Hin & Hf) | [Hamt | [-> Hsame]]].
  - exists (match m with
            | Transfer =>
                "sourceAccountId, destinationAccountId, amount, and currency are required"
            | _ => "accountId, amount, and currency are required"
            end).
    apply handle_of_run.
    rewrite (refused_falsy s m body db f Hin) by (rewrite Hf; reflexivity).
    destruct m; reflexivity.
  - destruct (refused_amount s m body db Hamt) as [text H].
    exists text. now apply handle_of_run.
  - destruct (refused_same s body db Hsame) as [text H].
    exists text. now apply handle_of_run.
Qed.

Lemma invalid_input_never_reaches_store_witness :
  (missing_argument Deposit [("accountId", Str "1"); ("amount", Str "5")]
   \/ non_positive_amount [("accountId", Str "1"); ("amount", Str "5")]
   \/ (Deposit = Transfer
       /\ same_accounts [("accountId", Str "1"); ("amount", Str "5")]))
  /\ exists text,
       handle 0%nat
         (money_request Deposit [("accountId", Str "1"); ("amount", Str "5")])
         sample_database
       = (sample_database, [], message 400 text).
Proof.
  assert (H : missing_argument Deposit
                [("accountId", Str "1"); ("amount", Str "5")]).
  { exists "currency". split; [| reflexivity].
    right; right; left; reflexivity. }
  split; [left; exact H |].
  apply (invalid_input_never_reaches_store 0%nat Deposit
           [("accountId", Str "1"); ("amount", Str "5")] sample_database).
  left; exact H.
Defined.

(** C10.  A field that is present but holds the number 0 fails the
    presence test, which is a truthiness test: when the amount or an
    account id of a deposit, withdrawal or transfer is the number 0 the
    answer is the 400 "... are required" response, before any statement
    is sent; so a request naming account id 0 is never answered 404. *)
Theorem zero_is_taken_for_missing (s : session) (m : money_route)
  (body : object) (db : database) (f : string) (sign : bool) :
  In f (account_fields m ++ ["amount"]) ->
  get f body = Num (S754_zero sign) ->
  handle s (money_request m body) db = (db, [], fields_required m)
  /\ status (fields_required m) = 400
  /\ snd (handle s (money_request m body) db) <> not_found m.
Proof.
  intros Hin Hf.
  assert (H : handle s (money_request m body) db
              = (db, [], fields_required m)).
  { apply handle_of_run, (refused_falsy s m body db f).
    - unfold required_fields. apply in_app_or in Hin as [Hin | Hin].
      + apply in_or_app. now left.
      + apply in_or_app. right. destruct Hin as [<- | []]. now left.
    - rewrite Hf. reflexivity. }
  split; [exact H |]. split; [destruct m; reflexivity |].
  rewrite H. destruct m; discriminate.
Qed.

Lemma zero_is_taken_for_missing_witness :
  In "accountId" (account_fields Deposit ++ ["amount"])
  /\ get "accountId" [("accountId", Num (S754_zero false));
                      ("amount", Str "5"); ("currency", Str "INR")]
     = Num (S754_zero false)
  /\ handle 0%nat
       (money_request Deposit
          [("accountId", Num (S754_zero false)); ("amount", Str "5");
           ("currency", Str "INR")])
       sample_database
     = (sample_database, [], fields_required Deposit).
Proof.
  split; [left; reflexivity |]. split; [reflexivity |].
  apply (zero_is_taken_for_missing 0%nat Deposit
           [("accountId", Num (S754_zero false)); ("amount", Str "5");
            ("currency", Str "INR")]
           sample_database "accountId" false);
    [left; reflexivity | reflexivity].
Defined.

Lemma texts_storable_parts (body : object) :
  texts_storable body = true ->
  exists cur d,
    text_not_null_of (get "currency" body) = Some cur
    /\ text_of (or_null (get "description" body)) = Some d.
Proof.
  unfold texts_storable.
  destruct (text_not_null_of (get "currency" body)) as [cur |];
    [| discriminate].
  destruct (text_of (or_null (get "description" body))) as [d |];
    [| discriminate].
  intros _. now exists cur, d.
Qed.




Lemma balance_after_debit_eq (a : Z) (c : cents) (st : store) :
  balance_after_debit a c st = sum_entries a st - c.
Proof.
  unfold balance_after_debit. cbn [apply_write].
  rewrite sum_entries_append. cbn [filter account_id].
  rewrite Z.eqb_refl. cbn [map fold_right]. unfold signed_amount.
  cbn [entry_type le_amount String.eqb Ascii.eqb Bool.eqb]. lia.
Qed.

(** C1.  A withdrawal or transfer that passes validation, on accounts
    the store holds, whose debit would leave the debited account with a
    recomputed balance below zero, is answered 422 (InsufficientFunds)
    and rolled back: the committed rows are exactly those before the
    call, no transaction block stays open, no COMMIT was sent, and the
    debited account has as many entries as before. *)
Theorem insufficient_funds_rolls_back (s : session) (m : money_route)
  (body : object) (db : database) (a : Z) (c : cents) :
  idle db -> keyed db = true ->
  valid_body m body = true ->
  accounts_found m body (committed db) = true ->
  debited m body = Some a ->
  amount_stored body = Some c ->
  texts_storable body = true ->
  balance_after_debit a c (committed db) < 0 ->
  let '(db', tr, resp) := handle s (money_request m body) db in
  resp = message 422 "Insufficient funds"
  /\ committed db' = committed db
  /\ idle db'
  /\ existsb is_commit tr = false
  /\ List.length (entries_of a (committed db'))
     = List.length (entries_of a (committed db)).
Proof.
  intros Hi Hk Hv Hf Hd Hc Ht Hb. rewrite (idle_at_rest db Hi) in *.
  set (st := committed db) in *. set (sq := seqs db) in *.
  clearbody st sq. clear Hi db.
  change (committed (at_rest st sq)) with st in *.
  rewrite balance_after_debit_eq in Hb.
  apply Z.ltb_lt in Hb.
  destruct (texts_storable_parts body Ht) as (cur & d & Ecur & Ed).
  unfold handle.
  destruct m; cbn [valid_body accounts_found debited money_request route]
    in *; unfold account_named in *; [discriminate | |].
  - rewrite run_post_withdrawals by assumption. cbv zeta.
    rewrite Hd in *. rewrite Hf, Hc, Ecur, Ed, Hb.
    repeat split; reflexivity.
  - rewrite run_post_transfers by assumption. cbv zeta.
    rewrite Hd in *.
    destruct (int4_of (parseInt (get "destinationAccountId" body)));
      [| discriminate].
    rewrite Hf, Hc, Ecur, Ed, Hb.
    repeat split; reflexivity.
Qed.

Lemma insufficient_funds_rolls_back_witness :
  idle sample_database /\ keyed sample_database = true
  /\ valid_body Withdrawal (single_body 1 "150.00") = true
  /\ accounts_found Withdrawal (single_body 1 "150.00")
       (committed sample_database) = true
  /\ debited Withdrawal (single_body 1 "150.00") = Some 1
  /\ amount_stored (single_body 1 "150.00") = Some 15000
  /\ texts_storable (single_body 1 "150.00") = true
  /\ balance_after_debit 1 15000 (committed sample_database) < 0
  /\ let '(db', tr, resp) :=
       handle 0%nat (money_request Withdrawal (single_body 1 "150.00"))
         sample_database in
     resp = message 422 "Insufficient funds"
     /\ committed db' = committed sample_database
     /\ idle db'
     /\ existsb is_commit tr = false
     /\ List.length (entries_of 1 (committed db'))
        = List.length (entries_of 1 (committed sample_database)).
Proof.
  assert (H1 : idle sample_database) by reflexivity.
  assert (H2 : keyed sample_database = true) by (vm_compute; reflexivity).
  assert (H3 : valid_body Withdrawal (single_body 1 "150.00") = true)
    by (vm_compute; reflexivity).
  assert (H4 : accounts_found Withdrawal (single_body 1 "150.00")
                 (committed sample_database) = true)
    by (vm_compute; reflexivity).
  assert (H5 : debited Withdrawal (single_body 1 "150.00") = Some 1)
    by (vm_compute; reflexivity).
  assert (H6 : amount_stored (single_body 1 "150.00") = Some 15000)
    by (vm_compute; reflexivity).
  assert (H7 : texts_storable (single_body 1 "150.00") = true)
    by (vm_compute; reflexivity).
  assert (H8 : balance_after_debit 1 15000 (committed sample_database) < 0)
    by (vm_compute; reflexivity).
  split; [exact H1 |]. split; [exact H2 |]. split; [exact H3 |].
  split; [exact H4 |]. split; [exact H5 |]. split; [exact H6 |].
  split; [exact H7 |]. split; [exact H8 |].
  exact (insufficient_funds_rolls_back 0%nat Withdrawal
           (single_body 1 "150.00") sample_database 1 15000
           H1 H2 H3 H4 H5 H6 H7 H8).
Defined.

(** What a completed deposit of [c] into account [a] does. *)
Lemma deposit_posts (s : session) (body : object) (st : store)
  (sq : sequences) (a : Z) (c : cents) :
  keyed (at_rest st sq) = true ->
  valid_single body = true ->
  account_named "accountId" body = Some a ->
  has_account a st = true ->
  amount_stored body = Some c ->
  texts_storable body = true ->
  exists t e tr,
    handle s (PostDeposits body) (at_rest st sq)
    = (at_rest {| accounts := accounts st;
                  transactions := transactions st ++ [t];
                  ledger_entries := ledger_entries st ++ [e] |}
         (next_entries 1 (next_transaction sq)),
       tr,
       {| status := 201;
          json := [("transactionId", Num (of_Z (transactions_id_seq sq + 1)));
                   ("status", Str "completed");
                   ("accountId", Num (parseInt (get "accountId" body)));
                   ("amount",
                    Str (to_fixed2 (parseFloat (get "amount" body))));
                   ("currency", get "currency" body)] |})
    /\ account_id e = a /\ entry_type e = "credit" /\ le_amount e = c
    /\ tx_amount t = c /\ tx_type t = "deposit".
Proof.
  intros Hk Hv Ha Hh Hc Ht.
  destruct (texts_storable_parts body Ht) as (cur & d & Ecur & Ed).
  unfold account_named in Ha.
  eexists _, _, _. split.
  - apply handle_of_run. cbn [route].
    rewrite run_post_deposits by assumption.
    cbv zeta. rewrite Ha, Hh, Hc, Ecur, Ed. reflexivity.
  - repeat split; reflexivity.
Qed.

Lemma sum_entries_credit (a : Z) (c : cents) (st : store)
  (acs : list account) (txs : list transaction) (e : ledger_entry) :
  account_id e = a -> entry_type e = "credit" -> le_amount e = c ->
  sum_entries a {| accounts := acs; transactions := txs;
                   ledger_entries := ledger_entries st ++ [e] |}
  = sum_entries a st + c
  /\ balance_text a {| accounts := acs; transactions := txs;
                       ledger_entries := ledger_entries st ++ [e] |}
     = numeric_out (sum_entries a st + c).
Proof.
  intros Ha Hty Hc.
  assert (S : sum_entries a {| accounts := acs; transactions := txs;
                               ledger_entries := ledger_entries st ++ [e] |}
              = sum_entries a st + c).
  { rewrite sum_entries_append. cbn [filter]. rewrite Ha, Z.eqb_refl.
    cbn [map fold_right]. unfold signed_amount. rewrite Hty, Hc.
    cbn [String.eqb Ascii.eqb Bool.eqb]. lia. }
  split; [exact S |].
  unfold balance_text. rewrite S.
  replace (existsb is_leg _) with true; [reflexivity |].
  symmetry. unfold entries_of. cbn [ledger_entries].
  rewrite filter_app, existsb_app. cbn [filter]. rewrite Ha, Z.eqb_refl.
  cbn [existsb]. unfold is_leg at 2. rewrite Hty.
  cbn [String.eqb Ascii.eqb Bool.eqb orb]. apply orb_true_r.
Qed.

(** C4, without the balance in the payload.  A deposit that passes
    validation, into an account the store holds, of a positive amount
    [A] of [c] hundredths, [999999999999.99] at most, with a currency
    and a description free of zero bytes, is answered 201 with the
    payload [transactionId], [status], [accountId], [amount],
    [currency]: the transaction id is the next of its sequence, the
    amount is [A] printed with two fractional digits, and there is no
    balance in the payload.  The balance of the account recomputed after
    the commit is exactly the balance before plus [A]. *)
Theorem deposit_adds_exactly_the_amount (s : session) (body : object)
  (db : database) (a : Z) (c : cents) :
  idle db -> keyed db = true ->
  valid_single body = true ->
  account_named "accountId" body = Some a ->
  has_account a (committed db) = true ->
  parseFloat (get "amount" body) = of_decimal false c (-2) ->
  0 < c < 10 ^ 14 ->
  texts_storable body = true ->
  let '(db', tr, resp) := handle s (PostDeposits body) db in
  status resp = 201
  /\ keys (json resp)
     = ["transactionId"; "status"; "accountId"; "amount"; "currency"]
  /\ get "transactionId" (json resp)
     = Num (of_Z (transactions_id_seq (seqs db) + 1))
  /\ get "amount" (json resp) = Str (numeric_out c)
  /\ ~ carries_new_balance resp
  /\ idle db'
  /\ sum_entries a (committed db') = sum_entries a (committed db) + c
  /\ balance_text a (committed db')
     = numeric_out (sum_entries a (committed db) + c).
Proof.
  intros Hi Hk Hv Ha Hh Hamt Hr Ht. rewrite (idle_at_rest db Hi) in *.
  set (st := committed db) in *. set (sq := seqs db) in *.
  clearbody st sq. clear Hi db.
  change (committed (at_rest st sq)) with st in *.
  assert (Hc : amount_stored body = Some c).
  { unfold amount_stored. rewrite Hamt. apply hundredths_kept, Hr. }
  destruct (deposit_posts s body st sq a c Hk Hv Ha Hh Hc Ht)
    as (t & e & tr & -> & Ea & Ety & Ec & _).
  cbn [status json keys map fst get String.eqb Ascii.eqb Bool.eqb
         committed seqs at_rest].
  destruct (sum_entries_credit a c st (accounts st) (transactions st ++ [t])
              e Ea Ety Ec) as [S B].
  rewrite Hamt, (to_fixed2_hundredths c Hr).
  repeat split; try reflexivity; try assumption.
  unfold carries_new_balance. cbn. discriminate.
Qed.

Lemma deposit_adds_exactly_the_amount_witness :
  idle sample_database /\ keyed sample_database = true
  /\ valid_single (single_body 1 "25.50") = true
  /\ account_named "accountId" (single_body 1 "25.50") = Some 1
  /\ has_account 1 (committed sample_database) = true
  /\ parseFloat (get "amount" (single_body 1 "25.50"))
     = of_decimal false 2550 (-2)
  /\ 0 < 2550 < 10 ^ 14
  /\ texts_storable (single_body 1 "25.50") = true
  /\ sum_entries 1 (committed sample_database) = 10000
  /\ let '(db', tr, resp) :=
       handle 0%nat (PostDeposits (single_body 1 "25.50")) sample_database in
     status resp = 201
     /\ keys (json resp)
        = ["transactionId"; "status"; "accountId"; "amount"; "currency"]
     /\ get "transactionId" (json resp)
        = Num (of_Z (transactions_id_seq (seqs sample_database) + 1))
     /\ get "amount" (json resp) = Str "25.50"
     /\ ~ carries_new_balance resp
     /\ idle db'
     /\ sum_entries 1 (committed db') = 10000 + 2550
     /\ balance_text 1 (committed db') = "125.50".
Proof.
  assert (H1 : idle sample_database) by reflexivity.
  assert (H2 : keyed sample_database = true) by (vm_compute; reflexivity).
  assert (H3 : valid_single (single_body 1 "25.50") = true)
    by (vm_compute; reflexivity).
  assert (H4 : account_named "accountId" (single_body 1 "25.50") = Some 1)
    by (vm_compute; reflexivity).
  assert (H5 : has_account 1 (committed sample_database) = true)
    by (vm_compute; reflexivity).
  assert (H6 : parseFloat (get "amount" (single_body 1 "25.50"))
               = of_decimal false 2550 (-2)) by (vm_compute; reflexivity).
  assert (H7 : 0 < 2550 < 10 ^ 14) by (split; reflexivity).
  assert (H8 : texts_storable (single_body 1 "25.50") = true)
    by (vm_compute; reflexivity).
  assert (H9 : sum_entries 1 (committed sample_database) = 10000)
    by (vm_compute; reflexivity).
  split; [exact H1 |]. split; [exact H2 |]. split; [exact H3 |].
  split; [exact H4 |]. split; [exact H5 |]. split; [exact H6 |].
  split; [exact H7 |]. split; [exact H8 |]. split; [exact H9 |].
  pose proof (deposit_adds_exactly_the_amount 0%nat (single_body 1 "25.50")
                sample_database 1 2550 H1 H2 H3 H4 H5 H6 H7 H8) as D.
  destruct (handle 0%nat (PostDeposits (single_body 1 "25.50"))
              sample_database) as [[db' tr] resp].
  rewrite H9 in D.
  destruct D as (D1 & D2 & D3 & D4 & D5 & D6 & D7 & D8).
  split; [exact D1 |]. split; [exact D2 |]. split; [exact D3 |].
  split; [exact D4 |]. split; [exact D5 |]. split; [exact D6 |].
  split; [exact D7 |]. exact D8.
Defined.

(** C4 as stated fails, in three ways.  The payload of a successful
    deposit has no field for the new balance: depositing 25.50 into
    account 1 of the sample database is answered 201 with the five
    fields of the route and nothing else.  The balance after is not
    always the balance before plus the amount: a deposit of 0.004
    passes validation and is answered 201, and the balance stays at
    100.00.  And a deposit of a positive amount into an account the
    store holds does not always succeed: an amount of 1000000000000.00,
    and a currency with a zero byte, are answered 500 and nothing is
    written. *)
Lemma deposit_without_balance_and_beyond_the_column :
  (let '(db', tr, resp) :=
     handle 0%nat (PostDeposits (single_body 1 "25.50")) sample_database in
   status resp = 201
   /\ ~ carries_new_balance resp
   /\ json resp
      = [("transactionId", Num (of_Z 2)); ("status", Str "completed");
         ("accountId", Num (of_Z 1)); ("amount", Str "25.50");
         ("currency", Str "INR")])
  /\ (valid_single small_amount = true
      /\ ltb pos_zero (parseFloat (get "amount" small_amount)) = true
      /\ let '(db', tr, resp) :=
           handle 0%nat (PostDeposits small_amount) sample_database in
         status resp = 201
         /\ balance_text 1 (committed sample_database) = "100.00"
         /\ balance_text 1 (committed db') = "100.00")
  /\ (valid_single wide_amount = true
      /\ has_account 1 (committed sample_database) = true
      /\ let '(db', tr, resp) :=
           handle 0%nat (PostDeposits wide_amount) sample_database in
         status resp = 500
         /\ committed db' = committed sample_database)
  /\ (valid_single zero_byte_currency = true
      /\ let '(db', tr, resp) :=
           handle 0%nat (PostDeposits zero_byte_currency) sample_database in
         status resp = 500
         /\ committed db' = committed sample_database).
Proof.
  vm_compute. repeat split; try reflexivity; discriminate.
Qed.

(** The sum the balance query computes over the rows it selects is the
    sum of the credit amounts minus the sum of the debit amounts over
    all the entries of the account. *)
Lemma sum_is_credits_minus_debits (a : Z) (st : store) :
  sum_entries a st = credits_minus_debits a st.
Proof.
  unfold sum_entries, entries_of, credits_minus_debits, amounts_of, total.
  induction (ledger_entries st) as [| e l IH]; [reflexivity |].
  cbn [filter]. destruct (account_id e =? a); cbn [andb]; [| exact IH].
  cbn [map fold_right]. rewrite IH. unfold signed_amount.
  destruct (String.eqb (entry_type e) "credit") eqn:C.
  - apply String.eqb_eq in C. rewrite C.
    cbn [String.eqb Ascii.eqb Bool.eqb map fold_right]. lia.
  - destruct (String.eqb (entry_type e) "debit");
      cbn [map fold_right]; lia.
Qed.

(** The rows the balance query selects hold a credit or a debit exactly
    when the account has credit or debit amounts among all the
    entries. *)
Lemma legs_are_amounts (a : Z) (st : store) :
  existsb is_leg (entries_of a st)
  = match (amounts_of "credit" a st ++ amounts_of "debit" a st)%list with
    | [] => false
    | _ :: _ => true
    end.
Proof.
  unfold entries_of, amounts_of.
  induction (ledger_entries st) as [| e l IH]; [reflexivity |].
  cbn [filter]. destruct (account_id e =? a); cbn [andb]; [| exact IH].
  cbn [existsb]. unfold is_leg at 1.
  destruct (String.eqb (entry_type e) "credit"); [reflexivity |].
  destruct (String.eqb (entry_type e) "debit"); cbn [orb].
  - destruct (map le_amount (filter _ l)); reflexivity.
  - exact IH.
Qed.

Lemma no_entries_no_amounts (a : Z) (st : store) :
  no_entries a st -> forall kind, amounts_of kind a st = [].
Proof.
  unfold no_entries, amounts_of. intros H kind.
  induction (ledger_entries st) as [| e l IH]; [reflexivity |].
  cbn [filter].
  replace (account_id e =? a) with false
    by (symmetry; apply Z.eqb_neq, H; left; reflexivity).
  cbn [andb]. apply IH. intros e' He'. apply H. right. exact He'.
Qed.

Lemma found_account (a : Z) (st : store) :
  has_account a st = true ->
  exists r l, filter (fun r => acc_id r =? a) (accounts st) = r :: l.
Proof.
  unfold has_account.
  induction (accounts st) as [| r l IH]; cbn; [discriminate |].
  destruct (acc_id r =? a); [intros _; now eexists _, _ | exact IH].
Qed.

(** C2.  After any sequence of requests, the balance [GET /accounts/:id]
    reports for an account the store holds is the sum of the credit
    amounts minus the sum of the debit amounts over all the ledger
    entries of that account, printed with two fractional digits; it is
    ["0"] when the account has no credit or debit, and so when it has no
    entries, and the sum is then 0.  The report is computed from the
    entries alone: the account row it is joined to has no balance field,
    and the request changes nothing. *)
Theorem balance_is_credits_minus_debits (s : session) (rs : list request)
  (db0 : database) (id : string) (a : Z) :
  idle db0 -> keyed db0 = true ->
  int4_of (parseInt (Str id)) = Some a ->
  has_account a (committed (fst (serve s rs db0))) = true ->
  let db := fst (serve s rs db0) in
  let '(db', tr, resp) := handle s (GetAccount id) db in
  db' = db /\ status resp = 200
  /\ get "balance" (json resp)
     = Str (match (amounts_of "credit" a (committed db)
                   ++ amounts_of "debit" a (committed db))%list with
            | [] => "0"
            | _ :: _ => numeric_out (credits_minus_debits a (committed db))
            end)
  /\ (no_entries a (committed db) ->
      get "balance" (json resp) = Str "0"
      /\ credits_minus_debits a (committed db) = 0)
  /\ (forall r : account, has_key "balance" (account_json r) = false).
Proof.
  intros Hi0 Hk0 Hid Hacc. cbv zeta.
  destruct (serve_sound s rs db0 Hi0 Hk0) as (Hi & _).
  set (db := fst (serve s rs db0)) in *. clearbody db.
  rewrite (idle_at_rest db Hi) in *.
  set (st := committed db) in *. set (sq := seqs db) in *.
  clearbody st sq. clear Hi db.
  change (committed (at_rest st sq)) with st in *.
  unfold handle. cbn [route]. rewrite run_get_account. cbv zeta.
  assert (Hn : is_nan (parseInt (Str id)) = false)
    by (destruct (parseInt (Str id)); try reflexivity; discriminate).
  rewrite Hn, Hid.
  destruct (found_account a st Hacc) as (r & l & ->).
  cbn [status json].
  assert (G : get "balance"
                (account_json r ++ [("balance", Str (balance_text a st))])
              = Str (balance_text a st)) by reflexivity.
  rewrite G. unfold balance_text.
  rewrite sum_is_credits_minus_debits, legs_are_amounts.
  split; [reflexivity |]. split; [reflexivity |].
  split; [destruct (amounts_of "credit" a st ++ amounts_of "debit" a st)%list;
          reflexivity |].
  split; [| reflexivity].
  intros Hno. unfold credits_minus_debits.
  rewrite !(no_entries_no_amounts a st Hno). split; reflexivity.
Qed.

Lemma balance_is_credits_minus_debits_witness :
  idle empty_database /\ keyed empty_database = true
  /\ int4_of (parseInt (Str "1")) = Some 1
  /\ has_account 1
       (committed
          (fst (serve 0%nat
                  [open_account "x"; PostDeposits (single_body 1 "100.00");
                   PostWithdrawals (single_body 1 "30.25")]
                  empty_database))) = true
  /\ let db := fst (serve 0%nat
                      [open_account "x";
                       PostDeposits (single_body 1 "100.00");
                       PostWithdrawals (single_body 1 "30.25")]
                      empty_database) in
     amounts_of "credit" 1 (committed db) = [10000]
     /\ amounts_of "debit" 1 (committed db) = [3025]
     /\ get "balance" (json (snd (handle 0%nat (GetAccount "1") db)))
        = Str "69.75".
Proof.
  assert (H1 : idle empty_database) by reflexivity.
  assert (H2 : keyed empty_database = true) by reflexivity.
  assert (H3 : int4_of (parseInt (Str "1")) = Some 1)
    by (vm_compute; reflexivity).
  assert (H4 : has_account 1
       (committed
          (fst (serve 0%nat
                  [open_account "x"; PostDeposits (single_body 1 "100.00");
                   PostWithdrawals (single_body 1 "30.25")]
                  empty_database))) = true)
    by (vm_compute; reflexivity).
  split; [exact H1 |]. split; [exact H2 |]. split; [exact H3 |].
  split; [exact H4 |].
  pose proof (balance_is_credits_minus_debits 0%nat
                [open_account "x"; PostDeposits (single_body 1 "100.00");
                 PostWithdrawals (single_body 1 "30.25")]
                empty_database "1" 1 H1 H2 H3 H4) as B.
  cbv zeta in B |- *.
  set (db := fst (serve 0%nat
                    [open_account "x"; PostDeposits (single_body 1 "100.00");
                     PostWithdrawals (single_body 1 "30.25")]
                    empty_database)) in *.
  assert (C : amounts_of "credit" 1 (committed db) = [10000])
    by (vm_compute; reflexivity).
  assert (D : amounts_of "debit" 1 (committed db) = [3025])
    by (vm_compute; reflexivity).
  split; [exact C |]. split; [exact D |].
  destruct (handle 0%nat (GetAccount "1") db) as [[db' tr] resp].
  destruct B as (_ & _ & B & _). cbn [snd]. rewrite B.
  unfold credits_minus_debits. rewrite C, D. reflexivity.
Defined.

(** An account without entries reports ["0"]. *)
Example balance_without_entries :
  no_entries 2 (committed sample_database)
  /\ get "balance"
       (json (snd (handle 0%nat (GetAccount "2") sample_database)))
     = Str "0".
Proof.
  split; [| vm_compute; reflexivity].
  intros e He. vm_compute in He.
  destruct He as [<- | []]. discriminate.
Qed.

(** The same report by evaluation alone. *)
Example balance_after_deposit_and_withdrawal :
  get "balance"
    (json (snd (handle 0%nat (GetAccount "1")
                  (fst (serve 0%nat
                          [open_account "x";
                           PostDeposits (single_body 1 "100.00");
                           PostWithdrawals (single_body 1 "30.25")]
                          empty_database)))))
  = Str "69.75".
Proof. vm_compute. reflexivity. Qed.

(** [n] deposits of the same body, one after the other. *)
Lemma deposits_accumulate (s : session) (body : object) (a : Z) (c : cents) :
  valid_single body = true ->
  account_named "accountId" body = Some a ->
  amount_stored body = Some c ->
  texts_storable body = true ->
  forall (n : nat) (db : database),
    idle db -> keyed db = true -> has_account a (committed db) = true ->
    let db' := fst (serve s (repeat (PostDeposits body) n) db) in
    sum_entries a (committed db')
    = sum_entries a (committed db) + Z.of_nat n * c
    /\ (existsb is_leg (entries_of a (committed db)) = true \/ (0 < n)%nat ->
        existsb is_leg (entries_of a (committed db')) = true).
Proof.
  intros Hv Ha Hc Ht n. induction n as [| n IH]; intros db Hi Hk Hh.
  - cbn [repeat serve fst]. split; [lia |]. intros [H | H]; [exact H | lia].
  - cbn [repeat serve].
    pose proof (handle_sound s (PostDeposits body) db Hi Hk) as Hstep.
    rewrite (idle_at_rest db Hi) in *.
    set (st := committed db) in *. set (sq := seqs db) in *.
    clearbody st sq. clear Hi db.
    change (committed (at_rest st sq)) with st in *.
    destruct (deposit_posts s body st sq a c Hk Hv Ha Hh Hc Ht)
      as (t & e & tr & E & Ea & Ety & Ec & _).
    rewrite E in *. destruct Hstep as (Hi1 & Hk1 & _).
    match type of Hk1 with keyed ?d = true => set (db1 := d) in * end.
    assert (Hh1 : has_account a (committed db1) = true) by exact Hh.
    specialize (IH db1 Hi1 Hk1 Hh1).
    destruct (serve s (repeat (PostDeposits body) n) db1) as [db2 resps].
    cbn [fst] in *. destruct IH as [S L].
    destruct (sum_entries_credit a c st (accounts st)
                (transactions st ++ [t]) e Ea Ety Ec) as [S1 B1].
    change (committed db1)
      with {| accounts := accounts st; transactions := transactions st ++ [t];
              ledger_entries := ledger_entries st ++ [e] |} in S, L.
    split.
    + rewrite S, S1. lia.
    + intros _. apply L. left.
      unfold entries_of. cbn [ledger_entries].
      rewrite filter_app, existsb_app. cbn [filter].
      rewrite Ea, Z.eqb_refl. cbn [existsb]. unfold is_leg at 2.
      rewrite Ety. cbn [String.eqb Ascii.eqb Bool.eqb orb].
      apply orb_true_r.
Qed.

Lemma candidate_nonneg (x : number) (num den n k d p : Z) :
  0 <= num -> 0 <= den ->
  candidate x num den n k = Some (d, p) -> 0 <= d.
Proof.
  intros Hn Hd. unfold candidate.
  set (lo := if 0 <=? n - k then num / (den * 10 ^ (n - k))
             else num * 10 ^ (- (n - k)) / den).
  assert (Hlo : 0 <= lo).
  { subst lo. destruct (0 <=? n - k); apply Z_div_nonneg_nonneg;
      try apply Z.mul_nonneg_nonneg; try apply Z.pow_nonneg; lia. }
  clearbody lo.
  destruct (SFeqb (of_decimal false lo (n - k)) x),
    (SFeqb (of_decimal false (lo + 1) (n - k)) x);
    try discriminate; intros [= <- _]; try lia.
  match goal with |- 0 <= (if ?c then _ else _) => destruct c end; lia.
Qed.

Lemma shortest_from_nonneg (fuel : nat) (x : number) (num den n : Z) :
  0 <= num -> 0 <= den ->
  forall k, 0 <= fst (shortest_from fuel x num den n k).
Proof.
  intros Hn Hd. induction fuel as [| fuel IH]; intros k;
    cbn [shortest_from]; [cbn; lia |].
  destruct (candidate x num den n k) as [[d p] |] eqn:E; [| apply IH].
  apply candidate_nonneg in E; try assumption.
  destruct (d =? 10 ^ k); cbn [fst]; lia.
Qed.

Lemma shortest_nonneg (m : positive) (e : Z) : 0 <= fst (shortest m e).
Proof.
  unfold shortest, fraction_of.
  destruct (0 <=? e); apply shortest_from_nonneg;
    try apply Z.mul_nonneg_nonneg; try apply Z.pow_nonneg; lia.
Qed.

(** What the store keeps of an amount fits [numeric(14,2)]: a whole
    number of hundredths of at most fourteen digits. *)
Lemma numeric_14_2_range (x : number) (c : cents) :
  numeric_14_2_of x = Some c -> - 10 ^ 14 < c < 10 ^ 14.
Proof.
  unfold numeric_14_2_of. destruct x as [sg | sg | | sg m e];
    try discriminate.
  - intros [= <-]. split; reflexivity.
  - pose proof (shortest_nonneg m e) as Hd.
    destruct (shortest m e) as [d p]. cbn [fst] in Hd.
    set (v := if 0 <=? p + 2 then d * 10 ^ (p + 2)
              else (2 * d + 10 ^ (- (p + 2))) / (2 * 10 ^ (- (p + 2)))).
    assert (Hv : 0 <= v).
    { subst v. destruct (0 <=? p + 2).
      - apply Z.mul_nonneg_nonneg; [lia | apply Z.pow_nonneg; lia].
      - pose proof (Z.pow_nonneg 10 (- (p + 2))).
        apply Z_div_nonneg_nonneg; lia. }
    destruct (10 ^ 14 <=? v) eqn:E; [discriminate |].
    apply Z.leb_gt in E. intros [= <-].
    assert (0 < 10 ^ 14) by reflexivity.
    destruct sg; lia.
Qed.

(** C5.  Amounts are kept and added up as fixed-point decimals with two
    fractional digits.  What the store keeps of a request amount is a
    whole number of hundredths within [numeric(14,2)]; the balance is the
    exact integer sum of those hundredths, so [n] deposits of 0.01 raise
    it by exactly [n] hundredths, whatever [n]; the one place where the
    route reads the balance back as a floating-point number, the test
    [newBalance < 0], decides exactly whether the decimal balance is
    below zero; and the passage of a request amount through [parseFloat]
    on its way to the store loses nothing of an amount written with two
    fractional digits. *)
Theorem amounts_add_up_exactly (s : session) (body : object) (a : Z)
  (n : nat) (db : database) :
  idle db -> keyed db = true -> has_account a (committed db) = true ->
  valid_single body = true ->
  account_named "accountId" body = Some a ->
  parseFloat (get "amount" body) = parseFloat (Str "0.01") ->
  texts_storable body = true ->
  let db' := fst (serve s (repeat (PostDeposits body) n) db) in
  amount_stored body = Some 1
  /\ sum_entries a (committed db') = sum_entries a (committed db) + Z.of_nat n
  /\ ((0 < n)%nat ->
      balance_text a (committed db')
      = numeric_out (sum_entries a (committed db) + Z.of_nat n))
  /\ (forall (x : number) (c : cents),
        numeric_14_2_of x = Some c -> - 10 ^ 14 < c < 10 ^ 14)
  /\ (forall (st : store),
        ltb (parseFloat (Str (balance_text a st))) pos_zero
        = (sum_entries a st <? 0))
  /\ (forall c : cents,
        0 < c < 10 ^ 14 ->
        numeric_14_2_of (parseFloat (Str (numeric_out c))) = Some c).
Proof.
  intros Hi Hk Hh Hv Ha Hamt Ht. cbv zeta.
  assert (Hc : amount_stored body = Some 1).
  { unfold amount_stored. rewrite Hamt. vm_compute. reflexivity. }
  destruct (deposits_accumulate s body a 1 Hv Ha Hc Ht n db Hi Hk Hh)
    as [S L].
  split; [exact Hc |]. split; [rewrite S; lia |].
  split; [| split; [exact numeric_14_2_range |
                    split; [apply balance_below_zero |
                            exact two_decimals_kept]]].
  intros Hn. unfold balance_text. rewrite L by (right; exact Hn).
  rewrite S. f_equal. lia.
Qed.

Lemma amounts_add_up_exactly_witness :
  idle fresh_database /\ keyed fresh_database = true
  /\ has_account 1 (committed fresh_database) = true
  /\ valid_single (single_body 1 "0.01") = true
  /\ account_named "accountId" (single_body 1 "0.01") = Some 1
  /\ parseFloat (get "amount" (single_body 1 "0.01"))
     = parseFloat (Str "0.01")
  /\ texts_storable (single_body 1 "0.01") = true
  /\ balance_text 1
       (committed
          (fst (serve 0%nat
                  (repeat (PostDeposits (single_body 1 "0.01")) (Z.to_nat 10000))
                  fresh_database)))
     = "100.00".
Proof.
  assert (H1 : idle fresh_database) by reflexivity.
  assert (H2 : keyed fresh_database = true) by (vm_compute; reflexivity).
  assert (H3 : has_account 1 (committed fresh_database) = true)
    by (vm_compute; reflexivity).
  assert (H4 : valid_single (single_body 1 "0.01") = true)
    by (vm_compute; reflexivity).
  assert (H5 : account_named "accountId" (single_body 1 "0.01") = Some 1)
    by (vm_compute; reflexivity).
  assert (H6 : parseFloat (get "amount" (single_body 1 "0.01"))
               = parseFloat (Str "0.01")) by reflexivity.
  assert (H7 : texts_storable (single_body 1 "0.01") = true)
    by (vm_compute; reflexivity).
  split; [exact H1 |]. split; [exact H2 |]. split; [exact H3 |].
  split; [exact H4 |]. split; [exact H5 |]. split; [exact H6 |].
  split; [exact H7 |].
  destruct (amounts_add_up_exactly 0%nat (single_body 1 "0.01") 1
              (Z.to_nat 10000) fresh_database H1 H2 H3 H4 H5 H6 H7) as (_ & _ & B & _).
  rewrite B by (apply Nat.ltb_lt; vm_compute; reflexivity).
  vm_compute. reflexivity.
Defined.

(** One transfer request: answered 201 it has added its transaction and
    the two legs, from the source to the destination the request names
    and of its amount; answered anything else it has added nothing. *)
Lemma transfer_outcome (s : session) (body : object) (db : database) :
  idle db -> keyed db = true ->
  let '(db', tr, resp) := handle s (PostTransfers body) db in
  (status resp = 201 ->
   exists a b amt t d c,
     account_named "sourceAccountId" body = Some a
     /\ account_named "destinationAccountId" body = Some b
     /\ amount_stored body = Some amt
     /\ transactions (committed db') = transactions (committed db) ++ [t]
     /\ ledger_entries (committed db')
        = ledger_entries (committed db) ++ [d; c]
     /\ tx_id t = transactions_id_seq (seqs db) + 1
     /\ tx_type t = "transfer" /\ tx_status t = "completed"
     /\ source_account_id t = Some a /\ destination_account_id t = Some b
     /\ tx_amount t = amt
     /\ entry_type d = "debit" /\ account_id d = a /\ le_amount d = amt
     /\ transaction_id d = tx_id t
     /\ entry_type c = "credit" /\ account_id c = b /\ le_amount c = amt
     /\ transaction_id c = tx_id t
     /\ two_legs t [d; c]
     /\ entries_of_transaction (tx_id t) (committed db') = [d; c]
     /\ get "transactionId" (json resp) = Num (of_Z (tx_id t)))
  /\ (status resp <> 201 -> committed db' = committed db).
Proof.
  intros Hi Hk. rewrite (idle_at_rest db Hi) in *.
  set (st := committed db) in *. set (sq := seqs db) in *.
  clearbody st sq. clear Hi db.
  change (committed (at_rest st sq)) with st in *.
  change (seqs (at_rest st sq)) with sq in *.
  unfold handle. cbn [route].
  destruct (valid_transfer body) eqn:Hv.
  2:{ destruct (valid_body_false s Transfer body (at_rest st sq) Hv)
        as [text E].
      cbn [money_request route] in E. rewrite E. cbn [status committed].
      split; [discriminate | reflexivity]. }
  rewrite run_post_transfers by assumption. cbv zeta. unfold account_named.
  destruct (int4_of (parseInt (get "sourceAccountId" body))) as [a |];
    [| split; [discriminate | reflexivity]].
  destruct (int4_of (parseInt (get "destinationAccountId" body))) as [b |];
    [| split; [discriminate | reflexivity]].
  destruct (has_account a st && has_account b st && negb (a =? b));
    [| split; [discriminate | reflexivity]].
  destruct (amount_stored body) as [c |];
    [| split; [discriminate | reflexivity]].
  destruct (text_not_null_of (get "currency" body)) as [cur |];
    [| split; [discriminate | reflexivity]].
  destruct (text_of (or_null (get "description" body))) as [d |];
    [| split; [discriminate | reflexivity]].
  destruct (sum_entries a st - c <? 0);
    [split; [discriminate | reflexivity] |].
  cbn [status json committed at_rest]. split; [| intros H; now elim H].
  intros _. exists a, b, c. eexists _, _, _.
  do 19 (split; [reflexivity |]).
  split; [eexists _, _, a, b; repeat split; reflexivity |].
  split; [| reflexivity].
  rewrite (entries_after_posting sq st
             {| tx_id := transactions_id_seq sq + 1; tx_type := "transfer";
                tx_amount := c; tx_currency := cur;
                source_account_id := Some a;
                destination_account_id := Some b;
                tx_status := "completed"; tx_description := d |});
    [cbn [tx_id]; now rewrite Z.eqb_refl | assumption | reflexivity |].
  repeat constructor.
Qed.

(** A transfer that passes validation, between two different accounts
    the store holds, of an amount and texts that can be stored and that
    the balance of the source covers, is answered 201. *)
Lemma transfer_succeeds (s : session) (body : object) (db : database)
  (a : Z) (amt : cents) :
  idle db -> keyed db = true ->
  valid_transfer body = true ->
  accounts_found Transfer body (committed db) = true ->
  texts_storable body = true ->
  account_named "sourceAccountId" body = Some a ->
  amount_stored body = Some amt ->
  amt <= sum_entries a (committed db) ->
  status (snd (handle s (PostTransfers body) db)) = 201.
Proof.
  intros Hi Hk Hv Hf Ht Ha Hc Hle. rewrite (idle_at_rest db Hi) in *.
  set (st := committed db) in *. set (sq := seqs db) in *.
  clearbody st sq. clear Hi db.
  change (committed (at_rest st sq)) with st in *.
  destruct (texts_storable_parts body Ht) as (cur & d & Ecur & Ed).
  assert (Hb : (sum_entries a st - amt <? 0) = false)
    by (apply Z.ltb_ge; lia).
  unfold handle. cbn [route accounts_found] in *.
  unfold account_named in *.
  rewrite run_post_transfers by assumption. cbv zeta.
  rewrite Ha in *.
  destruct (int4_of (parseInt (get "destinationAccountId" body)));
    [| discriminate].
  rewrite Hf, Hc, Ecur, Ed, Hb. reflexivity.
Qed.

(** C3.  Whatever requests came before, every transfer transaction in
    the store has exactly two entries, a debit on its source account and
    a credit on its destination account, both of its amount and under its
    id - never an odd number.  A transfer request answered 201 has added
    its transaction, under the next id, and exactly two entries under
    that id: a debit on the account [sourceAccountId] names and a credit
    on the account [destinationAccountId] names, both of the amount of
    the request; answered anything else it has added neither.  It is
    answered 201 whenever it passes validation, names two different
    accounts the store holds and an amount and texts that can be stored,
    and the balance of the source covers the amount. *)
Theorem transfer_writes_both_legs_or_none (s : session)
  (rs : list request) (db0 : database) (body : object) :
  idle db0 -> keyed db0 = true -> transfers_paired (committed db0) ->
  let db := fst (serve s rs db0) in
  transfers_paired (committed db)
  /\ (forall t, In t (transactions (committed db)) ->
        tx_type t = "transfer" ->
        List.length (entries_of_transaction (tx_id t) (committed db))
        = 2%nat)
  /\ let '(db', tr, resp) := handle s (PostTransfers body) db in
     (status resp = 201 ->
      exists a b amt t d c,
        account_named "sourceAccountId" body = Some a
        /\ account_named "destinationAccountId" body = Some b
        /\ amount_stored body = Some amt
        /\ transactions (committed db') = transactions (committed db) ++ [t]
        /\ ledger_entries (committed db')
           = ledger_entries (committed db) ++ [d; c]
        /\ tx_id t = transactions_id_seq (seqs db) + 1
        /\ tx_type t = "transfer" /\ tx_status t = "completed"
        /\ source_account_id t = Some a /\ destination_account_id t = Some b
        /\ tx_amount t = amt
        /\ entry_type d = "debit" /\ account_id d = a /\ le_amount d = amt
        /\ transaction_id d = tx_id t
        /\ entry_type c = "credit" /\ account_id c = b /\ le_amount c = amt
        /\ transaction_id c = tx_id t
        /\ two_legs t [d; c]
        /\ entries_of_transaction (tx_id t) (committed db') = [d; c]
        /\ get "transactionId" (json resp) = Num (of_Z (tx_id t)))
     /\ (status resp <> 201 -> committed db' = committed db)
     /\ (valid_transfer body = true ->
         accounts_found Transfer body (committed db) = true ->
         texts_storable body = true ->
         forall a amt,
           account_named "sourceAccountId" body = Some a ->
           amount_stored body = Some amt ->
           amt <= sum_entries a (committed db) ->
           status resp = 201).
Proof.
  intros Hi Hk Hp. cbv zeta.
  destruct (serve_sound s rs db0 Hi Hk) as (Hi' & Hk' & _ & _ & Hp').
  specialize (Hp' Hp).
  split; [exact Hp' |]. split.
  - intros t Hin Hty.
    destruct (Hp' t Hin Hty) as (d & c & src & dst & -> & _). reflexivity.
  - pose proof (transfer_outcome s body _ Hi' Hk') as O.
    pose proof (fun a amt => transfer_succeeds s body _ a amt Hi' Hk') as S.
    destruct (handle s (PostTransfers body) (fst (serve s rs db0)))
      as [[db' tr] resp].
    cbn [snd] in S. destruct O as [O1 O2].
    split; [exact O1 |]. split; [exact O2 |].
    intros Hv Hf Ht a amt Ha Hc Hle. exact (S a amt Hv Hf Ht Ha Hc Hle).
Qed.

Lemma transfer_writes_both_legs_or_none_witness :
  idle empty_database /\ keyed empty_database = true
  /\ transfers_paired (committed empty_database)
  /\ let db := fst (serve 0%nat
                      [open_account "x"; open_account "y";
                       PostDeposits (single_body 1 "100.00");
                       PostTransfers (transfer_body 1 2 "40.00")]
                      empty_database) in
     let out := handle 0%nat (PostTransfers (transfer_body 1 2 "60.00")) db in
     status (snd out) = 201
     /\ exists d c,
          ledger_entries (committed (fst (fst out)))
          = ledger_entries (committed db) ++ [d; c]
          /\ entry_type d = "debit" /\ account_id d = 1
          /\ le_amount d = 6000 /\ transaction_id d = 3
          /\ entry_type c = "credit" /\ account_id c = 2
          /\ le_amount c = 6000 /\ transaction_id c = 3.
Proof.
  assert (H1 : idle empty_database) by reflexivity.
  assert (H2 : keyed empty_database = true) by reflexivity.
  assert (H3 : transfers_paired (committed empty_database))
    by (intros t []).
  split; [exact H1 |]. split; [exact H2 |]. split; [exact H3 |].
  pose proof (transfer_writes_both_legs_or_none 0%nat
                [open_account "x"; open_account "y";
                 PostDeposits (single_body 1 "100.00");
                 PostTransfers (transfer_body 1 2 "40.00")]
                empty_database (transfer_body 1 2 "60.00") H1 H2 H3) as T.
  cbv zeta in T |- *.
  set (db := fst (serve 0%nat
                    [open_account "x"; open_account "y";
                     PostDeposits (single_body 1 "100.00");
                     PostTransfers (transfer_body 1 2 "40.00")]
                    empty_database)) in *.
  assert (Hv : valid_transfer (transfer_body 1 2 "60.00") = true)
    by (vm_compute; reflexivity).
  assert (Hf : accounts_found Transfer (transfer_body 1 2 "60.00")
                 (committed db) = true) by (vm_compute; reflexivity).
  assert (Ht : texts_storable (transfer_body 1 2 "60.00") = true)
    by (vm_compute; reflexivity).
  assert (Ha : account_named "sourceAccountId" (transfer_body 1 2 "60.00")
               = Some 1) by (vm_compute; reflexivity).
  assert (Hb : account_named "destinationAccountId"
                 (transfer_body 1 2 "60.00") = Some 2)
    by (vm_compute; reflexivity).
  assert (Hc : amount_stored (transfer_body 1 2 "60.00") = Some 6000)
    by (vm_compute; reflexivity).
  assert (Hle : 6000 <= sum_entries 1 (committed db))
    by (apply Z.leb_le; vm_compute; reflexivity).
  assert (Hq : transactions_id_seq (seqs db) + 1 = 3)
    by (vm_compute; reflexivity).
  destruct T as (_ & _ & T).
  destruct (handle 0%nat (PostTransfers (transfer_body 1 2 "60.00")) db)
    as [[db' tr] resp].
  cbn [fst snd]. destruct T as (T1 & _ & T3).
  pose proof (T3 Hv Hf Ht 1 6000 Ha Hc Hle) as Hy.
  split; [exact Hy |].
  destruct (T1 Hy)
    as (a & b & amt & t & d & c & Ea & Eb & Ec & _ & El & Eid & _ & _ & _
        & _ & _ & D1 & D2 & D3 & D4 & C1 & C2 & C3 & C4 & _).
  rewrite Ha in Ea. rewrite Hb in Eb. rewrite Hc in Ec.
  injection Ea as <-. injection Eb as <-. injection Ec as <-.
  rewrite Eid, Hq in D4, C4.
  exists d, c. repeat split; assumption.
Defined.

(** The transfer of the witness above goes through and leaves two
    transfers of two entries each. *)
Example second_transfer_succeeds :
  let db := fst (serve 0%nat
                   [open_account "x"; open_account "y";
                    PostDeposits (single_body 1 "100.00");
                    PostTransfers (transfer_body 1 2 "40.00")]
                   empty_database) in
  let '(db', tr, resp) :=
    handle 0%nat (PostTransfers (transfer_body 1 2 "60.00")) db in
  status resp = 201
  /\ map (fun e => (transaction_id e, account_id e, entry_type e,
                    le_amount e))
       (ledger_entries (committed db'))
     = [(1, 1, "credit", 10000);
        (2, 1, "debit", 4000); (2, 2, "credit", 4000);
        (3, 1, "debit", 6000); (3, 2, "credit", 6000)].
Proof. vm_compute. split; reflexivity. Qed.

(** C6.  Whatever requests came before, every transaction row in the
    store has status [completed]: none is left [pending] and none is ever
    [failed].  The rows that were there stay as they were, new ones come
    after them.  A request sends at most one status update: to
    [completed], for the transaction its own insert created, and that
    insert created it [pending]. *)
Theorem transactions_end_completed (s : session) (rs : list request)
  (db0 : database) (r : request) :
  idle db0 -> keyed db0 = true -> all_completed (committed db0) ->
  let db := fst (serve s rs db0) in
  all_completed (committed db)
  /\ (exists new,
        transactions (committed db) = transactions (committed db0) ++ new)
  /\ idle db
  /\ (let '(db', tr, resp) := handle s r db in
      all_completed (committed db')
      /\ idle db'
      /\ (updates tr = []
          \/ updates tr
             = [("completed", transactions_id_seq (seqs db) + 1)]))
  /\ (forall log st sq type amount currency source destination description
             db1 id,
        exec s (InsertTransaction type amount currency source destination
                  description) (in_block s log st sq) = (db1, Some id) ->
        id = transactions_id_seq sq + 1
        /\ exists row,
             db1 = in_block s (WTransaction row :: log) st
                     (next_transaction sq)
             /\ tx_id row = id /\ tx_status row = "pending").
Proof.
  intros Hi Hk Hc. cbv zeta.
  destruct (serve_sound s rs db0 Hi Hk) as (Hi' & Hk' & [Hx _] & Hc' & _).
  specialize (Hc' Hc).
  split; [exact Hc' |]. split; [exact Hx |]. split; [exact Hi' |]. split.
  - pose proof (handle_sound s r _ Hi' Hk') as Hstep.
    destruct (handle s r (fst (serve s rs db0))) as [[db' tr] resp].
    destruct Hstep as (Hi1 & _ & _ & He & _ & Hu).
    split; [eapply effect_completed; eassumption |].
    split; [exact Hi1 | exact Hu].
  - intros log st sq type amount currency source destination description
      db1 id. rewrite exec_insert_transaction.
    destruct (numeric_14_2_of amount), (text_not_null_of currency),
      (reference_of source), (reference_of destination),
      (text_of description); try discriminate.
    cbv zeta.
    match goal with |- context [if ?c then _ else _] => destruct c end;
      [| discriminate].
    intros [= <- <-]. split; [reflexivity |].
    eexists. repeat split; reflexivity.
Qed.

Lemma transactions_end_completed_witness :
  idle empty_database /\ keyed empty_database = true
  /\ all_completed (committed empty_database)
  /\ all_completed
       (committed
          (fst (serve 0%nat
                  [open_account "x"; PostDeposits (single_body 1 "100.00");
                   PostWithdrawals (single_body 1 "150.00");
                   PostWithdrawals (single_body 1 "50.00")]
                  empty_database))).
Proof.
  assert (H1 : idle empty_database) by reflexivity.
  assert (H2 : keyed empty_database = true) by reflexivity.
  assert (H3 : all_completed (committed empty_database))
    by (intros t []).
  split; [exact H1 |]. split; [exact H2 |]. split; [exact H3 |].
  exact (proj1 (transactions_end_completed 0%nat
                  [open_account "x"; PostDeposits (single_body 1 "100.00");
                   PostWithdrawals (single_body 1 "150.00");
                   PostWithdrawals (single_body 1 "50.00")]
                  empty_database (GetAccount "1") H1 H2 H3)).
Defined.

(** C9 on the code.  Two withdrawals of 60.00 from account 1, which
    holds 100.00, each on its own pool client with the statements of the
    two taking turns: each reads a balance of 40.00 after its own debit,
    since the other's debit is not committed yet; both are answered 201
    and the account is left at -20.00.  One after the other, the second
    is answered 422. *)
Theorem concurrent_withdrawals_overdraw :
  let w := Running (route (PostWithdrawals (single_body 1 "60.00"))) in
  let '(db', t1, t2) := interleave alternating w w sample_database in
  balance_text 1 (committed sample_database) = "100.00"
  /\ (exists r1 r2,
        t1 = Finished r1 /\ t2 = Finished r2
        /\ status r1 = 201 /\ status r2 = 201)
  /\ idle db'
  /\ balance_text 1 (committed db') = "-20.00"
  /\ map status
       (snd (serve 0%nat
               [PostWithdrawals (single_body 1 "60.00");
                PostWithdrawals (single_body 1 "60.00")]
               sample_database))
     = [201; 422].
Proof.
  vm_compute. split; [reflexivity |].
  split; [eexists _, _; repeat split; reflexivity |].
  repeat split; reflexivity.
Qed.

(** * The model at work *)

(** Numbers of the request as JavaScript reads, prints and formats
    them. *)
Example numbers_read_and_printed :
  map (fun t => to_string (parseFloat (Str t)))
    ["0.01"; "  12.50abc"; "abc"; ".5"; "5."; "1e3"; "-0";
     "0.30000000000000004"; "1e21"; "0.0000001"]
  = ["0.01"; "12.5"; "NaN"; "0.5"; "5"; "1000"; "0";
     "0.30000000000000004"; "1e+21"; "1e-7"]
  /\ map (fun t => to_string (parseInt (Str t)))
       ["12"; " 12px"; "1.9"; "abc"; ""; "0x10"; "99999999999"]
     = ["12"; "12"; "1"; "NaN"; "NaN"; "0"; "99999999999"]
  /\ map (fun t => to_fixed2 (parseFloat (Str t)))
       ["100"; "0.005"; "1.005"; "8.345"; "0.001"]
     = ["100.00"; "0.01"; "1.00"; "8.35"; "0.00"].
Proof. vm_compute. repeat split; reflexivity. Qed.

(** Amounts of the request as [numeric(14,2)] keeps them: halves are
    rounded away from zero, twelve digits before the point are the most,
    and a positive amount below half a hundredth is kept as zero. *)
Example amounts_as_stored :
  map (fun t => numeric_14_2_of (parseFloat (Str t)))
    ["0.01"; "100.00"; "25.5"; "1.005"; "0.005"; "0.001";
     "999999999999.99"; "1e12"; "Infinity"]
  = [Some 1; Some 10000; Some 2550; Some 101; Some 1; Some 0;
     Some 99999999999999; None; None].
Proof. vm_compute. reflexivity. Qed.

(** The scenario of the specification: X and Y are opened, 100.00 is
    deposited into X and transferred to Y; a further transfer of 0.01
    from X is refused and leaves X with its two entries; a withdrawal of
    150.00 from Y is refused as well. *)
Example scenario :
  let requests :=
    [open_account "x"; open_account "y";
     PostDeposits (single_body 1 "100.00"); GetAccount "1";
     PostTransfers (transfer_body 1 2 "100.00");
     GetAccount "1"; GetAccount "2";
     PostTransfers (transfer_body 1 2 "0.01");
     GetAccount "1"; GetAccount "2";
     PostWithdrawals (single_body 2 "150.00"); GetAccount "2"] in
  let '(db, responses) := serve 0%nat requests empty_database in
  map status responses
  = [201; 201; 201; 200; 201; 200; 200; 422; 200; 200; 422; 200]
  /\ map (fun r => get "balance" (json r)) responses
     = [Undefined; Undefined; Undefined; Str "100.00"; Undefined;
        Str "0.00"; Str "100.00"; Undefined; Str "0.00"; Str "100.00";
        Undefined; Str "100.00"]
  /\ List.length (entries_of 1 (committed db)) = 2%nat
  /\ List.length (entries_of 2 (committed db)) = 1%nat.
Proof. vm_compute. repeat split; reflexivity. Qed.

(* ================================================================= *)
(** * More of the routes *)

Section Cases.

Variable s : session.

(** The amount the store keeps of a request that passed validation is
    not below zero. *)
Lemma amount_stored_nonneg (body : object) (c : cents) :
  is_nan (parseFloat (get "amount" body)) = false ->
  leb (parseFloat (get "amount" body)) pos_zero = false ->
  amount_stored body = Some c -> 0 <= c.
Proof.
  unfold amount_stored. intros Hn Hp.
  destruct (parseFloat (get "amount" body)) as [sg | sg | | sg m e];
    try discriminate.
  destruct sg; [discriminate |].
  unfold numeric_14_2_of.
  {
    pose proof (shortest_nonneg m e) as Hd.
    destruct (shortest m e) as [d p]. cbn [fst] in Hd.
    set (v := if 0 <=? p + 2 then d * 10 ^ (p + 2)
              else (2 * d + 10 ^ (- (p + 2))) / (2 * 10 ^ (- (p + 2)))).
    assert (Hv : 0 <= v).
    { subst v. destruct (0 <=? p + 2).
      - apply Z.mul_nonneg_nonneg; [lia | apply Z.pow_nonneg; lia].
      - pose proof (Z.pow_nonneg 10 (- (p + 2))).
        apply Z_div_nonneg_nonneg; lia. }
    destruct (10 ^ 14 <=? v); [discriminate |].
    intros [= <-]. exact Hv. }
Qed.

Ltac refused :=
  left; split; [cbn; discriminate | reflexivity].

Lemma handle_served (r : request) (db : database) :
  idle db -> keyed db = true ->
  let '(db', tr, resp) := handle s r db in
  served r (seqs db) (committed db) resp (committed db').
Proof.
  intros Hi Hk. rewrite (idle_at_rest db Hi) in *.
  set (st := committed db) in *. set (sq := seqs db) in *.
  clearbody st sq. clear Hi db.
  unfold handle, served. cbn [committed seqs at_rest].
  destruct r as [body | body | body | body | id]; cbn [route].
  - (* POST /accounts *)
    rewrite run_post_accounts by assumption. cbv zeta.
    destruct (negb (truthy (get "userId" body)) || _ || _); [refused |].
    destruct (text_not_null_of (get "userId" body)) as [u |] eqn:Eu;
      [| refused].
    destruct (text_not_null_of (get "type" body)) as [t |] eqn:Et;
      [| refused].
    destruct (text_not_null_of (get "currency" body)) as [c |] eqn:Ec;
      [| refused].
    right; left. split; [reflexivity |].
    exists body, u, t, c.
    split; [reflexivity |]. split; [exact Eu |]. split; [exact Et |].
    split; [exact Ec |]. split; reflexivity.
  - (* POST /transfers *)
    destruct (valid_transfer body) eqn:Hv.
    2:{ destruct (valid_body_false s Transfer body (at_rest st sq) Hv)
          as [text E].
        cbn [money_request route] in E. rewrite E. refused. }
    destruct (valid_transfer_parts body Hv)
      as (_ & _ & _ & _ & _ & _ & N3 & P & _).
    rewrite run_post_transfers by assumption. cbv zeta.
    destruct (int4_of (parseInt (get "sourceAccountId" body)))
      as [a |] eqn:Ea; [| refused].
    destruct (int4_of (parseInt (get "destinationAccountId" body)))
      as [b |] eqn:Eb; [| refused].
    destruct (has_account a st && has_account b st && negb (a =? b))
      eqn:Hab; [| refused].
    apply andb_true_iff in Hab as [Hab Hne].
    apply andb_true_iff in Hab as [Ha Hb].
    apply negb_true_iff, Z.eqb_neq in Hne.
    destruct (amount_stored body) as [c |] eqn:Ec; [| refused].
    destruct (text_not_null_of (get "currency" body)) as [cur |];
      [| refused].
    destruct (text_of (or_null (get "description" body))) as [d |];
      [| refused].
    destruct (sum_entries a st - c <? 0) eqn:Hb0; [refused |].
    apply Z.ltb_ge in Hb0.
    right; right. split; [reflexivity |].
    eexists _, _. split; [| reflexivity].
    apply Transferred; try assumption.
    eapply amount_stored_nonneg; eassumption.
  - (* POST /deposits *)
    destruct (valid_single body) eqn:Hv.
    2:{ destruct (valid_body_false s Deposit body (at_rest st sq) Hv)
          as [text E].
        cbn [money_request route] in E. rewrite E. refused. }
    destruct (valid_single_parts body Hv) as (_ & _ & _ & _ & N2 & P).
    rewrite run_post_deposits by assumption. cbv zeta.
    destruct (int4_of (parseInt (get "accountId" body)))
      as [a |] eqn:Ea; [| refused].
    destruct (has_account a st) eqn:Ha; [| refused].
    destruct (amount_stored body) as [c |] eqn:Ec; [| refused].
    destruct (text_not_null_of (get "currency" body)) as [cur |];
      [| refused].
    destruct (text_of (or_null (get "description" body))) as [d |];
      [| refused].
    right; right. split; [reflexivity |].
    eexists _, _. split; [| reflexivity].
    apply Deposited; try assumption.
    eapply amount_stored_nonneg; eassumption.
  - (* POST /withdrawals *)
    destruct (valid_single body) eqn:Hv.
    2:{ destruct (valid_body_false s Withdrawal body (at_rest st sq) Hv)
          as [text E].
        cbn [money_request route] in E. rewrite E. refused. }
    destruct (valid_single_parts body Hv) as (_ & _ & _ & _ & N2 & P).
    rewrite run_post_withdrawals by assumption. cbv zeta.
    destruct (int4_of (parseInt (get "accountId" body)))
      as [a |] eqn:Ea; [| refused].
    destruct (has_account a st) eqn:Ha; [| refused].
    destruct (amount_stored body) as [c |] eqn:Ec; [| refused].
    destruct (text_not_null_of (get "currency" body)) as [cur |];
      [| refused].
    destruct (text_of (or_null (get "description" body))) as [d |];
      [| refused].
    destruct (sum_entries a st - c <? 0) eqn:Hb0; [refused |].
    apply Z.ltb_ge in Hb0.
    right; right. split; [reflexivity |].
    eexists _, _. split; [| reflexivity].
    apply Withdrawn; try assumption.
    eapply amount_stored_nonneg; eassumption.
  - (* GET /accounts/:id *)
    rewrite run_get_account. cbv zeta.
    destruct (is_nan (parseInt (Str id))); [refused |].
    destruct (int4_of (parseInt (Str id))) as [a |]; [| refused].
    destruct (filter (fun r => acc_id r =? a) (accounts st)); refused.
Qed.

(** A property of the committed rows that every request keeps is kept
    by every sequence of requests. *)
Lemma serve_keeps (P : store -> Prop) :
  (forall r sq st resp st',
     keyed (at_rest st sq) = true ->
     served r sq st resp st' -> P st -> P st') ->
  forall rs db, idle db -> keyed db = true -> P (committed db) ->
    P (committed (fst (serve s rs db))).
Proof.
  intros Hstep. induction rs as [| r rs IH]; intros db Hi Hk HP;
    cbn [serve fst]; [exact HP |].
  pose proof (handle_sound s r db Hi Hk) as Hok.
  pose proof (handle_served r db Hi Hk) as Hs.
  destruct (handle s r db) as [[db1 tr] resp].
  destruct Hok as (Hi1 & Hk1 & _).
  specialize (IH db1 Hi1 Hk1).
  destruct (serve s rs db1) as [db2 resps]. cbn [fst] in *.
  apply IH. rewrite (idle_at_rest db Hi) in Hk.
  exact (Hstep r (seqs db) (committed db) resp (committed db1) Hk Hs HP).
Qed.

End Cases.

Section Balances.

Lemma sum_entries_leg (x : Z) (acs : list account)
  (txs : list transaction) (st : store) (i t a : Z) (kind : string)
  (c : cents) :
  sum_entries x {| accounts := acs; transactions := txs;
                   ledger_entries := ledger_entries st ++ [leg i t a kind c] |}
  = sum_entries x st
    + (if a =? x then signed_amount (leg i t a kind c) else 0).
Proof.
  rewrite sum_entries_append. cbn [filter leg account_id].
  destruct (a =? x); cbn [map fold_right]; lia.
Qed.

Lemma sum_entries_legs (x : Z) (acs : list account)
  (txs : list transaction) (st : store) (i t a : Z) (kind : string)
  (c : cents) (i' t' a' : Z) (kind' : string) (c' : cents) :
  sum_entries x {| accounts := acs; transactions := txs;
                   ledger_entries := ledger_entries st
                     ++ [leg i t a kind c; leg i' t' a' kind' c'] |}
  = sum_entries x st
    + (if a =? x then signed_amount (leg i t a kind c) else 0)
    + (if a' =? x then signed_amount (leg i' t' a' kind' c') else 0).
Proof.
  rewrite sum_entries_append. cbn [filter leg account_id].
  destruct (a =? x), (a' =? x); cbn [map fold_right]; lia.
Qed.

Lemma signed_credit (i t a : Z) (c : cents) :
  signed_amount (leg i t a "credit" c) = c.
Proof. reflexivity. Qed.

Lemma signed_debit (i t a : Z) (c : cents) :
  signed_amount (leg i t a "debit" c) = - c.
Proof. reflexivity. Qed.

Lemma served_solvent (r : request) (sq : sequences) (st : store)
  (resp : response) (st' : store) :
  served r sq st resp st' -> solvent st -> solvent st'.
Proof.
  intros [[_ ->] | [(_ & body & u & t & c & _ & _ & _ & _ & _ & ->)
                   | (_ & t & es & Hp & ->)]] Hs; [exact Hs | exact Hs |].
  intros x. specialize (Hs x) as Hx.
  destruct Hp.
  - rewrite sum_entries_leg, signed_credit. destruct (a =? x); lia.
  - rewrite sum_entries_leg, signed_debit.
    destruct (Z.eqb_spec a x); subst; lia.
  - rewrite sum_entries_legs, signed_credit, signed_debit.
    destruct (Z.eqb_spec a x), (Z.eqb_spec b x); subst; lia.
Qed.

Lemma served_books (r : request) (sq : sequences) (st : store)
  (resp : response) (st' : store) :
  served r sq st resp st' -> books_balance st -> books_balance st'.
Proof.
  intros [[_ ->] | [(_ & body & u & t & c & _ & _ & _ & _ & _ & ->)
                   | (_ & t & es & Hp & ->)]] Hs; [exact Hs | exact Hs |].
  unfold books_balance, ledger_total, moved, total in *.
  cbn [transactions ledger_entries].
  rewrite !filter_app, !map_app, !total_app, Hs.
  destruct Hp; cbn; lia.
Qed.

End Balances.

Section ForeignKeys.

Lemma referenced_parts (st : store) :
  referenced st = true ->
  Forall (fun e => has_transaction (transaction_id e) st = true
                   /\ has_account (account_id e) st = true)
    (ledger_entries st)
  /\ Forall (fun t => reference_ok (source_account_id t) st = true
                      /\ reference_ok (destination_account_id t) st = true)
       (transactions st).
Proof.
  unfold referenced. intros H. apply andb_true_iff in H as [He Ht].
  rewrite forallb_forall in He, Ht.
  split; apply Forall_forall; intros x Hx.
  - apply andb_true_iff, He, Hx.
  - apply andb_true_iff, Ht, Hx.
Qed.

Lemma referenced_intro (st : store) :
  Forall (fun e => has_transaction (transaction_id e) st = true
                   /\ has_account (account_id e) st = true)
    (ledger_entries st) ->
  Forall (fun t => reference_ok (source_account_id t) st = true
                   /\ reference_ok (destination_account_id t) st = true)
    (transactions st) ->
  referenced st = true.
Proof.
  intros He Ht. rewrite Forall_forall in He, Ht. unfold referenced.
  apply andb_true_iff; split; apply forallb_forall; intros x Hx;
    apply andb_true_iff; auto.
Qed.

(** Rows that are found stay found when rows are added. *)
Lemma has_account_grown (a : Z) (st st' : store) :
  grown st st' -> has_account a st = true -> has_account a st' = true.
Proof.
  intros ([l E] & _) H. unfold has_account in *.
  rewrite E, existsb_app, H. reflexivity.
Qed.

Lemma has_transaction_grown (t : Z) (st st' : store) :
  grown st st' -> has_transaction t st = true ->
  has_transaction t st' = true.
Proof.
  intros (_ & [l E] & _) H. unfold has_transaction in *.
  rewrite E, existsb_app, H. reflexivity.
Qed.

Lemma reference_ok_grown (r : option Z) (st st' : store) :
  grown st st' -> reference_ok r st = true -> reference_ok r st' = true.
Proof.
  destruct r as [a |]; [apply has_account_grown | reflexivity].
Qed.

Lemma grown_refl (st : store) : grown st st.
Proof. repeat split; exists []; now rewrite app_nil_r. Qed.

Lemma grown_trans (st1 st2 st3 : store) :
  grown st1 st2 -> grown st2 st3 -> grown st1 st3.
Proof.
  intros ([a1 A1] & [t1 T1] & [e1 E1]) ([a2 A2] & [t2 T2] & [e2 E2]).
  split; [| split].
  - exists (a1 ++ a2). now rewrite A2, A1, app_assoc.
  - exists (t1 ++ t2). now rewrite T2, T1, app_assoc.
  - exists (e1 ++ e2). now rewrite E2, E1, app_assoc.
Qed.

Lemma served_grown (r : request) (sq : sequences) (st : store)
  (resp : response) (st' : store) :
  served r sq st resp st' -> grown st st'.
Proof.
  intros [[_ ->] | [(_ & body & u & t & c & _ & _ & _ & _ & _ & ->)
                   | (_ & t & es & Hp & ->)]].
  - apply grown_refl.
  - split; [| split]; eexists; cbn;
      [reflexivity | now rewrite app_nil_r | now rewrite app_nil_r].
  - split; [| split]; eexists; cbn;
      [now rewrite app_nil_r | reflexivity | reflexivity].
Qed.

Lemma referenced_grown (st st' : store) :
  grown st st' -> referenced st = true ->
  Forall (fun e => has_transaction (transaction_id e) st' = true
                   /\ has_account (account_id e) st' = true)
    (ledger_entries st)
  /\ Forall (fun t => reference_ok (source_account_id t) st' = true
                      /\ reference_ok (destination_account_id t) st' = true)
       (transactions st).
Proof.
  intros Hg Hr. destruct (referenced_parts st Hr) as [He Ht].
  split; (eapply Forall_impl; [| eassumption]); cbn; intros x [A B];
    eauto using has_account_grown, has_transaction_grown,
      reference_ok_grown.
Qed.

Lemma has_transaction_last (acs : list account) (txs : list transaction)
  (es : list ledger_entry) (t : transaction) :
  has_transaction (tx_id t)
    {| accounts := acs; transactions := txs ++ [t];
       ledger_entries := es |} = true.
Proof.
  unfold has_transaction. cbn [transactions].
  rewrite existsb_app. cbn [existsb]. rewrite Z.eqb_refl.
  now rewrite orb_true_r.
Qed.

Lemma served_referenced (r : request) (sq : sequences) (st : store)
  (resp : response) (st' : store) :
  served r sq st resp st' -> referenced st = true ->
  referenced st' = true.
Proof.
  intros Hs Hr. pose proof (served_grown _ _ _ _ _ Hs) as Hg.
  destruct (referenced_grown st st' Hg Hr) as [He Ht].
  destruct Hs as [[_ ->] | [(_ & body & u & t & c & _ & _ & _ & _ & _ & ->)
                           | (_ & t & es & Hp & ->)]]; [exact Hr | |].
  - apply referenced_intro; assumption.
  - apply referenced_intro; cbn [ledger_entries transactions].
    + apply Forall_app; split; [exact He |].
      destruct Hp; repeat constructor;
        cbn [leg transaction_id account_id];
        first [ apply (has_transaction_last _ _ _
                         {| tx_id := transactions_id_seq sq + 1;
                            tx_type := _; tx_amount := _; tx_currency := _;
                            source_account_id := _;
                            destination_account_id := _;
                            tx_status := _; tx_description := _ |})
              | eapply has_account_grown; eassumption ].
    + apply Forall_app; split; [exact Ht |].
      destruct Hp; repeat constructor;
        cbn [source_account_id destination_account_id reference_ok];
        first [ reflexivity | eapply has_account_grown; eassumption ].
Qed.

Lemma served_singles (r : request) (sq : sequences) (st : store)
  (resp : response) (st' : store) :
  keyed (at_rest st sq) = true ->
  served r sq st resp st' -> singles_paired st -> singles_paired st'.
Proof.
  intros Hk [[_ ->] | [(_ & body & u & t & c & _ & _ & _ & _ & _ & ->)
                      | (_ & t & es & Hp & ->)]] Hs;
    [exact Hs | exact Hs |].
  destruct (keyed_parts st sq Hk) as (_ & _ & Kt & _).
  assert (Hid : tx_id t = transactions_id_seq sq + 1)
    by (destruct Hp; reflexivity).
  assert (Hes : Forall (fun e => transaction_id e = tx_id t) es)
    by (destruct Hp; repeat constructor).
  intros t' Hin Hty. cbn [transactions] in Hin.
  rewrite (entries_after_posting sq st t es) by assumption.
  apply in_app_or in Hin as [Hin | [<- | []]].
  - rewrite Forall_forall in Kt. specialize (Kt _ Hin).
    replace (tx_id t' =? tx_id t) with false
      by (symmetry; apply Z.eqb_neq; lia).
    now apply Hs.
  - rewrite Z.eqb_refl. destruct Hp; cbn [tx_type] in Hty.
    + eexists. split; [reflexivity |].
      split; [reflexivity |]. split; [reflexivity |].
      left. repeat split; reflexivity.
    + eexists. split; [reflexivity |].
      split; [reflexivity |]. split; [reflexivity |].
      right. repeat split; reflexivity.
    + destruct Hty; discriminate.
Qed.

End ForeignKeys.

(** * The ledger under requests served one after the other *)

Lemma app_longer {A : Type} (l : list A) (x : A) (l' : list A) :
  l ++ x :: l' <> l.
Proof.
  intros H. apply (f_equal (@List.length A)) in H.
  rewrite length_app in H. cbn in H. lia.
Qed.

(** X1.  Served one after the other, requests never overdraw an account:
    when no account of the store has a balance below zero, none has one
    after any sequence of requests. *)
Theorem serial_requests_never_overdraw (s : session) (rs : list request)
  (db0 : database) :
  idle db0 -> keyed db0 = true -> solvent (committed db0) ->
  solvent (committed (fst (serve s rs db0))).
Proof.
  intros Hi Hk Hs. apply serve_keeps; try assumption.
  intros r sq st resp st' _. apply served_solvent.
Qed.

Lemma serial_requests_never_overdraw_witness :
  idle empty_database /\ keyed empty_database = true
  /\ solvent (committed empty_database)
  /\ solvent (committed (fst (serve 0%nat busy_day empty_database))).
Proof.
  assert (H1 : idle empty_database) by reflexivity.
  assert (H2 : keyed empty_database = true) by reflexivity.
  assert (H3 : solvent (committed empty_database))
    by (intros a; cbn; lia).
  split; [exact H1 |]. split; [exact H2 |]. split; [exact H3 |].
  exact (serial_requests_never_overdraw 0%nat busy_day empty_database
           H1 H2 H3).
Defined.

(** X2.  The books balance after any sequence of requests: credits minus
    debits over the whole ledger is what the deposit transactions brought
    in less what the withdrawal transactions took out; transfers add
    nothing to it. *)
Theorem books_stay_balanced (s : session) (rs : list request)
  (db0 : database) :
  idle db0 -> keyed db0 = true -> books_balance (committed db0) ->
  books_balance (committed (fst (serve s rs db0))).
Proof.
  intros Hi Hk Hs. apply serve_keeps; try assumption.
  intros r sq st resp st' _. apply served_books.
Qed.

Lemma books_stay_balanced_witness :
  idle empty_database /\ keyed empty_database = true
  /\ books_balance (committed empty_database)
  /\ books_balance (committed (fst (serve 0%nat busy_day empty_database))).
Proof.
  assert (H1 : idle empty_database) by reflexivity.
  assert (H2 : keyed empty_database = true) by reflexivity.
  assert (H3 : books_balance (committed empty_database)) by reflexivity.
  split; [exact H1 |]. split; [exact H2 |]. split; [exact H3 |].
  exact (books_stay_balanced 0%nat busy_day empty_database H1 H2 H3).
Defined.

(** X3.  The foreign keys hold after any sequence of requests: every
    ledger entry belongs to a transaction and to an account of the store,
    and the source and destination a transaction names are accounts of
    the store. *)
Theorem foreign_keys_hold (s : session) (rs : list request)
  (db0 : database) :
  idle db0 -> keyed db0 = true -> referenced (committed db0) = true ->
  referenced (committed (fst (serve s rs db0))) = true.
Proof.
  intros Hi Hk Hs.
  apply (serve_keeps s (fun st => referenced st = true)); try assumption.
  intros r sq st resp st' _. apply served_referenced.
Qed.

Lemma foreign_keys_hold_witness :
  idle empty_database /\ keyed empty_database = true
  /\ referenced (committed empty_database) = true
  /\ referenced (committed (fst (serve 0%nat busy_day empty_database)))
     = true.
Proof.
  assert (H1 : idle empty_database) by reflexivity.
  assert (H2 : keyed empty_database = true) by reflexivity.
  assert (H3 : referenced (committed empty_database) = true)
    by reflexivity.
  split; [exact H1 |]. split; [exact H2 |]. split; [exact H3 |].
  exact (foreign_keys_hold 0%nat busy_day empty_database H1 H2 H3).
Defined.

(** X4.  After any sequence of requests every deposit transaction has
    exactly one entry, a credit of its amount on its destination account,
    and every withdrawal transaction exactly one, a debit of its amount
    on its source account. *)
Theorem deposits_and_withdrawals_have_one_leg (s : session)
  (rs : list request) (db0 : database) :
  idle db0 -> keyed db0 = true -> singles_paired (committed db0) ->
  let db := fst (serve s rs db0) in
  singles_paired (committed db)
  /\ (forall t, In t (transactions (committed db)) ->
        tx_type t = "deposit" \/ tx_type t = "withdrawal" ->
        List.length (entries_of_transaction (tx_id t) (committed db))
        = 1%nat).
Proof.
  intros Hi Hk Hs. cbv zeta.
  assert (H : singles_paired (committed (fst (serve s rs db0)))).
  { apply serve_keeps; try assumption.
    intros r sq st resp st'. apply served_singles. }
  split; [exact H |].
  intros t Hin Hty. destruct (H t Hin Hty) as (e & -> & _). reflexivity.
Qed.

Lemma deposits_and_withdrawals_have_one_leg_witness :
  idle empty_database /\ keyed empty_database = true
  /\ singles_paired (committed empty_database)
  /\ singles_paired (committed (fst (serve 0%nat busy_day empty_database))).
Proof.
  assert (H1 : idle empty_database) by reflexivity.
  assert (H2 : keyed empty_database = true) by reflexivity.
  assert (H3 : singles_paired (committed empty_database))
    by (intros t []).
  split; [exact H1 |]. split; [exact H2 |]. split; [exact H3 |].
  exact (proj1 (deposits_and_withdrawals_have_one_leg 0%nat busy_day
                  empty_database H1 H2 H3)).
Defined.

(** X5.  No route updates or deletes a committed row: after any sequence
    of requests the rows of [accounts], [transactions] and
    [ledger_entries] that were there are still there, unchanged and in
    their place, and the new ones come after them. *)
Theorem rows_are_only_added (s : session) (rs : list request)
  (db0 : database) :
  idle db0 -> keyed db0 = true ->
  grown (committed db0) (committed (fst (serve s rs db0))).
Proof.
  intros Hi Hk.
  apply (serve_keeps s (grown (committed db0)));
    [| assumption | assumption | apply grown_refl].
  intros r sq st resp st' _ Hs Hg.
  eapply grown_trans; [exact Hg | eapply served_grown; exact Hs].
Qed.

Lemma rows_are_only_added_witness :
  idle sample_database /\ keyed sample_database = true
  /\ grown (committed sample_database)
       (committed (fst (serve 0%nat busy_day sample_database))).
Proof.
  assert (H1 : idle sample_database) by reflexivity.
  assert (H2 : keyed sample_database = true) by (vm_compute; reflexivity).
  split; [exact H1 |]. split; [exact H2 |].
  exact (rows_are_only_added 0%nat busy_day sample_database H1 H2).
Defined.

(** X6.  The committed rows change exactly when the answer is 201: a
    request answered anything else (200, 400, 404, 422, 500) has left
    every relation as it was, and one answered 201 has added rows. *)
Theorem rows_change_only_with_201 (s : session) (r : request)
  (db : database) :
  idle db -> keyed db = true ->
  let '(db', tr, resp) := handle s r db in
  status resp = 201 <-> committed db' <> committed db.
Proof.
  intros Hi Hk. pose proof (handle_served s r db Hi Hk) as H.
  destruct (handle s r db) as [[db' tr] resp].
  destruct H as [[Hn ->] | [(Hy & body & u & t & c & _ & _ & _ & _ & _ & ->)
                           | (Hy & t & es & Hp & ->)]].
  - split; [intros E; contradiction | intros E; now elim E].
  - split; [intros _ | intros _; exact Hy].
    intros E. apply (f_equal accounts) in E. cbn in E.
    exact (app_longer _ _ _ E).
  - split; [intros _ | intros _; exact Hy].
    intros E. apply (f_equal transactions) in E. cbn in E.
    exact (app_longer _ _ _ E).
Qed.

Lemma rows_change_only_with_201_witness :
  idle sample_database /\ keyed sample_database = true
  /\ let '(db', tr, resp) :=
       handle 0%nat (PostWithdrawals (single_body 1 "150.00"))
         sample_database in
     status resp = 201 <-> committed db' <> committed sample_database.
Proof.
  assert (H1 : idle sample_database) by reflexivity.
  assert (H2 : keyed sample_database = true) by (vm_compute; reflexivity).
  split; [exact H1 |]. split; [exact H2 |].
  exact (rows_change_only_with_201 0%nat
           (PostWithdrawals (single_body 1 "150.00")) sample_database H1 H2).
Defined.

(** * Answers of the routes *)

(** X7.  [POST /accounts] with [userId], [type] or [currency] missing or
    falsy (empty text, 0, [null], [false]) is answered 400 "userId, type,
    and currency are required"; no statement is sent and the database is
    as before. *)
Theorem account_needs_all_fields (s : session) (body : object)
  (db : database) (f : string) :
  In f ["userId"; "type"; "currency"] ->
  truthy (get f body) = false ->
  handle s (PostAccounts body) db = (db, [], account_fields_required).
Proof.
  intros Hin Hf. unfold handle. cbn [route]. unfold post_accounts, caught.
  destruct Hin as [<- | [<- | [<- | []]]]; rewrite Hf;
    cbn [negb orb]; rewrite ?orb_true_r; reflexivity.
Qed.

Lemma account_needs_all_fields_witness :
  In "type" ["userId"; "type"; "currency"]
  /\ truthy (get "type" [("userId", Str "u1"); ("type", Str "");
                         ("currency", Str "INR")]) = false
  /\ handle 0%nat
       (PostAccounts [("userId", Str "u1"); ("type", Str "");
                      ("currency", Str "INR")]) sample_database
     = (sample_database, [], account_fields_required).
Proof.
  assert (H1 : In "type" ["userId"; "type"; "currency"])
    by (right; left; reflexivity).
  assert (H2 : truthy (get "type" [("userId", Str "u1"); ("type", Str "");
                                   ("currency", Str "INR")]) = false)
    by reflexivity.
  split; [exact H1 |]. split; [exact H2 |].
  exact (account_needs_all_fields 0%nat
           [("userId", Str "u1"); ("type", Str ""); ("currency", Str "INR")]
           sample_database "type" H1 H2).
Defined.

(** X8.  A deposit, withdrawal or transfer whose required fields are all
    present but whose account id or amount does not read as a number
    ([parseInt] or [parseFloat] gives [NaN]) is answered 400 "Invalid
    accountId or amount" ("Invalid account ids or amount" for a
    transfer); no statement is sent and the database is as before. *)
Theorem unreadable_numbers_are_invalid (s : session) (m : money_route)
  (body : object) (db : database) :
  (forall f, In f (required_fields m) -> truthy (get f body) = true) ->
  (exists f, In f (account_fields m)
             /\ is_nan (parseInt (get f body)) = true)
  \/ is_nan (parseFloat (get "amount" body)) = true ->
  handle s (money_request m body) db = (db, [], numbers_invalid m).
Proof.
  intros Hall Hnan. unfold handle.
  destruct m; cbn [money_request route required_fields account_fields app]
    in *;
    unfold post_deposits, post_withdrawals, post_transfers, guarded.
  - rewrite (Hall "accountId"), (Hall "amount"), (Hall "currency")
      by (cbn; tauto).
    cbn [negb orb].
    destruct Hnan as [(f & [<- | []] & H) | H]; rewrite H;
      rewrite ?orb_true_r; reflexivity.
  - rewrite (Hall "accountId"), (Hall "amount"), (Hall "currency")
      by (cbn; tauto).
    cbn [negb orb].
    destruct Hnan as [(f & [<- | []] & H) | H]; rewrite H;
      rewrite ?orb_true_r; reflexivity.
  - rewrite (Hall "sourceAccountId"), (Hall "destinationAccountId"),
      (Hall "amount"), (Hall "currency") by (cbn; tauto).
    cbn [negb orb].
    destruct Hnan as [(f & [<- | [<- | []]] & H) | H]; rewrite H;
      rewrite ?orb_true_r; reflexivity.
Qed.

Lemma unreadable_numbers_are_invalid_witness :
  (forall f, In f (required_fields Transfer) ->
     truthy (get f [("sourceAccountId", Str "1");
                    ("destinationAccountId", Str "two");
                    ("amount", Str "5.00"); ("currency", Str "INR")])
     = true)
  /\ handle 0%nat
       (money_request Transfer
          [("sourceAccountId", Str "1"); ("destinationAccountId", Str "two");
           ("amount", Str "5.00"); ("currency", Str "INR")])
       sample_database
     = (sample_database, [], numbers_invalid Transfer).
Proof.
  assert (H1 : forall f, In f (required_fields Transfer) ->
     truthy (get f [("sourceAccountId", Str "1");
                    ("destinationAccountId", Str "two");
                    ("amount", Str "5.00"); ("currency", Str "INR")])
     = true).
  { intros f [<- | [<- | [<- | [<- | []]]]]; reflexivity. }
  split; [exact H1 |].
  apply (unreadable_numbers_are_invalid 0%nat Transfer _ sample_database H1).
  left. exists "destinationAccountId".
  split; [right; left; reflexivity | reflexivity].
Defined.

Lemma texts_unstorable (body : object) :
  texts_storable body = false ->
  match text_not_null_of (get "currency" body),
        text_of (or_null (get "description" body)) with
  | Some _, Some _ => False
  | _, _ => True
  end.
Proof.
  unfold texts_storable.
  destruct (text_not_null_of (get "currency" body)),
    (text_of (or_null (get "description" body)));
    [discriminate | trivial | trivial | trivial].
Qed.

Ltac rolled_back :=
  split; [reflexivity |]; split; [reflexivity |]; split; [reflexivity |];
  split; [| reflexivity];
  match goal with
  | |- exists before, ?tr = _ => exists (removelast tr); reflexivity
  end.

(** X9.  A deposit, withdrawal or transfer that passed validation but
    that the store cannot take - an account id beyond the 32 bit
    integers, an amount beyond [numeric(14,2)], a text with a zero byte -
    fails at a statement and lands in the [catch] block: the route sends
    ROLLBACK as its last statement and answers 500 "Internal server
    error"; nothing is committed, the rows are as before and no
    transaction is left open.  In particular an account id such as
    99999999999 is answered 500, not 404. *)
Theorem unstorable_request_is_rolled_back (s : session) (m : money_route)
  (body : object) (db : database) :
  idle db -> keyed db = true ->
  valid_body m body = true ->
  unstorable m body (committed db) ->
  let '(db', tr, resp) := handle s (money_request m body) db in
  resp = server_error /\ committed db' = committed db /\ idle db'
  /\ (exists before, tr = before ++ [wire ROLLBACK])
  /\ existsb is_commit tr = false.
Proof.
  intros Hi Hk Hv Hu. rewrite (idle_at_rest db Hi) in *.
  set (st := committed db) in *. set (sq := seqs db) in *.
  clearbody st sq. clear Hi db.
  change (committed (at_rest st sq)) with st in *.
  unfold handle, unstorable, account_named in *.
  destruct m; cbn [valid_body accounts_found account_fields money_request
                     route] in *; unfold account_named in *.
  - rewrite run_post_deposits by assumption. cbv zeta.
    destruct Hu as [(f & [<- | []] & E) | (Hf & Hs)].
    + rewrite E. rolled_back.
    + destruct (int4_of (parseInt (get "accountId" body))) as [a |];
        [| discriminate].
      rewrite Hf. destruct Hs as [-> | Ht].
      * rolled_back.
      * apply texts_unstorable in Ht.
        destruct (amount_stored body),
          (text_not_null_of (get "currency" body)),
          (text_of (or_null (get "description" body)));
          try contradiction; rolled_back.
  - rewrite run_post_withdrawals by assumption. cbv zeta.
    destruct Hu as [(f & [<- | []] & E) | (Hf & Hs)].
    + rewrite E. rolled_back.
    + destruct (int4_of (parseInt (get "accountId" body))) as [a |];
        [| discriminate].
      rewrite Hf. destruct Hs as [-> | Ht].
      * rolled_back.
      * apply texts_unstorable in Ht.
        destruct (amount_stored body),
          (text_not_null_of (get "currency" body)),
          (text_of (or_null (get "description" body)));
          try contradiction; rolled_back.
  - rewrite run_post_transfers by assumption. cbv zeta.
    destruct Hu as [(f & [<- | [<- | []]] & E) | (Hf & Hs)].
    + rewrite E. rolled_back.
    + rewrite E.
      destruct (int4_of (parseInt (get "sourceAccountId" body)));
        rolled_back.
    + destruct (int4_of (parseInt (get "sourceAccountId" body))) as [a |];
        [| discriminate].
      destruct (int4_of (parseInt (get "destinationAccountId" body)))
        as [b |]; [| discriminate].
      rewrite Hf. destruct Hs as [-> | Ht].
      * rolled_back.
      * apply texts_unstorable in Ht.
        destruct (amount_stored body),
          (text_not_null_of (get "currency" body)),
          (text_of (or_null (get "description" body)));
          try contradiction; rolled_back.
Qed.

Lemma unstorable_request_is_rolled_back_witness :
  idle sample_database /\ keyed sample_database = true
  /\ valid_body Deposit far_account = true
  /\ unstorable Deposit far_account (committed sample_database)
  /\ valid_body Withdrawal huge_amount = true
  /\ unstorable Withdrawal huge_amount (committed sample_database)
  /\ snd (handle 0%nat (money_request Deposit far_account) sample_database)
     = server_error
  /\ snd (handle 0%nat (money_request Withdrawal huge_amount)
            sample_database)
     = server_error.
Proof.
  assert (H1 : idle sample_database) by reflexivity.
  assert (H2 : keyed sample_database = true) by (vm_compute; reflexivity).
  assert (H3 : valid_body Deposit far_account = true)
    by (vm_compute; reflexivity).
  assert (H4 : unstorable Deposit far_account (committed sample_database)).
  { left. exists "accountId". split; [left; reflexivity |].
    vm_compute; reflexivity. }
  assert (H5 : valid_body Withdrawal huge_amount = true)
    by (vm_compute; reflexivity).
  assert (H6 : unstorable Withdrawal huge_amount
                 (committed sample_database)).
  { right. split; [vm_compute; reflexivity |].
    left. vm_compute; reflexivity. }
  split; [exact H1 |]. split; [exact H2 |]. split; [exact H3 |].
  split; [exact H4 |]. split; [exact H5 |]. split; [exact H6 |].
  pose proof (unstorable_request_is_rolled_back 0%nat Deposit far_account
                sample_database H1 H2 H3 H4) as A.
  pose proof (unstorable_request_is_rolled_back 0%nat Withdrawal
                huge_amount sample_database H1 H2 H5 H6) as B.
  destruct (handle 0%nat (money_request Deposit far_account)
              sample_database) as [[d1 t1] r1].
  destruct (handle 0%nat (money_request Withdrawal huge_amount)
              sample_database) as [[d2 t2] r2].
  split; [exact (proj1 A) | exact (proj1 B)].
Defined.

(** X10.  Each route answers with the status codes of its own branches
    and no other: [POST /accounts] with 201, 400 or 500; a deposit with
    201, 400, 404 or 500 - never 422, whatever the balance; a withdrawal
    or transfer with 201, 400, 404, 422 or 500; [GET /accounts/:id] with
    200, 400, 404 or 500. *)
Theorem answers_of_each_route (s : session) (r : request) (db : database) :
  idle db -> keyed db = true ->
  In (status (snd (handle s r db))) (statuses_of r).
Proof.
  intros Hi Hk. rewrite (idle_at_rest db Hi) in *.
  set (st := committed db) in *. set (sq := seqs db) in *.
  clearbody st sq. clear Hi db.
  unfold handle.
  destruct r as [body | body | body | body | id];
    cbn [route statuses_of].
  - rewrite run_post_accounts by assumption. cbv zeta.
    destruct (negb (truthy (get "userId" body)) || _ || _);
      [cbn; tauto |].
    destruct (text_not_null_of (get "userId" body)),
      (text_not_null_of (get "type" body)),
      (text_not_null_of (get "currency" body)); cbn; tauto.
  - destruct (valid_transfer body) eqn:Hv.
    2:{ destruct (valid_body_false s Transfer body (at_rest st sq) Hv)
          as [text E].
        cbn [money_request route] in E. rewrite E. cbn; tauto. }
    rewrite run_post_transfers by assumption. cbv zeta.
    destruct (int4_of (parseInt (get "sourceAccountId" body))) as [a |];
      [| cbn; tauto].
    destruct (int4_of (parseInt (get "destinationAccountId" body)))
      as [b |]; [| cbn; tauto].
    destruct (has_account a st && has_account b st && negb (a =? b));
      [| cbn; tauto].
    destruct (amount_stored body) as [c |]; [| cbn; tauto].
    destruct (text_not_null_of (get "currency" body)); [| cbn; tauto].
    destruct (text_of (or_null (get "description" body))); [| cbn; tauto].
    destruct (sum_entries a st - c <? 0); cbn; tauto.
  - destruct (valid_single body) eqn:Hv.
    2:{ destruct (valid_body_false s Deposit body (at_rest st sq) Hv)
          as [text E].
        cbn [money_request route] in E. rewrite E. cbn; tauto. }
    rewrite run_post_deposits by assumption. cbv zeta.
    destruct (int4_of (parseInt (get "accountId" body))) as [a |];
      [| cbn; tauto].
    destruct (has_account a st); [| cbn; tauto].
    destruct (amount_stored body) as [c |]; [| cbn; tauto].
    destruct (text_not_null_of (get "currency" body)); [| cbn; tauto].
    destruct (text_of (or_null (get "description" body))); cbn; tauto.
  - destruct (valid_single body) eqn:Hv.
    2:{ destruct (valid_body_false s Withdrawal body (at_rest st sq) Hv)
          as [text E].
        cbn [money_request route] in E. rewrite E. cbn; tauto. }
    rewrite run_post_withdrawals by assumption. cbv zeta.
    destruct (int4_of (parseInt (get "accountId" body))) as [a |];
      [| cbn; tauto].
    destruct (has_account a st); [| cbn; tauto].
    destruct (amount_stored body) as [c |]; [| cbn; tauto].
    destruct (text_not_null_of (get "currency" body)); [| cbn; tauto].
    destruct (text_of (or_null (get "description" body))); [| cbn; tauto].
    destruct (sum_entries a st - c <? 0); cbn; tauto.
  - rewrite run_get_account. cbv zeta.
    destruct (is_nan (parseInt (Str id))); [cbn; tauto |].
    destruct (int4_of (parseInt (Str id))) as [a |]; [| cbn; tauto].
    destruct (filter (fun r => acc_id r =? a) (accounts st)); cbn; tauto.
Qed.

Lemma answers_of_each_route_witness :
  idle sample_database /\ keyed sample_database = true
  /\ In (status (snd (handle 0%nat (PostDeposits (single_body 7 "5.00"))
                        sample_database)))
       (statuses_of (PostDeposits (single_body 7 "5.00"))).
Proof.
  assert (H1 : idle sample_database) by reflexivity.
  assert (H2 : keyed sample_database = true) by (vm_compute; reflexivity).
  split; [exact H1 |]. split; [exact H2 |].
  exact (answers_of_each_route 0%nat (PostDeposits (single_body 7 "5.00"))
           sample_database H1 H2).
Defined.

(** X11.  [GET /accounts/:id] only reads: whatever the id, the database
    is left as it was.  An id that does not start with a number is
    answered 400 "Invalid account id" without a statement; a number
    beyond the 32 bit integers is answered 500; the id of no account of
    the store is answered 404 "Account not found" after the one query
    for the account. *)
Theorem get_account_only_reads (s : session) (id : string) (db : database) :
  idle db ->
  let '(db', tr, resp) := handle s (GetAccount id) db in
  db' = db
  /\ (is_nan (parseInt (Str id)) = true ->
      tr = [] /\ resp = message 400 "Invalid account id")
  /\ (is_nan (parseInt (Str id)) = false ->
      int4_of (parseInt (Str id)) = None -> resp = server_error)
  /\ (forall a, int4_of (parseInt (Str id)) = Some a ->
        has_account a (committed db) = false ->
        tr = [wire (SelectAccount (parseInt (Str id)))]
        /\ resp = message 404 "Account not found").
Proof.
  intros Hi. rewrite (idle_at_rest db Hi) in *.
  set (st := committed db) in *. set (sq := seqs db) in *.
  clearbody st sq. clear Hi db.
  change (committed (at_rest st sq)) with st in *.
  unfold handle. cbn [route]. rewrite run_get_account. cbv zeta.
  destruct (is_nan (parseInt (Str id))) eqn:En.
  - split; [reflexivity |]. split; [intros _; split; reflexivity |].
    split; [discriminate |].
    intros a Ha. destruct (parseInt (Str id)); discriminate.
  - destruct (int4_of (parseInt (Str id))) as [a |] eqn:Ea.
    + destruct (filter (fun r => acc_id r =? a) (accounts st)) eqn:Ef.
      * split; [reflexivity |]. split; [discriminate |].
        split; [discriminate |]. intros a' _ _. split; reflexivity.
      * split; [reflexivity |]. split; [discriminate |].
        split; [discriminate |]. intros a' [= <-] Hh.
        unfold has_account in Hh.
        rewrite (existsb_false_filter _ _ Hh) in Ef. discriminate.
    + split; [reflexivity |]. split; [discriminate |].
      split; [reflexivity | discriminate].
Qed.

Lemma get_account_only_reads_witness :
  idle sample_database
  /\ handle 0%nat (GetAccount "abc") sample_database
     = (sample_database, [], message 400 "Invalid account id")
  /\ snd (handle 0%nat (GetAccount "7") sample_database)
     = message 404 "Account not found"
  /\ snd (handle 0%nat (GetAccount "99999999999") sample_database)
     = server_error.
Proof.
  assert (H1 : idle sample_database) by reflexivity.
  assert (E1 : is_nan (parseInt (Str "abc")) = true) by reflexivity.
  assert (E2 : int4_of (parseInt (Str "7")) = Some 7)
    by (vm_compute; reflexivity).
  assert (E3 : has_account 7 (committed sample_database) = false)
    by (vm_compute; reflexivity).
  assert (E4 : is_nan (parseInt (Str "99999999999")) = false)
    by (vm_compute; reflexivity).
  assert (E5 : int4_of (parseInt (Str "99999999999")) = None)
    by (vm_compute; reflexivity).
  split; [exact H1 |].
  pose proof (get_account_only_reads 0%nat "abc" sample_database H1) as A.
  pose proof (get_account_only_reads 0%nat "7" sample_database H1) as B.
  pose proof (get_account_only_reads 0%nat "99999999999" sample_database H1)
    as C.
  destruct (handle 0%nat (GetAccount "abc") sample_database)
    as [[d1 t1] r1].
  destruct (handle 0%nat (GetAccount "7") sample_database) as [[d2 t2] r2].
  destruct (handle 0%nat (GetAccount "99999999999") sample_database)
    as [[d3 t3] r3].
  destruct A as (A1 & A2 & _). destruct B as (_ & _ & _ & B4).
  destruct C as (_ & _ & C3 & _).
  cbn [snd]. split; [| split].
  - destruct (A2 E1) as [-> ->]. rewrite A1. reflexivity.
  - exact (proj2 (B4 7 E2 E3)).
  - exact (C3 E4 E5).
Defined.

Lemma posting_of_served (r : request) (sq : sequences) (st : store)
  (resp : response) (st' : store) :
  served r sq st resp st' -> status resp = 201 ->
  (forall body, r <> PostAccounts body) ->
  exists t es,
    posting sq st r t es
    /\ st' = {| accounts := accounts st;
                transactions := transactions st ++ [t];
                ledger_entries := ledger_entries st ++ es |}.
Proof.
  intros [[Hn _] | [(_ & body & u & t & c & E & _) | (_ & t & es & H)]]
    Hy Hr.
  - contradiction.
  - elim (Hr body E).
  - exists t, es. exact H.
Qed.

(** X12.  A transfer answered 201 has moved the amount as stored, and
    nothing else: the balance of the source account is lower by it, the
    balance of the destination account higher by it, the balance of
    every other account as before, and credits minus debits over the
    whole ledger unchanged. *)
Theorem transfer_moves_the_amount (s : session) (body : object)
  (db : database) :
  idle db -> keyed db = true ->
  let '(db', tr, resp) := handle s (PostTransfers body) db in
  status resp = 201 ->
  exists a b c,
    account_named "sourceAccountId" body = Some a
    /\ account_named "destinationAccountId" body = Some b
    /\ amount_stored body = Some c /\ a <> b /\ 0 <= c
    /\ sum_entries a (committed db') = sum_entries a (committed db) - c
    /\ sum_entries b (committed db') = sum_entries b (committed db) + c
    /\ (forall x, x <> a -> x <> b ->
          sum_entries x (committed db') = sum_entries x (committed db))
    /\ ledger_total (committed db') = ledger_total (committed db).
Proof.
  intros Hi Hk.
  pose proof (handle_served s (PostTransfers body) db Hi Hk) as H.
  destruct (handle s (PostTransfers body) db) as [[db' tr] resp].
  intros Hy.
  destruct (posting_of_served _ _ _ _ _ H Hy) as (t & es & Hp & ->).
  { discriminate. }
  inversion Hp; subst. exists a, b, c.
  split; [assumption |]. split; [assumption |]. split; [assumption |].
  split; [assumption |]. split; [assumption |].
  split; [| split; [| split]].
  - rewrite sum_entries_legs, signed_debit, signed_credit, Z.eqb_refl.
    replace (b =? a) with false by (symmetry; apply Z.eqb_neq; congruence).
    lia.
  - rewrite sum_entries_legs, signed_debit, signed_credit, Z.eqb_refl.
    replace (a =? b) with false by (symmetry; apply Z.eqb_neq; congruence).
    lia.
  - intros x Hxa Hxb.
    rewrite sum_entries_legs.
    replace (a =? x) with false by (symmetry; apply Z.eqb_neq; congruence).
    replace (b =? x) with false by (symmetry; apply Z.eqb_neq; congruence).
    lia.
  - unfold ledger_total, total. cbn [ledger_entries].
    rewrite map_app, total_app. cbn. lia.
Qed.

Lemma transfer_moves_the_amount_witness :
  idle sample_database /\ keyed sample_database = true
  /\ status (snd (handle 0%nat (PostTransfers (transfer_body 1 2 "40.00"))
                    sample_database)) = 201
  /\ exists a b c,
       account_named "sourceAccountId" (transfer_body 1 2 "40.00") = Some a
       /\ account_named "destinationAccountId" (transfer_body 1 2 "40.00")
          = Some b
       /\ amount_stored (transfer_body 1 2 "40.00") = Some c.
Proof.
  assert (H1 : idle sample_database) by reflexivity.
  assert (H2 : keyed sample_database = true) by (vm_compute; reflexivity).
  assert (H3 : status (snd (handle 0%nat
                    (PostTransfers (transfer_body 1 2 "40.00"))
                    sample_database)) = 201) by (vm_compute; reflexivity).
  split; [exact H1 |]. split; [exact H2 |]. split; [exact H3 |].
  pose proof (transfer_moves_the_amount 0%nat (transfer_body 1 2 "40.00")
                sample_database H1 H2) as A.
  destruct (handle 0%nat (PostTransfers (transfer_body 1 2 "40.00"))
              sample_database) as [[d1 t1] r1].
  cbn [snd] in *.
  destruct (A H3) as (a & b & c & Ea & Eb & Ec & _).
  exists a, b, c. split; [exact Ea |]. split; [exact Eb | exact Ec].
Defined.

(** * Account ids and amounts as text *)

Section Texts.

Lemma round_pos_exponent (neg neg' : bool) (num den mp : positive) (e : Z) :
  round_pos neg num den = S754_finite neg' mp e ->
  e <= Z.max (Z.log2 (Zpos num) - Z.log2 (Zpos den) - 52) (-1074) + 1.
Proof.
  intros H. unfold round_pos in H.
  set (n := Zpos num) in *. set (d := Zpos den) in *.
  destruct (n * 2 ^ 1075 <=? d); [discriminate |].
  cbv zeta in H.
  set (l := Z.log2 n - Z.log2 d) in *.
  set (f := if (if 0 <=? l then d * 2 ^ l <=? n else d <=? n * 2 ^ (- l))
            then l else l - 1) in *.
  assert (Hfl : f <= l) by (subst f; destruct (if 0 <=? l then _ else _); lia).
  set (e0 := Z.max (f - 52) (-1074)) in *.
  set (sn := if e0 <? 0 then n * 2 ^ (- e0) else n) in *.
  set (sd := if e0 <? 0 then d else d * 2 ^ e0) in *.
  set (q := sn / sd) in *. set (r := sn mod sd) in *.
  set (m1 := if match 2 * r ?= sd with
                | Eq => Z.odd q
                | Lt => false
                | Gt => true
                end then q + 1 else q) in *.
  destruct (m1 =? 2 ^ 53).
  - destruct (971 <? e0 + 1); [discriminate |].
    injection H as _ _ Hexp. subst e e0. lia.
  - destruct (971 <? e0); [discriminate |].
    injection H as _ _ Hexp. subst e e0. lia.
Qed.

(** A whole number of at most 31 bits is a number exactly. *)
Lemma of_decimal_whole (neg : bool) (p : positive) :
  Zpos p < 2 ^ 31 ->
  exists mp e,
    of_decimal neg (Zpos p) 0 = S754_finite neg mp e
    /\ e < 0 /\ Zpos mp = Zpos p * 2 ^ (- e).
Proof.
  intros Hp.
  assert (Hlog : Z.log2 (Z.pos p) < 31)
    by (apply Z.log2_lt_pow2; lia).
  pose proof (Z.log2_nonneg (Z.pos p)) as Hnn.
  assert (E : of_decimal neg (Z.pos p) 0 = round_pos neg p 1).
  { unfold of_decimal. change (400 <? 0) with false. cbv iota.
    replace (0 + Z.log2 (Z.pos p) + 1 <? -400) with false
      by (symmetry; apply Z.ltb_ge; lia).
    change (0 <=? 0) with true. cbv iota.
    change (Z.to_pos (10 ^ 0)) with 1%positive.
    rewrite Pos.mul_1_r. reflexivity. }
  rewrite E.
  assert (Hu : Z.pos 1 < Z.pos p * 2 ^ 1075).
  { assert (1 < 2 ^ 1075) by (apply Z.ltb_lt; vm_compute; reflexivity).
    nia. }
  destruct (round_pos_finite neg p 1 Hu) as (mp & e & R).
  { change (Z.log2 1) with 0. lia. }
  exists mp, e. split; [exact R |].
  pose proof (round_pos_exponent _ _ _ _ _ _ R) as He.
  change (Z.log2 1) with 0 in He.
  assert (He' : e < 0) by lia.
  split; [exact He' |].
  destruct (round_pos_near _ _ _ _ _ _ R He') as [N _]. lia.
Qed.

(** Bound to an [integer] parameter, a whole number of at most 31 bits
    is itself. *)
Lemma int4_of_whole (n : Z) :
  0 <= n < 2 ^ 31 -> int4_of (of_decimal false n 0) = Some n.
Proof.
  intros Hn. destruct n as [| p | p]; [reflexivity | | lia].
  destruct (of_decimal_whole false p) as (mp & e & -> & He & Hm); [lia |].
  unfold int4_of, fraction_of.
  replace (0 <=? e) with false by (symmetry; apply Z.leb_gt; lia).
  assert (HU : 0 < 2 ^ (- e)) by (apply Z.pow_pos_nonneg; lia).
  rewrite Hm, Z.mod_mul, Z.div_mul by lia.
  rewrite Z.eqb_refl.
  replace (- 2 ^ 31 <=? Z.pos p) with true by (symmetry; apply Z.leb_le; lia).
  replace (Z.pos p <? 2 ^ 31) with true by (symmetry; apply Z.ltb_lt; lia).
  reflexivity.
Qed.

Lemma scan_digits_stop (rest : string) (v k : Z) :
  ends_number rest = true -> scan_digits rest v k = (v, k, rest).
Proof.
  destruct rest as [| c r]; [reflexivity |].
  cbn [ends_number scan_digits]. intros H.
  apply negb_true_iff in H. now rewrite H.
Qed.

(** [parseInt] reads the digits a text starts with and leaves the rest
    unread. *)
Lemma parseInt_digits (n : Z) (rest : string) :
  0 <= n -> ends_number rest = true ->
  parseInt_string (digits n ++ rest) = of_decimal false n 0.
Proof.
  intros Hn Hr.
  destruct (digits_head n rest) as (h & r & Hhead & Hdig).
  destruct (digit_head h r Hdig) as (Hsp & Hsign & _).
  destruct (scan_digits_digits n rest Hn) as (len & Hlen & Hscan).
  unfold parseInt_string.
  assert (Hrs : read_sign (trim_start (digits n ++ rest))
                = (false, (digits n ++ rest)%string)).
  { rewrite Hhead. cbn [trim_start]. rewrite Hsp. exact Hsign. }
  rewrite Hrs, Hscan, scan_digits_stop by exact Hr.
  replace (0 + len =? 0) with false by (symmetry; apply Z.eqb_neq; lia).
  reflexivity.
Qed.

Lemma append_empty (a : string) : (a ++ "")%string = a.
Proof.
  induction a as [| x a IH]; cbn [append]; [reflexivity | now rewrite IH].
Qed.

Lemma parseInt_whole (n : Z) :
  0 <= n < 2 ^ 31 ->
  is_nan (parseInt (Str (digits n))) = false
  /\ int4_of (parseInt (Str (digits n))) = Some n.
Proof.
  intros Hn. unfold parseInt. cbn [ToString].
  rewrite <- (append_empty (digits n)).
  rewrite parseInt_digits by (reflexivity || lia).
  split; [| apply int4_of_whole, Hn].
  destruct n as [| p | p]; [reflexivity | | lia].
  destruct (of_decimal_whole false p) as (mp & e & -> & _); [lia |].
  reflexivity.
Qed.

(** An amount written with two fractional digits is printed back by
    [toFixed(2)] as it was written. *)
Lemma two_decimals_printed (c : cents) :
  0 < c < 10 ^ 14 ->
  to_fixed2 (parseFloat (Str (numeric_out c))) = numeric_out c.
Proof.
  intros Hc. unfold parseFloat. cbn [ToString].
  rewrite parseFloat_numeric_out.
  replace (c <? 0) with false by (symmetry; apply Z.ltb_ge; lia).
  rewrite Z.abs_eq by lia. apply to_fixed2_hundredths, Hc.
Qed.

End Texts.

(** * Requests and their answers, field by field *)

Section Payloads.

Variable s : session.

(** The amount in the payload of a money route answered 201 is
    [toFixed(2)] of the amount read from the request. *)
Lemma amount_of_201 (m : money_route) (body : object) (db : database) :
  idle db -> keyed db = true ->
  let '(db', tr, resp) := handle s (money_request m body) db in
  status resp = 201 ->
  get "amount" (json resp)
  = Str (to_fixed2 (parseFloat (get "amount" body)))
  /\ exists c, amount_stored body = Some c.
Proof.
  intros Hi Hk. rewrite (idle_at_rest db Hi) in *.
  set (st := committed db) in *. set (sq := seqs db) in *.
  clearbody st sq. clear Hi db.
  unfold handle.
  destruct (valid_body m body) eqn:Hv.
  2:{ destruct (valid_body_false s m body (at_rest st sq) Hv) as [text E].
      rewrite E. cbn. discriminate. }
  destruct m; cbn [valid_body money_request route] in *.
  - rewrite run_post_deposits by assumption. cbv zeta.
    destruct (int4_of (parseInt (get "accountId" body))) as [a |];
      [| cbn; discriminate].
    destruct (has_account a st); [| cbn; discriminate].
    destruct (amount_stored body) as [c |]; [| cbn; discriminate].
    destruct (text_not_null_of (get "currency" body));
      [| cbn; discriminate].
    destruct (text_of (or_null (get "description" body)));
      [| cbn; discriminate].
    intros _. split; [reflexivity | now exists c].
  - rewrite run_post_withdrawals by assumption. cbv zeta.
    destruct (int4_of (parseInt (get "accountId" body))) as [a |];
      [| cbn; discriminate].
    destruct (has_account a st); [| cbn; discriminate].
    destruct (amount_stored body) as [c |]; [| cbn; discriminate].
    destruct (text_not_null_of (get "currency" body));
      [| cbn; discriminate].
    destruct (text_of (or_null (get "description" body)));
      [| cbn; discriminate].
    destruct (sum_entries a st - c <? 0); [cbn; discriminate |].
    intros _. split; [reflexivity | now exists c].
  - rewrite run_post_transfers by assumption. cbv zeta.
    destruct (int4_of (parseInt (get "sourceAccountId" body))) as [a |];
      [| cbn; discriminate].
    destruct (int4_of (parseInt (get "destinationAccountId" body)))
      as [b |]; [| cbn; discriminate].
    destruct (has_account a st && has_account b st && negb (a =? b));
      [| cbn; discriminate].
    destruct (amount_stored body) as [c |]; [| cbn; discriminate].
    destruct (text_not_null_of (get "currency" body));
      [| cbn; discriminate].
    destruct (text_of (or_null (get "description" body)));
      [| cbn; discriminate].
    destruct (sum_entries a st - c <? 0); [cbn; discriminate |].
    intros _. split; [reflexivity | now exists c].
Qed.

(** In a store whose foreign keys hold no entry is on an account id the
    sequence has not handed out yet. *)
Lemma no_entries_ahead (st : store) (sq : sequences) (a : Z) :
  keyed (at_rest st sq) = true -> referenced st = true ->
  accounts_id_seq sq < a -> entries_of a st = [].
Proof.
  intros Hk Hr Ha.
  destruct (keyed_parts st sq Hk) as (_ & Ka & _ & _).
  destruct (referenced_parts st Hr) as [He _].
  unfold entries_of. apply filter_none.
  eapply Forall_impl; [| exact He]. cbn. intros e [_ Hacc].
  destruct (Z.eqb_spec (account_id e) a) as [E | E]; [| reflexivity].
  unfold has_account in Hacc.
  rewrite (absent_above acc_id (accounts_id_seq sq) _ _ Ka) in Hacc
    by lia.
  discriminate.
Qed.

End Payloads.

(** X13.  The amount of a deposit, withdrawal or transfer written with
    two fractional digits, from 0.01 to 999999999999.99, comes back in
    the 201 payload as it was written, and it is the amount the store
    keeps: [toFixed(2)] and the [numeric(14,2)] column agree on it. *)
Theorem two_decimals_are_echoed (s : session) (m : money_route)
  (body : object) (db : database) (c : cents) :
  idle db -> keyed db = true ->
  get "amount" body = Str (numeric_out c) -> 0 < c < 10 ^ 14 ->
  amount_stored body = Some c
  /\ let '(db', tr, resp) := handle s (money_request m body) db in
     status resp = 201 ->
     get "amount" (json resp) = Str (numeric_out c).
Proof.
  intros Hi Hk Hb Hc. split.
  - unfold amount_stored. rewrite Hb. apply two_decimals_kept, Hc.
  - pose proof (amount_of_201 s m body db Hi Hk) as H.
    destruct (handle s (money_request m body) db) as [[db' tr] resp].
    intros Hy. destruct (H Hy) as [-> _].
    rewrite Hb, two_decimals_printed by exact Hc. reflexivity.
Qed.

Lemma two_decimals_are_echoed_witness :
  idle sample_database /\ keyed sample_database = true
  /\ get "amount" (single_body 1 "12.34") = Str (numeric_out 1234)
  /\ 0 < 1234 < 10 ^ 14
  /\ amount_stored (single_body 1 "12.34") = Some 1234
  /\ get "amount"
       (json (snd (handle 0%nat
                     (money_request Withdrawal (single_body 1 "12.34"))
                     sample_database)))
     = Str "12.34".
Proof.
  assert (H1 : idle sample_database) by reflexivity.
  assert (H2 : keyed sample_database = true) by (vm_compute; reflexivity).
  assert (H3 : get "amount" (single_body 1 "12.34")
               = Str (numeric_out 1234)) by reflexivity.
  assert (H4 : 0 < 1234 < 10 ^ 14) by (split; reflexivity).
  assert (H5 : status (snd (handle 0%nat
                     (money_request Withdrawal (single_body 1 "12.34"))
                     sample_database)) = 201) by (vm_compute; reflexivity).
  split; [exact H1 |]. split; [exact H2 |]. split; [exact H3 |].
  split; [exact H4 |].
  destruct (two_decimals_are_echoed 0%nat Withdrawal
              (single_body 1 "12.34") sample_database 1234 H1 H2 H3 H4)
    as [A B].
  split; [exact A |].
  destruct (handle 0%nat (money_request Withdrawal (single_body 1 "12.34"))
              sample_database) as [[d1 t1] r1].
  cbn [snd] in *. exact (B H5).
Defined.

(** X14.  An account id is read by the digits it starts with; what
    follows them is ignored.  A request field holding such a text names
    that account, and [GET /accounts/12abc] is served as
    [GET /accounts/12] is. *)
Theorem id_is_read_by_its_digits (n : Z) (rest : string) :
  0 <= n < 2 ^ 31 -> ends_number rest = true ->
  (forall (f : string) (body : object),
     get f body = Str (digits n ++ rest) -> account_named f body = Some n)
  /\ get_account (digits n ++ rest) = get_account (digits n).
Proof.
  intros Hn Hr.
  assert (E : parseInt (Str (digits n ++ rest)) = of_decimal false n 0).
  { unfold parseInt. cbn [ToString]. apply parseInt_digits; [lia | exact Hr]. }
  assert (E0 : parseInt (Str (digits n)) = of_decimal false n 0).
  { unfold parseInt. cbn [ToString]. rewrite <- (append_empty (digits n)).
    apply parseInt_digits; [lia | reflexivity]. }
  split.
  - intros f body Hf. unfold account_named. rewrite Hf, E.
    apply int4_of_whole, Hn.
  - unfold get_account. rewrite E, E0. reflexivity.
Qed.

Lemma id_is_read_by_its_digits_witness :
  0 <= 12 < 2 ^ 31 /\ ends_number "abc" = true
  /\ account_named "accountId" [("accountId", Str "12abc")] = Some 12
  /\ get_account "12abc" = get_account "12".
Proof.
  assert (H1 : 0 <= 12 < 2 ^ 31) by (split; [lia | reflexivity]).
  assert (H2 : ends_number "abc" = true) by reflexivity.
  split; [exact H1 |]. split; [exact H2 |].
  destruct (id_is_read_by_its_digits 12 "abc" H1 H2) as [A B].
  split; [| exact B].
  apply (A "accountId" [("accountId", Str "12abc")]). reflexivity.
Defined.

(** X15.  An account opened by [POST /accounts] is found by
    [GET /accounts/:id] under the id of the 201 payload: the answer is
    200 with the fields of that payload - the texts given, status
    "active" - and the balance "0"; the account is the last row of
    [accounts] and the read changes nothing. *)
Theorem opened_account_is_found (s : session) (body : object)
  (db : database) (row : account) :
  idle db -> keyed db = true -> referenced (committed db) = true ->
  0 <= accounts_id_seq (seqs db) < 2 ^ 31 - 1 ->
  account_fields_present body = true ->
  account_row (accounts_id_seq (seqs db) + 1) body = Some row ->
  let '(db1, tr1, resp1) := handle s (PostAccounts body) db in
  let '(db2, tr2, resp2) := handle s (GetAccount (digits (acc_id row))) db1 in
  resp1 = {| status := 201; json := account_json row |}
  /\ accounts (committed db1) = accounts (committed db) ++ [row]
  /\ resp2 = {| status := 200;
                json := account_json row ++ [("balance", Str "0")] |}
  /\ db2 = db1.
Proof.
  intros Hi Hk Hr Hseq Hp Hrow. rewrite (idle_at_rest db Hi) in *.
  set (st := committed db) in *. set (sq := seqs db) in *.
  clearbody st sq. clear Hi db.
  change (committed (at_rest st sq)) with st in *.
  change (seqs (at_rest st sq)) with sq in *.
  unfold handle. cbn [route]. rewrite run_post_accounts by assumption.
  cbv zeta. unfold account_fields_present in Hp.
  apply andb_true_iff in Hp as [Hp T3]. apply andb_true_iff in Hp as [T1 T2].
  rewrite T1, T2, T3. cbn [negb orb].
  unfold account_row in Hrow.
  destruct (text_not_null_of (get "userId" body)) as [u |];
    [| discriminate].
  destruct (text_not_null_of (get "type" body)) as [t |]; [| discriminate].
  destruct (text_not_null_of (get "currency" body)) as [c |];
    [| discriminate].
  injection Hrow as <-. cbn [acc_id].
  rewrite run_get_account. cbv zeta.
  destruct (parseInt_whole (accounts_id_seq sq + 1)) as [En Ei]; [lia |].
  rewrite En, Ei.
  destruct (keyed_parts st sq Hk) as (_ & Ka & _ & _).
  cbn [apply_write accounts]. rewrite filter_app.
  rewrite (existsb_false_filter _ (accounts st))
    by (apply (absent_above acc_id (accounts_id_seq sq) _ _ Ka); lia).
  cbn [filter app acc_id]. rewrite Z.eqb_refl.
  unfold balance_text, entries_of. cbn [ledger_entries].
  fold (entries_of (accounts_id_seq sq + 1) st).
  rewrite (no_entries_ahead st sq) by (assumption || lia).
  repeat split; reflexivity.
Qed.

Lemma opened_account_is_found_witness :
  idle sample_database /\ keyed sample_database = true
  /\ referenced (committed sample_database) = true
  /\ 0 <= accounts_id_seq (seqs sample_database) < 2 ^ 31 - 1
  /\ account_fields_present
       [("userId", Str "z"); ("type", Str "savings"); ("currency", Str "INR")]
     = true
  /\ account_row (accounts_id_seq (seqs sample_database) + 1)
       [("userId", Str "z"); ("type", Str "savings"); ("currency", Str "INR")]
     = Some {| acc_id := 3; acc_user_id := "z"; acc_type := "savings";
               acc_currency := "INR"; acc_status := "active" |}
  /\ snd (handle 0%nat (GetAccount "3")
            (fst (fst (handle 0%nat
                         (PostAccounts [("userId", Str "z");
                                        ("type", Str "savings");
                                        ("currency", Str "INR")])
                         sample_database))))
     = {| status := 200;
          json := [("id", Num (of_Z 3)); ("userId", Str "z");
                   ("type", Str "savings"); ("currency", Str "INR");
                   ("status", Str "active"); ("balance", Str "0")] |}.
Proof.
  assert (H1 : idle sample_database) by reflexivity.
  assert (H2 : keyed sample_database = true) by (vm_compute; reflexivity).
  assert (H3 : referenced (committed sample_database) = true)
    by (vm_compute; reflexivity).
  assert (H4 : 0 <= accounts_id_seq (seqs sample_database) < 2 ^ 31 - 1)
    by (vm_compute; split; [discriminate | reflexivity]).
  assert (H5 : account_fields_present
                 [("userId", Str "z"); ("type", Str "savings");
                  ("currency", Str "INR")] = true) by reflexivity.
  assert (H6 : account_row (accounts_id_seq (seqs sample_database) + 1)
                 [("userId", Str "z"); ("type", Str "savings");
                  ("currency", Str "INR")]
               = Some {| acc_id := 3; acc_user_id := "z";
                         acc_type := "savings"; acc_currency := "INR";
                         acc_status := "active" |})
    by (vm_compute; reflexivity).
  split; [exact H1 |]. split; [exact H2 |]. split; [exact H3 |].
  split; [exact H4 |]. split; [exact H5 |]. split; [exact H6 |].
  pose proof (opened_account_is_found 0%nat _ sample_database _
                H1 H2 H3 H4 H5 H6) as A.
  destruct (handle 0%nat
              (PostAccounts [("userId", Str "z"); ("type", Str "savings");
                             ("currency", Str "INR")]) sample_database)
    as [[d1 t1] r1].
  cbn [fst acc_id] in *.
  change (digits 3) with "3" in A.
  destruct (handle 0%nat (GetAccount "3") d1) as [[d2 t2] r2].
  destruct A as (_ & _ & -> & _). reflexivity.
Defined.

(** * Texts as stored *)

Section StoredTexts.

Variable s : session.

Lemma text_of_or_null (v : value) (d : option string) :
  text_of (or_null v) = Some d ->
  d = if truthy v then Some (ToString v) else None.
Proof.
  unfold or_null. destruct (truthy v) eqn:T.
  - unfold text_of. destruct v; try discriminate;
      (destruct (has_nul _); [discriminate | now intros [= <-]]).
  - cbn. now intros [= <-].
Qed.

Lemma text_not_null_is_text (v : value) (c : string) :
  text_not_null_of v = Some c -> c = ToString v.
Proof.
  unfold text_not_null_of, text_of.
  destruct v; try discriminate;
    (destruct (has_nul _); [discriminate | now intros [= <-]]).
Qed.

End StoredTexts.

(** X16.  The transaction row of a deposit, withdrawal or transfer
    answered 201 keeps the currency as text and the description as
    [description || null] leaves it: a description that is missing or
    falsy (empty text, 0, [false], [null]) is stored as NULL, any other
    as its text.  The row is the last of [transactions] and its id is the
    [transactionId] of the payload. *)
Theorem falsy_description_is_null (s : session) (m : money_route)
  (body : object) (db : database) :
  idle db -> keyed db = true ->
  let '(db', tr, resp) := handle s (money_request m body) db in
  status resp = 201 ->
  exists t,
    transactions (committed db') = transactions (committed db) ++ [t]
    /\ tx_description t = description_stored body
    /\ tx_currency t = ToString (get "currency" body)
    /\ get "transactionId" (json resp) = Num (of_Z (tx_id t)).
Proof.
  intros Hi Hk. rewrite (idle_at_rest db Hi) in *.
  set (st := committed db) in *. set (sq := seqs db) in *.
  clearbody st sq. clear Hi db.
  change (committed (at_rest st sq)) with st in *.
  unfold handle, description_stored.
  destruct (valid_body m body) eqn:Hv.
  2:{ destruct (valid_body_false s m body (at_rest st sq) Hv) as [text E].
      rewrite E. cbn. discriminate. }
  destruct m; cbn [valid_body money_request route] in *.
  - rewrite run_post_deposits by assumption. cbv zeta.
    destruct (int4_of (parseInt (get "accountId" body))) as [a |];
      [| cbn; discriminate].
    destruct (has_account a st); [| cbn; discriminate].
    destruct (amount_stored body) as [c |]; [| cbn; discriminate].
    destruct (text_not_null_of (get "currency" body)) as [cur |] eqn:Ec;
      [| cbn; discriminate].
    destruct (text_of (or_null (get "description" body))) as [d |] eqn:Ed;
      [| cbn; discriminate].
    intros _. eexists. split; [reflexivity |].
    cbn [tx_description tx_currency tx_id json get String.eqb Ascii.eqb
           Bool.eqb].
    split; [exact (text_of_or_null _ _ Ed) |].
    split; [exact (text_not_null_is_text _ _ Ec) | reflexivity].
  - rewrite run_post_withdrawals by assumption. cbv zeta.
    destruct (int4_of (parseInt (get "accountId" body))) as [a |];
      [| cbn; discriminate].
    destruct (has_account a st); [| cbn; discriminate].
    destruct (amount_stored body) as [c |]; [| cbn; discriminate].
    destruct (text_not_null_of (get "currency" body)) as [cur |] eqn:Ec;
      [| cbn; discriminate].
    destruct (text_of (or_null (get "description" body))) as [d |] eqn:Ed;
      [| cbn; discriminate].
    destruct (sum_entries a st - c <? 0); [cbn; discriminate |].
    intros _. eexists. split; [reflexivity |].
    cbn [tx_description tx_currency tx_id json get String.eqb Ascii.eqb
           Bool.eqb].
    split; [exact (text_of_or_null _ _ Ed) |].
    split; [exact (text_not_null_is_text _ _ Ec) | reflexivity].
  - rewrite run_post_transfers by assumption. cbv zeta.
    destruct (int4_of (parseInt (get "sourceAccountId" body))) as [a |];
      [| cbn; discriminate].
    destruct (int4_of (parseInt (get "destinationAccountId" body)))
      as [b |]; [| cbn; discriminate].
    destruct (has_account a st && has_account b st && negb (a =? b));
      [| cbn; discriminate].
    destruct (amount_stored body) as [c |]; [| cbn; discriminate].
    destruct (text_not_null_of (get "currency" body)) as [cur |] eqn:Ec;
      [| cbn; discriminate].
    destruct (text_of (or_null (get "description" body))) as [d |] eqn:Ed;
      [| cbn; discriminate].
    destruct (sum_entries a st - c <? 0); [cbn; discriminate |].
    intros _. eexists. split; [reflexivity |].
    cbn [tx_description tx_currency tx_id json get String.eqb Ascii.eqb
           Bool.eqb].
    split; [exact (text_of_or_null _ _ Ed) |].
    split; [exact (text_not_null_is_text _ _ Ec) | reflexivity].
Qed.

Lemma falsy_description_is_null_witness :
  idle sample_database /\ keyed sample_database = true
  /\ status (snd (handle 0%nat
                    (money_request Deposit
                       (("description", Str "") :: single_body 1 "5.00"))
                    sample_database)) = 201
  /\ description_stored (("description", Str "") :: single_body 1 "5.00")
     = None
  /\ exists t,
       transactions
         (committed
            (fst (fst (handle 0%nat
                         (money_request Deposit
                            (("description", Str "")
                             :: single_body 1 "5.00"))
                         sample_database))))
       = transactions (committed sample_database) ++ [t]
       /\ tx_description t = None.
Proof.
  assert (H1 : idle sample_database) by reflexivity.
  assert (H2 : keyed sample_database = true) by (vm_compute; reflexivity).
  assert (H3 : status (snd (handle 0%nat
                    (money_request Deposit
                       (("description", Str "") :: single_body 1 "5.00"))
                    sample_database)) = 201) by (vm_compute; reflexivity).
  split; [exact H1 |]. split; [exact H2 |]. split; [exact H3 |].
  split; [reflexivity |].
  pose proof (falsy_description_is_null 0%nat Deposit
                (("description", Str "") :: single_body 1 "5.00")
                sample_database H1 H2) as A.
  destruct (handle 0%nat
              (money_request Deposit
                 (("description", Str "") :: single_body 1 "5.00"))
              sample_database) as [[d1 t1] r1].
  cbn [fst snd] in *.
  destruct (A H3) as (t & Et & Ed & _).
  exists t. split; [exact Et | exact Ed].
Defined.

(** X17.  The funds test is exact: a withdrawal or transfer that passes
    validation, on accounts the store holds, of an amount and texts the
    store accepts, is answered 201 exactly when the balance of the
    debited account covers the amount as stored - a debit of the whole
    balance goes through and leaves 0 - and 422 exactly when it does
    not. *)
Theorem debit_succeeds_iff_covered (s : session) (m : money_route)
  (body : object) (db : database) (a : Z) (c : cents) :
  idle db -> keyed db = true ->
  valid_body m body = true ->
  accounts_found m body (committed db) = true ->
  debited m body = Some a ->
  amount_stored body = Some c ->
  texts_storable body = true ->
  let '(db', tr, resp) := handle s (money_request m body) db in
  (status resp = 201 <-> c <= sum_entries a (committed db))
  /\ (status resp = 422 <-> sum_entries a (committed db) < c)
  /\ (status resp = 201 ->
      sum_entries a (committed db') = sum_entries a (committed db) - c).
Proof.
  intros Hi Hk Hv Hf Hd Hc Ht. rewrite (idle_at_rest db Hi) in *.
  set (st := committed db) in *. set (sq := seqs db) in *.
  clearbody st sq. clear Hi db.
  change (committed (at_rest st sq)) with st in *.
  destruct (texts_storable_parts body Ht) as (cur & d & Ecur & Ed).
  unfold handle.
  destruct m; cbn [valid_body accounts_found debited money_request route]
    in *; unfold account_named in *; [discriminate | |].
  - rewrite run_post_withdrawals by assumption. cbv zeta.
    rewrite Hd in *. rewrite Hf, Hc, Ecur, Ed.
    destruct (sum_entries a st - c <? 0) eqn:E.
    + apply Z.ltb_lt in E. cbn [status message].
      split; [split; [discriminate | lia] |].
      split; [split; [lia | reflexivity] | discriminate].
    + apply Z.ltb_ge in E. cbn [status committed at_rest].
      split; [split; [lia | reflexivity] |].
      split; [split; [discriminate | lia] |].
      intros _. rewrite sum_entries_append. cbn [filter account_id].
      rewrite Z.eqb_refl. cbn. lia.
  - rewrite run_post_transfers by assumption. cbv zeta.
    rewrite Hd in *.
    destruct (int4_of (parseInt (get "destinationAccountId" body)))
      as [b |]; [| discriminate].
    rewrite Hf, Hc, Ecur, Ed.
    apply andb_true_iff in Hf as [_ Hne].
    apply negb_true_iff in Hne.
    destruct (sum_entries a st - c <? 0) eqn:E.
    + apply Z.ltb_lt in E. cbn [status message].
      split; [split; [discriminate | lia] |].
      split; [split; [lia | reflexivity] | discriminate].
    + apply Z.ltb_ge in E. cbn [status committed at_rest].
      split; [split; [lia | reflexivity] |].
      split; [split; [discriminate | lia] |].
      intros _. rewrite sum_entries_append. cbn [filter account_id].
      rewrite Z.eqb_refl, (Z.eqb_sym b a), Hne. cbn. lia.
Qed.

Lemma debit_succeeds_iff_covered_witness :
  idle sample_database /\ keyed sample_database = true
  /\ valid_body Withdrawal (single_body 1 "100.00") = true
  /\ accounts_found Withdrawal (single_body 1 "100.00")
       (committed sample_database) = true
  /\ debited Withdrawal (single_body 1 "100.00") = Some 1
  /\ amount_stored (single_body 1 "100.00") = Some 10000
  /\ texts_storable (single_body 1 "100.00") = true
  /\ sum_entries 1 (committed sample_database) = 10000
  /\ status (snd (handle 0%nat
                    (money_request Withdrawal (single_body 1 "100.00"))
                    sample_database)) = 201.
Proof.
  assert (H1 : idle sample_database) by reflexivity.
  assert (H2 : keyed sample_database = true) by (vm_compute; reflexivity).
  assert (H3 : valid_body Withdrawal (single_body 1 "100.00") = true)
    by (vm_compute; reflexivity).
  assert (H4 : accounts_found Withdrawal (single_body 1 "100.00")
                 (committed sample_database) = true)
    by (vm_compute; reflexivity).
  assert (H5 : debited Withdrawal (single_body 1 "100.00") = Some 1)
    by (vm_compute; reflexivity).
  assert (H6 : amount_stored (single_body 1 "100.00") = Some 10000)
    by (vm_compute; reflexivity).
  assert (H7 : texts_storable (single_body 1 "100.00") = true)
    by (vm_compute; reflexivity).
  assert (H8 : sum_entries 1 (committed sample_database) = 10000)
    by (vm_compute; reflexivity).
  split; [exact H1 |]. split; [exact H2 |]. split; [exact H3 |].
  split; [exact H4 |]. split; [exact H5 |]. split; [exact H6 |].
  split; [exact H7 |]. split; [exact H8 |].
  pose proof (debit_succeeds_iff_covered 0%nat Withdrawal
                (single_body 1 "100.00") sample_database 1 10000
                H1 H2 H3 H4 H5 H6 H7) as A.
  destruct (handle 0%nat (money_request Withdrawal (single_body 1 "100.00"))
              sample_database) as [[d1 t1] r1].
  cbn [snd]. destruct A as [[_ A] _]. apply A. rewrite H8. lia.
Defined.

(** X18.  A withdrawal or transfer refused for insufficient funds has
    used up a transaction id: the route inserts the transaction before
    it tests the balance, and the id drawn for it is not handed out
    again after the rollback.  The sequence stands one higher than
    before, the rows are as before, and no row carries that id. *)
Theorem refused_debit_uses_up_an_id (s : session) (m : money_route)
  (body : object) (db : database) :
  idle db -> keyed db = true ->
  let '(db', tr, resp) := handle s (money_request m body) db in
  status resp = 422 ->
  transactions_id_seq (seqs db') = transactions_id_seq (seqs db) + 1
  /\ committed db' = committed db
  /\ has_transaction (transactions_id_seq (seqs db')) (committed db')
     = false.
Proof.
  intros Hi Hk. rewrite (idle_at_rest db Hi) in *.
  set (st := committed db) in *. set (sq := seqs db) in *.
  clearbody st sq. clear Hi db.
  change (committed (at_rest st sq)) with st in *.
  change (seqs (at_rest st sq)) with sq in *.
  destruct (keyed_parts st sq Hk) as (_ & _ & Kt & _).
  assert (Hfree : has_transaction (transactions_id_seq sq + 1) st = false)
    by (apply (absent_above tx_id (transactions_id_seq sq) _ _ Kt); lia).
  unfold handle.
  destruct (valid_body m body) eqn:Hv.
  2:{ destruct (valid_body_false s m body (at_rest st sq) Hv) as [text E].
      rewrite E. cbn. discriminate. }
  destruct m; cbn [valid_body money_request route] in *.
  - rewrite run_post_deposits by assumption. cbv zeta.
    destruct (int4_of (parseInt (get "accountId" body))) as [a |];
      [| cbn; discriminate].
    destruct (has_account a st); [| cbn; discriminate].
    destruct (amount_stored body) as [c |]; [| cbn; discriminate].
    destruct (text_not_null_of (get "currency" body));
      [| cbn; discriminate].
    destruct (text_of (or_null (get "description" body)));
      cbn; discriminate.
  - rewrite run_post_withdrawals by assumption. cbv zeta.
    destruct (int4_of (parseInt (get "accountId" body))) as [a |];
      [| cbn; discriminate].
    destruct (has_account a st); [| cbn; discriminate].
    destruct (amount_stored body) as [c |]; [| cbn; discriminate].
    destruct (text_not_null_of (get "currency" body));
      [| cbn; discriminate].
    destruct (text_of (or_null (get "description" body)));
      [| cbn; discriminate].
    destruct (sum_entries a st - c <? 0); [| cbn; discriminate].
    intros _. cbn [seqs committed at_rest next_entries next_transaction
                     transactions_id_seq].
    split; [reflexivity |]. split; [reflexivity | exact Hfree].
  - rewrite run_post_transfers by assumption. cbv zeta.
    destruct (int4_of (parseInt (get "sourceAccountId" body))) as [a |];
      [| cbn; discriminate].
    destruct (int4_of (parseInt (get "destinationAccountId" body)))
      as [b |]; [| cbn; discriminate].
    destruct (has_account a st && has_account b st && negb (a =? b));
      [| cbn; discriminate].
    destruct (amount_stored body) as [c |]; [| cbn; discriminate].
    destruct (text_not_null_of (get "currency" body));
      [| cbn; discriminate].
    destruct (text_of (or_null (get "description" body)));
      [| cbn; discriminate].
    destruct (sum_entries a st - c <? 0); [| cbn; discriminate].
    intros _. cbn [seqs committed at_rest next_entries next_transaction
                     transactions_id_seq].
    split; [reflexivity |]. split; [reflexivity | exact Hfree].
Qed.

Lemma refused_debit_uses_up_an_id_witness :
  idle sample_database /\ keyed sample_database = true
  /\ map (fun r => get "transactionId" (json r))
       (snd (serve 0%nat
               [PostWithdrawals (single_body 1 "150.00");
                PostWithdrawals (single_body 1 "10.00")]
               sample_database))
     = [Undefined; Num (of_Z 3)]
  /\ transactions_id_seq
       (seqs (fst (fst (handle 0%nat
                          (money_request Withdrawal (single_body 1 "150.00"))
                          sample_database))))
     = transactions_id_seq (seqs sample_database) + 1.
Proof.
  assert (H1 : idle sample_database) by reflexivity.
  assert (H2 : keyed sample_database = true) by (vm_compute; reflexivity).
  assert (H3 : status (snd (handle 0%nat
                    (money_request Withdrawal (single_body 1 "150.00"))
                    sample_database)) = 422) by (vm_compute; reflexivity).
  split; [exact H1 |]. split; [exact H2 |].
  split; [vm_compute; reflexivity |].
  pose proof (refused_debit_uses_up_an_id 0%nat Withdrawal
                (single_body 1 "150.00") sample_database H1 H2) as A.
  destruct (handle 0%nat (money_request Withdrawal (single_body 1 "150.00"))
              sample_database) as [[d1 t1] r1].
  cbn [fst snd] in *. exact (proj1 (A H3)).
Defined.

(** * Requests of several clients *)

Section Others.

Variable s : session.
Variable others : list (session * block).
Hypothesis apart : block_of s others = None.

Lemma without_others : without s others = others.
Proof.
  clear - apart. unfold without. induction others as [| [s' b] l IH];
    cbn [filter fst]; [reflexivity |].
  cbn [block_of] in apart. destruct (Nat.eqb s s'); [discriminate |].
  cbn [negb]. now rewrite IH.
Qed.

Lemma block_of_beside (bs : list (session * block)) :
  block_of s (bs ++ others) = block_of s bs.
Proof.
  induction bs as [| [s' b] l IH]; cbn [app block_of]; [exact apart |].
  destruct (Nat.eqb s s'); [reflexivity | exact IH].
Qed.

Lemma without_beside (bs : list (session * block)) :
  without s (bs ++ others) = without s bs ++ others.
Proof.
  unfold without. rewrite filter_app. f_equal. apply without_others.
Qed.

Lemma set_block_beside (b : block) (db : database) :
  set_block s b (beside others db) = beside others (set_block s b db).
Proof.
  unfold set_block, beside. cbn [committed seqs blocks].
  now rewrite without_beside.
Qed.

Lemma end_block_beside (db : database) :
  end_block s (beside others db) = beside others (end_block s db).
Proof.
  unfold end_block, beside. cbn [committed seqs blocks].
  now rewrite without_beside.
Qed.

Lemma view_beside (db : database) :
  view s (beside others db) = view s db.
Proof.
  unfold view, beside. cbn [committed blocks].
  now rewrite block_of_beside.
Qed.

Lemma fail_beside {R : Type} (db : database) :
  @fail R s (beside others db)
  = (beside others (fst (@fail R s db)), None).
Proof.
  unfold fail. cbn [blocks beside fst]. rewrite block_of_beside.
  destruct (block_of s (blocks db)); [| reflexivity].
  now rewrite set_block_beside.
Qed.

Lemma push_beside (w : write) (db : database) :
  push s w (beside others db) = beside others (push s w db).
Proof.
  unfold push. cbn [blocks beside]. rewrite block_of_beside.
  destruct (block_of s (blocks db)) as [[log |] |];
    try reflexivity.
  now rewrite set_block_beside.
Qed.

Lemma with_seqs_beside (sq : sequences) (db : database) :
  with_seqs sq (beside others db) = beside others (with_seqs sq db).
Proof. reflexivity. Qed.

Ltac failing :=
  rewrite fail_beside; unfold fail; cbn [fst snd]; reflexivity.

(** A statement neither reads nor touches the open transactions of the
    other sessions. *)
Lemma exec_beside {R : Type} (q : statement R) (db : database) :
  exec s q (beside others db)
  = (beside others (fst (exec s q db)), snd (exec s q db)).
Proof.
  unfold exec. cbn [blocks beside]. rewrite block_of_beside.
  destruct (block_of s (blocks db)) as [[log |] |] eqn:Eb.
  - unfold exec_open. rewrite view_beside.
    cbn [seqs blocks beside]. rewrite block_of_beside, Eb.
    destruct q; cbn [fst snd]; try reflexivity.
    + now rewrite without_beside.
    + now rewrite end_block_beside.
    + destruct (all_some (map int4_of ids)); [reflexivity | failing].
    + destruct (int4_of id); [reflexivity | failing].
    + destruct (int4_of id); [reflexivity | failing].
    + destruct (text_not_null_of userId), (text_not_null_of type),
        (text_not_null_of currency); try failing.
      rewrite !with_seqs_beside.
      destruct (has_account _ _); [failing |].
      now rewrite push_beside.
    + destruct (numeric_14_2_of amount), (text_not_null_of currency),
        (reference_of source), (reference_of destination),
        (text_of description); try failing.
      rewrite !with_seqs_beside.
      destruct (negb _ && _ && _); [| failing].
      now rewrite push_beside.
    + destruct (entry_rows _ rows); [| failing].
      rewrite !with_seqs_beside.
      destruct (forallb _ _); [| failing].
      now rewrite push_beside.
    + destruct (int4_of accountId); [reflexivity | failing].
    + now rewrite push_beside.
  - unfold exec_aborted.
    destruct q; cbn [fst snd]; try reflexivity;
      now rewrite end_block_beside.
  - unfold exec_open. rewrite view_beside.
    cbn [seqs blocks beside]. rewrite block_of_beside, Eb.
    destruct q; cbn [fst snd]; try reflexivity.
    + now rewrite set_block_beside.
    + now rewrite without_beside.
    + now rewrite end_block_beside.
    + destruct (all_some (map int4_of ids)); [reflexivity | failing].
    + destruct (int4_of id); [reflexivity | failing].
    + destruct (int4_of id); [reflexivity | failing].
    + destruct (text_not_null_of userId), (text_not_null_of type),
        (text_not_null_of currency); try failing.
      rewrite !with_seqs_beside.
      destruct (has_account _ _); [failing |].
      now rewrite push_beside.
    + destruct (numeric_14_2_of amount), (text_not_null_of currency),
        (reference_of source), (reference_of destination),
        (text_of description); try failing.
      rewrite !with_seqs_beside.
      destruct (negb _ && _ && _); [| failing].
      now rewrite push_beside.
    + destruct (entry_rows _ rows); [| failing].
      rewrite !with_seqs_beside.
      destruct (forallb _ _); [| failing].
      now rewrite push_beside.
    + destruct (int4_of accountId); [reflexivity | failing].
    + now rewrite push_beside.
Qed.

(** A route neither reads nor touches them. *)
Lemma run_beside {A : Type} (p : program A) :
  forall db,
    run s p (beside others db)
    = let '(db', tr, a) := run s p db in (beside others db', tr, a).
Proof.
  induction p as [A a | A R q k IH | A C body IHb handler IHh k IH];
    intros db.
  - reflexivity.
  - cbn [run]. rewrite exec_beside.
    destruct (exec s q db) as [db1 [r |]]; cbn [fst snd]; [| reflexivity].
    rewrite IH. destruct (run s (k r) db1) as [[db2 tr] a]. reflexivity.
  - cbn [run]. rewrite IHb.
    destruct (run s body db) as [[db1 tr1] [x |]].
    + rewrite IH. destruct (run s (k x) db1) as [[db2 tr2] a]. reflexivity.
    + rewrite IHh. destruct (run s handler db1) as [[db2 tr2] [x |]];
        [| reflexivity].
      rewrite IH. destruct (run s (k x) db2) as [[db3 tr3] a]. reflexivity.
Qed.

End Others.

(** X19.  A request does not see and does not touch the open transactions
    of other clients: served on a pool client that has none open, any
    route sends the statements and gives the answer it would if nobody
    else had a transaction in progress, leaves the committed rows it
    would leave, and leaves the blocks of the others as they were - a
    debit or credit another client has not yet committed does not show
    in a balance. *)
Theorem open_transactions_of_others_do_not_show (s : session)
  (r : request) (db : database) :
  block_of s (blocks db) = None ->
  let '(db0, tr, resp) :=
    handle s r (at_rest (committed db) (seqs db)) in
  handle s r db = (beside (blocks db) db0, tr, resp).
Proof.
  intros Hb. destruct db as [c q b]. cbn [committed seqs blocks] in *.
  change {| committed := c; seqs := q; blocks := b |}
    with (beside b (at_rest c q)).
  unfold handle. rewrite (run_beside s b Hb).
  destruct (run s (route r) (at_rest c q)) as [[db0 tr] a].
  reflexivity.
Qed.

Lemma open_transactions_of_others_do_not_show_witness :
  block_of 1%nat (blocks mid_deposit) = None
  /\ block_of 2%nat (blocks mid_deposit) <> None
  /\ balance_text 1 (view 2%nat mid_deposit) = "150.00"
  /\ get "balance" (json (snd (handle 1%nat (GetAccount "1") mid_deposit)))
     = Str "100.00".
Proof.
  assert (H1 : block_of 1%nat (blocks mid_deposit) = None)
    by (vm_compute; reflexivity).
  split; [exact H1 |].
  split; [vm_compute; discriminate |].
  split; [vm_compute; reflexivity |].
  pose proof (open_transactions_of_others_do_not_show 1%nat
                (GetAccount "1") mid_deposit H1) as A.
  destruct (handle 1%nat (GetAccount "1")
              (at_rest (committed mid_deposit) (seqs mid_deposit)))
    as [[d0 t0] r0] eqn:E.
  rewrite A. cbn [snd].
  apply (f_equal (fun x => get "balance" (json (snd x)))) in E.
  cbn [snd] in E. rewrite <- E. vm_compute. reflexivity.
Defined.

(** * The ledger against the transaction log *)

Section Log.

Lemma served_matches_log (r : request) (sq : sequences) (st : store)
  (resp : response) (st' : store) :
  served r sq st resp st' -> ledger_matches_log st ->
  ledger_matches_log st'.
Proof.
  intros [[_ ->] | [(_ & body & u & t & c & _ & _ & _ & _ & _ & ->)
                   | (_ & t & es & Hp & ->)]] Hs; [exact Hs | exact Hs |].
  intros x. specialize (Hs x). unfold inflow, outflow, total in *.
  cbn [transactions]. rewrite !filter_app, !map_app, !total_app.
  destruct Hp.
  - rewrite sum_entries_leg, signed_credit.
    cbn [filter names destination_account_id source_account_id].
    destruct (a =? x); cbn [map fold_right tx_amount]; lia.
  - rewrite sum_entries_leg, signed_debit.
    cbn [filter names destination_account_id source_account_id].
    destruct (a =? x); cbn [map fold_right tx_amount]; lia.
  - rewrite sum_entries_legs, signed_credit, signed_debit.
    cbn [filter names destination_account_id source_account_id].
    destruct (a =? x), (b =? x); cbn [map fold_right tx_amount]; lia.
Qed.

Lemma distinct_above (l : list Z) (bound x : Z) :
  distinct l = true -> Forall (fun y => y <= bound) l -> bound < x ->
  distinct (l ++ [x]) = true.
Proof.
  intros Hd Hb Hx. apply distinct_snoc; [exact Hd |].
  clear Hd. induction Hb as [| y l Hy _ IH]; cbn [existsb]; [reflexivity |].
  rewrite IH, orb_false_r. apply Z.eqb_neq. lia.
Qed.

Lemma Forall_map_le {A : Type} (key : A -> Z) (l : list A) (bound : Z) :
  Forall (fun r => key r <= bound) l ->
  Forall (fun y => y <= bound) (map key l).
Proof.
  induction 1 as [| r l Hr _ IH]; cbn [map]; constructor; assumption.
Qed.

Lemma served_ids_unique (r : request) (sq : sequences) (st : store)
  (resp : response) (st' : store) :
  keyed (at_rest st sq) = true ->
  served r sq st resp st' -> ids_unique st = true -> ids_unique st' = true.
Proof.
  intros Hk [[_ ->] | [(_ & body & u & t & c & _ & _ & _ & _ & _ & ->)
                      | (_ & t & es & Hp & ->)]] Hs;
    [exact Hs | exact Hs |].
  destruct (keyed_parts st sq Hk) as (_ & _ & Kt & Ke).
  unfold ids_unique in *. apply andb_true_iff in Hs as [Ht He].
  cbn [transactions ledger_entries]. rewrite !map_app.
  assert (Kt' : Forall (fun y => y <= transactions_id_seq sq)
                  (map tx_id (transactions st)))
    by (apply Forall_map_le, Kt).
  assert (Ke' : Forall (fun y => y <= ledger_entries_id_seq sq)
                  (map le_id (ledger_entries st))).
  { apply Forall_map_le. eapply Forall_impl; [| exact Ke].
    cbn. intros e [H _]. exact H. }
  apply andb_true_iff. split.
  - destruct Hp; cbn [map tx_id];
      apply (distinct_above _ (transactions_id_seq sq)); auto; lia.
  - destruct Hp; cbn [map leg le_id].
    + apply (distinct_above _ (ledger_entries_id_seq sq)); auto; lia.
    + apply (distinct_above _ (ledger_entries_id_seq sq)); auto; lia.
    + change [ledger_entries_id_seq sq + 1; ledger_entries_id_seq sq + 1 + 1]
        with ([ledger_entries_id_seq sq + 1]
              ++ [ledger_entries_id_seq sq + 1 + 1]).
      rewrite app_assoc.
      apply (distinct_above _ (ledger_entries_id_seq sq + 1)); [| | lia].
      * apply (distinct_above _ (ledger_entries_id_seq sq)); auto; lia.
      * apply Forall_app. split.
        -- eapply Forall_impl; [| exact Ke']. cbn. intros; lia.
        -- constructor; [lia | constructor].
Qed.

End Log.

(** X21.  After any sequence of requests the ledger agrees with the
    transaction log, account by account: the balance computed from the
    entries of an account is the sum of the amounts of the transactions
    that name it as destination less the sum of the amounts of those
    that name it as source. *)
Theorem ledger_agrees_with_log (s : session) (rs : list request)
  (db0 : database) :
  idle db0 -> keyed db0 = true -> ledger_matches_log (committed db0) ->
  ledger_matches_log (committed (fst (serve s rs db0))).
Proof.
  intros Hi Hk Hs. apply serve_keeps; try assumption.
  intros r sq st resp st' _. apply served_matches_log.
Qed.

Lemma ledger_agrees_with_log_witness :
  idle empty_database /\ keyed empty_database = true
  /\ ledger_matches_log (committed empty_database)
  /\ ledger_matches_log
       (committed (fst (serve 0%nat busy_day empty_database))).
Proof.
  assert (H1 : idle empty_database) by reflexivity.
  assert (H2 : keyed empty_database = true) by reflexivity.
  assert (H3 : ledger_matches_log (committed empty_database))
    by (intros a; reflexivity).
  split; [exact H1 |]. split; [exact H2 |]. split; [exact H3 |].
  exact (ledger_agrees_with_log 0%nat busy_day empty_database H1 H2 H3).
Defined.

(** X22.  The primary keys stay unique: after any sequence of requests no
    two transactions share an id and no two ledger entries share one -
    the ids the sequences hand out are never reused, also after a
    rollback. *)
Theorem primary_keys_stay_unique (s : session) (rs : list request)
  (db0 : database) :
  idle db0 -> keyed db0 = true -> ids_unique (committed db0) = true ->
  ids_unique (committed (fst (serve s rs db0))) = true.
Proof.
  intros Hi Hk Hs.
  apply (serve_keeps s (fun st => ids_unique st = true)); try assumption.
  intros r sq st resp st'. apply served_ids_unique.
Qed.

Lemma primary_keys_stay_unique_witness :
  idle empty_database /\ keyed empty_database = true
  /\ ids_unique (committed empty_database) = true
  /\ ids_unique (committed (fst (serve 0%nat busy_day empty_database)))
     = true.
Proof.
  assert (H1 : idle empty_database) by reflexivity.
  assert (H2 : keyed empty_database = true) by reflexivity.
  assert (H3 : ids_unique (committed empty_database) = true)
    by reflexivity.
  split; [exact H1 |]. split; [exact H2 |]. split; [exact H3 |].
  exact (primary_keys_stay_unique 0%nat busy_day empty_database H1 H2 H3).
Defined.

(** X23.  The 201 payload of a deposit, withdrawal or transfer has the
    fields [transactionId], [status], the account id or ids, [amount] and
    [currency] and no other - no balance; [status] is "completed", the
    account ids are the numbers [parseInt] read, not the values sent,
    and [currency] is the value sent. *)
Theorem payload_of_a_posting (s : session) (m : money_route)
  (body : object) (db : database) :
  idle db -> keyed db = true ->
  let '(db', tr, resp) := handle s (money_request m body) db in
  status resp = 201 ->
  keys (json resp) = payload_keys m
  /\ get "status" (json resp) = Str "completed"
  /\ get "currency" (json resp) = get "currency" body
  /\ get "transactionId" (json resp)
     = Num (of_Z (transactions_id_seq (seqs db) + 1))
  /\ (forall f, In f (account_fields m) ->
        get f (json resp) = Num (parseInt (get f body))).
Proof.
  intros Hi Hk. rewrite (idle_at_rest db Hi) in *.
  set (st := committed db) in *. set (sq := seqs db) in *.
  clearbody st sq. clear Hi db.
  change (seqs (at_rest st sq)) with sq.
  unfold handle.
  destruct (valid_body m body) eqn:Hv.
  2:{ destruct (valid_body_false s m body (at_rest st sq) Hv) as [text E].
      rewrite E. cbn. discriminate. }
  destruct m; cbn [valid_body money_request route account_fields
                     payload_keys] in *.
  - rewrite run_post_deposits by assumption. cbv zeta.
    destruct (int4_of (parseInt (get "accountId" body))) as [a |];
      [| cbn; discriminate].
    destruct (has_account a st); [| cbn; discriminate].
    destruct (amount_stored body) as [c |]; [| cbn; discriminate].
    destruct (text_not_null_of (get "currency" body));
      [| cbn; discriminate].
    destruct (text_of (or_null (get "description" body)));
      [| cbn; discriminate].
    intros _. repeat split; try reflexivity.
    intros f [<- | []]. reflexivity.
  - rewrite run_post_withdrawals by assumption. cbv zeta.
    destruct (int4_of (parseInt (get "accountId" body))) as [a |];
      [| cbn; discriminate].
    destruct (has_account a st); [| cbn; discriminate].
    destruct (amount_stored body) as [c |]; [| cbn; discriminate].
    destruct (text_not_null_of (get "currency" body));
      [| cbn; discriminate].
    destruct (text_of (or_null (get "description" body)));
      [| cbn; discriminate].
    destruct (sum_entries a st - c <? 0); [cbn; discriminate |].
    intros _. repeat split; try reflexivity.
    intros f [<- | []]. reflexivity.
  - rewrite run_post_transfers by assumption. cbv zeta.
    destruct (int4_of (parseInt (get "sourceAccountId" body))) as [a |];
      [| cbn; discriminate].
    destruct (int4_of (parseInt (get "destinationAccountId" body)))
      as [b |]; [| cbn; discriminate].
    destruct (has_account a st && has_account b st && negb (a =? b));
      [| cbn; discriminate].
    destruct (amount_stored body) as [c |]; [| cbn; discriminate].
    destruct (text_not_null_of (get "currency" body));
      [| cbn; discriminate].
    destruct (text_of (or_null (get "description" body)));
      [| cbn; discriminate].
    destruct (sum_entries a st - c <? 0); [cbn; discriminate |].
    intros _. repeat split; try reflexivity.
    intros f [<- | [<- | []]]; reflexivity.
Qed.

Lemma payload_of_a_posting_witness :
  idle sample_database /\ keyed sample_database = true
  /\ status (snd (handle 0%nat
                    (money_request Deposit
                       [("accountId", Str "1abc"); ("amount", Str "5.00");
                        ("currency", Str "INR")])
                    sample_database)) = 201
  /\ get "accountId"
       (json (snd (handle 0%nat
                     (money_request Deposit
                        [("accountId", Str "1abc"); ("amount", Str "5.00");
                         ("currency", Str "INR")])
                     sample_database)))
     = Num (of_Z 1).
Proof.
  assert (H1 : idle sample_database) by reflexivity.
  assert (H2 : keyed sample_database = true) by (vm_compute; reflexivity).
  assert (H3 : status (snd (handle 0%nat
                    (money_request Deposit
                       [("accountId", Str "1abc"); ("amount", Str "5.00");
                        ("currency", Str "INR")])
                    sample_database)) = 201) by (vm_compute; reflexivity).
  split; [exact H1 |]. split; [exact H2 |]. split; [exact H3 |].
  pose proof (payload_of_a_posting 0%nat Deposit
                [("accountId", Str "1abc"); ("amount", Str "5.00");
                 ("currency", Str "INR")] sample_database H1 H2) as A.
  destruct (handle 0%nat
              (money_request Deposit
                 [("accountId", Str "1abc"); ("amount", Str "5.00");
                  ("currency", Str "INR")]) sample_database)
    as [[d1 t1] r1].
  cbn [snd] in *. destruct (A H3) as (_ & _ & _ & _ & F).
  rewrite (F "accountId") by (left; reflexivity).
  vm_compute. reflexivity.
Defined.

(** * Statements of one session among others *)

Section Local.

Variable s : session.

Lemma block_of_without (bs : list (session * block)) :
  block_of s (without s bs) = None.
Proof.
  unfold without. induction bs as [| [s' b] l IH]; cbn [filter fst block_of];
    [reflexivity |].
  destruct (Nat.eqb s s') eqn:E; cbn [negb]; [exact IH |].
  cbn [block_of]. now rewrite E.
Qed.

Lemma block_of_without_other (s' : session) (bs : list (session * block)) :
  s' <> s -> block_of s' (without s bs) = block_of s' bs.
Proof.
  intros Hne. unfold without.
  induction bs as [| [s'' b] l IH]; cbn [filter fst block_of];
    [reflexivity |].
  destruct (Nat.eqb s s'') eqn:E; cbn [negb].
  - apply Nat.eqb_eq in E. subst s''.
    replace (Nat.eqb s' s) with false
      by (symmetry; apply Nat.eqb_neq; exact Hne).
    exact IH.
  - cbn [block_of]. now rewrite IH.
Qed.

Lemma alone_set_block (b : block) (db : database) :
  alone s (set_block s b db) = set_block s b (alone s db).
Proof.
  unfold alone, set_block. cbn [committed seqs blocks block_of].
  rewrite Nat.eqb_refl. f_equal. f_equal.
  destruct (block_of s (blocks db)); cbn [without filter fst];
    rewrite ?Nat.eqb_refl; reflexivity.
Qed.

Lemma alone_end_block (db : database) :
  alone s (end_block s db) = end_block s (alone s db).
Proof.
  unfold alone, end_block. cbn [committed seqs blocks].
  rewrite block_of_without. f_equal.
  destruct (block_of s (blocks db)); cbn [without filter fst];
    rewrite ?Nat.eqb_refl; reflexivity.
Qed.

Lemma block_of_alone (db : database) :
  block_of s (blocks (alone s db)) = block_of s (blocks db).
Proof.
  unfold alone. cbn [blocks].
  destruct (block_of s (blocks db)); cbn [block_of];
    rewrite ?Nat.eqb_refl; reflexivity.
Qed.

Lemma view_alone (db : database) : view s (alone s db) = view s db.
Proof.
  unfold view. rewrite block_of_alone. reflexivity.
Qed.

Lemma alone_fail {R : Type} (db : database) :
  alone s (fst (@fail R s db)) = fst (@fail R s (alone s db)).
Proof.
  unfold fail. rewrite block_of_alone. cbn [fst].
  destruct (block_of s (blocks db)); [apply alone_set_block | reflexivity].
Qed.

Lemma alone_push (w : write) (db : database) :
  alone s (push s w db) = push s w (alone s db).
Proof.
  unfold push. rewrite block_of_alone.
  destruct (block_of s (blocks db)) as [[log |] |] eqn:E.
  - apply alone_set_block.
  - unfold alone. cbn [committed seqs blocks]. now rewrite E.
  - unfold alone. cbn [committed seqs blocks]. now rewrite E.
Qed.

Ltac failing :=
  split; [apply alone_fail | reflexivity].

(** What a statement does to the session that sends it depends on the
    committed rows, the sequences and the session's own block only. *)
Lemma exec_alone {R : Type} (q : statement R) (db : database) :
  alone s (fst (exec s q db)) = fst (exec s q (alone s db))
  /\ snd (exec s q db) = snd (exec s q (alone s db)).
Proof.
  unfold exec. rewrite block_of_alone.
  destruct (block_of s (blocks db)) as [[log |] |] eqn:Eb.
  - unfold exec_open. rewrite view_alone, block_of_alone, Eb.
    change (seqs (alone s db)) with (seqs db).
    destruct q; cbn [fst snd]; try (split; reflexivity).
    + split; [| reflexivity]. unfold alone at 1.
      cbn [committed seqs blocks]. rewrite block_of_without.
      unfold alone. cbn [blocks]. rewrite Eb.
      cbn [without filter fst]. now rewrite Nat.eqb_refl.
    + split; [apply alone_end_block | reflexivity].
    + destruct (all_some (map int4_of ids)); [split; reflexivity | failing].
    + destruct (int4_of id); [split; reflexivity | failing].
    + destruct (int4_of id); [split; reflexivity | failing].
    + destruct (text_not_null_of userId), (text_not_null_of type),
        (text_not_null_of currency); try failing.
      destruct (has_account _ _);
        [split; [apply (@alone_fail account) | reflexivity] |].
      split; [apply alone_push | reflexivity].
    + destruct (numeric_14_2_of amount), (text_not_null_of currency),
        (reference_of source), (reference_of destination),
        (text_of description); try failing.
      destruct (negb _ && _ && _);
        [| split; [apply (@alone_fail Z) | reflexivity]].
      split; [apply alone_push | reflexivity].
    + destruct (entry_rows _ rows); [| failing].
      destruct (forallb _ _);
        [| split; [apply (@alone_fail unit) | reflexivity]].
      split; [apply alone_push | reflexivity].
    + destruct (int4_of accountId); [split; reflexivity | failing].
    + split; [apply alone_push | reflexivity].
  - unfold exec_aborted.
    destruct q; cbn [fst snd]; try (split; reflexivity);
      (split; [apply alone_end_block | reflexivity]).
  - unfold exec_open. rewrite view_alone, block_of_alone, Eb.
    change (seqs (alone s db)) with (seqs db).
    destruct q; cbn [fst snd]; try (split; reflexivity).
    + split; [apply alone_set_block | reflexivity].
    + split; [| reflexivity]. unfold alone at 1.
      cbn [committed seqs blocks]. rewrite block_of_without.
      unfold alone. cbn [blocks]. rewrite Eb. reflexivity.
    + split; [apply alone_end_block | reflexivity].
    + destruct (all_some (map int4_of ids)); [split; reflexivity | failing].
    + destruct (int4_of id); [split; reflexivity | failing].
    + destruct (int4_of id); [split; reflexivity | failing].
    + destruct (text_not_null_of userId), (text_not_null_of type),
        (text_not_null_of currency); try failing.
      destruct (has_account _ _);
        [split; [apply (@alone_fail account) | reflexivity] |].
      split; [apply alone_push | reflexivity].
    + destruct (numeric_14_2_of amount), (text_not_null_of currency),
        (reference_of source), (reference_of destination),
        (text_of description); try failing.
      destruct (negb _ && _ && _);
        [| split; [apply (@alone_fail Z) | reflexivity]].
      split; [apply alone_push | reflexivity].
    + destruct (entry_rows _ rows); [| failing].
      destruct (forallb _ _);
        [| split; [apply (@alone_fail unit) | reflexivity]].
      split; [apply alone_push | reflexivity].
    + destruct (int4_of accountId); [split; reflexivity | failing].
    + split; [apply alone_push | reflexivity].
Qed.

(** It leaves the blocks of the other sessions as they are. *)
Lemma exec_other {R : Type} (q : statement R) (db : database)
  (s' : session) :
  s' <> s ->
  block_of s' (blocks (fst (exec s q db))) = block_of s' (blocks db).
Proof.
  intros Hne.
  assert (Hset : forall b d,
            block_of s' (blocks (set_block s b d)) = block_of s' (blocks d)).
  { intros b d. unfold set_block. cbn [blocks block_of].
    replace (Nat.eqb s' s) with false
      by (symmetry; apply Nat.eqb_neq; exact Hne).
    now apply block_of_without_other. }
  assert (Hend : forall d,
            block_of s' (blocks (end_block s d)) = block_of s' (blocks d)).
  { intros d. unfold end_block. cbn [blocks].
    now apply block_of_without_other. }
  assert (Hfail : forall (T : Type) d,
            block_of s' (blocks (fst (@fail T s d)))
            = block_of s' (blocks d)).
  { intros T d. unfold fail. cbn [fst].
    destruct (block_of s (blocks d)); [apply Hset | reflexivity]. }
  assert (Hpush : forall w d,
            block_of s' (blocks (push s w d)) = block_of s' (blocks d)).
  { intros w d. unfold push.
    destruct (block_of s (blocks d)) as [[log |] |];
      [apply Hset | reflexivity | reflexivity]. }
  unfold exec.
  destruct (block_of s (blocks db)) as [[log |] |] eqn:Eb.
  - unfold exec_open. rewrite Eb.
    destruct q; cbn [fst]; try reflexivity.
    + cbn [blocks]. now apply block_of_without_other.
    + apply Hend.
    + destruct (all_some (map int4_of ids)); [reflexivity | apply Hfail].
    + destruct (int4_of id); [reflexivity | apply Hfail].
    + destruct (int4_of id); [reflexivity | apply Hfail].
    + destruct (text_not_null_of userId), (text_not_null_of type),
        (text_not_null_of currency); try (rewrite Hfail; reflexivity).
      destruct (has_account _ _);
        cbn [fst]; [rewrite Hfail | rewrite Hpush]; reflexivity.
    + destruct (numeric_14_2_of amount), (text_not_null_of currency),
        (reference_of source), (reference_of destination),
        (text_of description); try (rewrite Hfail; reflexivity).
      destruct (negb _ && _ && _); cbn [fst]; [rewrite Hpush | rewrite Hfail]; reflexivity.
    + destruct (entry_rows _ rows); [| apply Hfail].
      destruct (forallb _ _); cbn [fst]; [rewrite Hpush | rewrite Hfail]; reflexivity.
    + destruct (int4_of accountId); [reflexivity | apply Hfail].
    + apply Hpush.
  - unfold exec_aborted. destruct q; cbn [fst]; try reflexivity; apply Hend.
  - unfold exec_open. rewrite Eb.
    destruct q; cbn [fst]; try reflexivity.
    + apply Hset.
    + cbn [blocks]. now apply block_of_without_other.
    + apply Hend.
    + destruct (all_some (map int4_of ids)); [reflexivity | apply Hfail].
    + destruct (int4_of id); [reflexivity | apply Hfail].
    + destruct (int4_of id); [reflexivity | apply Hfail].
    + destruct (text_not_null_of userId), (text_not_null_of type),
        (text_not_null_of currency); try (rewrite Hfail; reflexivity).
      destruct (has_account _ _);
        cbn [fst]; [rewrite Hfail | rewrite Hpush]; reflexivity.
    + destruct (numeric_14_2_of amount), (text_not_null_of currency),
        (reference_of source), (reference_of destination),
        (text_of description); try (rewrite Hfail; reflexivity).
      destruct (negb _ && _ && _); cbn [fst]; [rewrite Hpush | rewrite Hfail]; reflexivity.
    + destruct (entry_rows _ rows); [| apply Hfail].
      destruct (forallb _ _); cbn [fst]; [rewrite Hpush | rewrite Hfail]; reflexivity.
    + destruct (int4_of accountId); [reflexivity | apply Hfail].
    + apply Hpush.
Qed.

(** One statement of session [s], seen through what [s] alone would
    have (the database [X]) and the block [b'] of another session. *)
Lemma exec_among {R : Type} (q : statement R) (db X : database)
  (s' : session) (b' : option block) :
  alone s db = X -> s' <> s -> block_of s' (blocks db) = b' ->
  exec s q db = (fst (exec s q db), snd (exec s q X))
  /\ alone s (fst (exec s q db)) = fst (exec s q X)
  /\ block_of s' (blocks (fst (exec s q db))) = b'.
Proof.
  intros <- Hne <-. destruct (exec_alone q db) as [A B].
  split; [| split].
  - rewrite <- B. apply surjective_pairing.
  - exact A.
  - now apply exec_other.
Qed.

Lemma alone_is (db : database) (st : store) (sq : sequences)
  (b : option block) :
  committed db = st -> seqs db = sq -> block_of s (blocks db) = b ->
  alone s db = {| committed := st; seqs := sq;
                  blocks := match b with
                            | Some b => [(s, b)]
                            | None => []
                            end |}.
Proof. intros <- <- <-. reflexivity. Qed.

Lemma alone_parts (db X : database) :
  alone s db = X ->
  committed db = committed X /\ seqs db = seqs X
  /\ block_of s (blocks db) = block_of s (blocks X).
Proof.
  intros <-. rewrite block_of_alone. repeat split; reflexivity.
Qed.

End Local.

Section Turns.

Context {A B R : Type}.

Lemma turn_first (q : statement R) (k : R -> program B) (h : program B)
  (K : B -> program A) (rest : list bool) (t2 : thread A)
  (db db' : database) (r : R) :
  exec 1%nat q db = (db', Some r) ->
  interleave (true :: rest) (Running (TryCatch (Query q k) h K)) t2 db
  = interleave rest (Running (TryCatch (k r) h K)) t2 db'.
Proof. intros H. cbn [interleave advance step]. now rewrite H. Qed.

Lemma turn_second (q : statement R) (k : R -> program B) (h : program B)
  (K : B -> program A) (rest : list bool) (t1 : thread A)
  (db db' : database) (r : R) :
  exec 2%nat q db = (db', Some r) ->
  interleave (false :: rest) t1 (Running (TryCatch (Query q k) h K)) db
  = interleave rest t1 (Running (TryCatch (k r) h K)) db'.
Proof. intros H. cbn [interleave advance step]. now rewrite H. Qed.

End Turns.

Section Among.

Variables s s' : session.
Hypothesis apart : s' <> s.

(** One statement of [s] that succeeds, and what it leaves to [s] and to
    the other session [s']. *)
Lemma among_step {R : Type} (q : statement R) (db X X' : database)
  (b' : option block) (r : R) :
  alone s db = X -> block_of s' (blocks db) = b' ->
  exec s q X = (X', Some r) ->
  exists db',
    exec s q db = (db', Some r)
    /\ alone s db' = X'
    /\ alone s' db'
       = {| committed := committed X'; seqs := seqs X';
            blocks := match b' with
                      | Some b => [(s', b)]
                      | None => []
                      end |}
    /\ block_of s' (blocks db') = b'
    /\ block_of s (blocks db') = block_of s (blocks X').
Proof.
  intros HX Hb Hx.
  destruct (exec_among s q db X s' b' HX apart Hb) as (E & A & O).
  rewrite Hx in E, A. cbn [fst snd] in E, A.
  exists (fst (exec s q db)).
  destruct (alone_parts s _ _ A) as (Hc & Hs & Ho).
  split; [exact E |]. split; [exact A |].
  split; [| split; [exact O | exact Ho]].
  apply alone_is; assumption.
Qed.

End Among.

(** * Two withdrawals whose statements take turns *)

Section Overdraft.

Variables (body1 body2 : object) (st : store) (sq : sequences) (a : Z).
Variables (c1 c2 : cents).

Hypothesis Hk : keyed (at_rest st sq) = true.
Hypothesis V1 : valid_single body1 = true.
Hypothesis V2 : valid_single body2 = true.
Hypothesis A1 : account_named "accountId" body1 = Some a.
Hypothesis A2 : account_named "accountId" body2 = Some a.
Hypothesis Ha : has_account a st = true.
Hypothesis C1 : amount_stored body1 = Some c1.
Hypothesis C2 : amount_stored body2 = Some c2.
Hypothesis T1 : texts_storable body1 = true.
Hypothesis T2 : texts_storable body2 = true.
Hypothesis B1 : c1 <= sum_entries a st.
Hypothesis B2 : c2 <= sum_entries a st.

Lemma two_debits_take_turns :
  let '(db', t1, t2) :=
    interleave alternating
      (Running (route (PostWithdrawals body1)))
      (Running (route (PostWithdrawals body2))) (at_rest st sq) in
  exists r1 r2,
    t1 = Finished r1 /\ t2 = Finished r2
    /\ status r1 = 201 /\ status r2 = 201
    /\ sum_entries a (committed db') = sum_entries a st - c1 - c2
    /\ block_of 1%nat (blocks db') = None
    /\ block_of 2%nat (blocks db') = None.
Proof.
  destruct (valid_single_parts body1 V1) as (P1 & P2 & P3 & N1 & N2 & Q1).
  destruct (valid_single_parts body2 V2) as (P1' & P2' & P3' & N1' & N2' & Q1').
  destruct (keyed_parts st sq Hk) as (Kd & Ka & Kt & Ke).
  destruct (texts_storable_parts body1 T1) as (cur1 & d1 & Ecur1 & Ed1).
  destruct (texts_storable_parts body2 T2) as (cur2 & d2 & Ecur2 & Ed2).
  unfold account_named in A1, A2. unfold amount_stored in C1, C2.
  assert (ne21 : 2%nat <> 1%nat) by discriminate.
  assert (ne12 : 1%nat <> 2%nat) by discriminate.
  cbn [route]. unfold post_withdrawals, guarded, rollback_quietly.
  rewrite P1, P2, P3, N1, N2, Q1, P1', P2', P3', N1', N2', Q1'.
  cbn [negb orb bind]. unfold alternating.
  set (id1 := parseInt (get "accountId" body1)) in *.
  set (id2 := parseInt (get "accountId" body2)) in *.
  set (am1 := parseFloat (get "amount" body1)) in *.
  set (am2 := parseFloat (get "amount" body2)) in *.
  set (t := transactions_id_seq sq) in *.
  set (e := ledger_entries_id_seq sq) in *.
  (* BEGIN, BEGIN *)
  destruct (among_step 1%nat 2%nat ne21 BEGIN (at_rest st sq) (at_rest st sq)
              _ None tt eq_refl eq_refl (exec_begin 1%nat st sq))
    as (db1 & E1 & X1 & Y1 & O1 & U1).
  rewrite (turn_first _ _ _ _ _ _ _ _ _ E1). clear E1.
  cbn [committed seqs blocks in_block block_of Nat.eqb] in Y1, U1.
  destruct (among_step 2%nat 1%nat ne12 BEGIN db1 (at_rest st sq)
              _ _ tt Y1 U1 (exec_begin 2%nat st sq))
    as (db2 & E2 & X2 & Y2 & O2 & U2).
  rewrite (turn_second _ _ _ _ _ _ _ _ _ E2). clear E2 X1 Y1 O1 U1 db1.
  cbn [committed seqs blocks in_block block_of Nat.eqb] in Y2, U2.
  (* the existence queries *)
  assert (S1 : exec 1%nat (SelectAccountId id1) (in_block 1%nat [] st sq)
               = (in_block 1%nat [] st sq, Some (account_ids_in [a] st))).
  { rewrite exec_select_id, A1. reflexivity. }
  destruct (among_step 1%nat 2%nat ne21 _ db2 _ _ _ _ Y2 U2 S1)
    as (db3 & E3 & X3 & Y3 & O3 & U3).
  rewrite (turn_first _ _ _ _ _ _ _ _ _ E3). clear E3 X2 Y2 O2 U2 S1 db2.
  rewrite has_account_ids, Ha. cbn [negb].
  cbn [committed seqs blocks in_block block_of Nat.eqb] in Y3, U3.
  assert (S2 : exec 2%nat (SelectAccountId id2) (in_block 2%nat [] st sq)
               = (in_block 2%nat [] st sq, Some (account_ids_in [a] st))).
  { rewrite exec_select_id, A2. reflexivity. }
  destruct (among_step 2%nat 1%nat ne12 _ db3 _ _ _ _ Y3 U3 S2)
    as (db4 & E4 & X4 & Y4 & O4 & U4).
  rewrite (turn_second _ _ _ _ _ _ _ _ _ E4). clear E4 X3 Y3 O3 U3 S2 db3.
  rewrite has_account_ids, Ha. cbn [negb].
  cbn [committed seqs blocks in_block block_of Nat.eqb] in Y4, U4.
  (* the transactions are inserted *)
  set (row1 := {| tx_id := t + 1; tx_type := "withdrawal"; tx_amount := c1;
                  tx_currency := cur1; source_account_id := Some a;
                  destination_account_id := None; tx_status := "pending";
                  tx_description := d1 |}).
  set (row2 := {| tx_id := t + 1 + 1; tx_type := "withdrawal";
                  tx_amount := c2; tx_currency := cur2;
                  source_account_id := Some a;
                  destination_account_id := None; tx_status := "pending";
                  tx_description := d2 |}).
  assert (I1 : exec 1%nat
                 (InsertTransaction "withdrawal" am1 (get "currency" body1)
                    (Some id1) None (or_null (get "description" body1)))
                 (in_block 1%nat [] st sq)
               = (in_block 1%nat [WTransaction row1] st (next_transaction sq),
                  Some (t + 1))).
  { rewrite exec_insert_transaction. cbn [reference_of].
    rewrite C1, Ecur1, Ed1, A1. cbv zeta.
    cbn [replay fold_right reference_ok]. unfold has_transaction.
    rewrite (absent_above tx_id t _ _ Kt) by (subst t; lia).
    rewrite Ha. reflexivity. }
  destruct (among_step 1%nat 2%nat ne21 _ db4 _ _ _ _ Y4 U4 I1)
    as (db5 & E5 & X5 & Y5 & O5 & U5).
  rewrite (turn_first _ _ _ _ _ _ _ _ _ E5). clear E5 X4 Y4 O4 U4 I1 db4.
  cbn [committed seqs blocks in_block block_of Nat.eqb] in Y5, U5.
  assert (I2 : exec 2%nat
                 (InsertTransaction "withdrawal" am2 (get "currency" body2)
                    (Some id2) None (or_null (get "description" body2)))
                 (in_block 2%nat [] st (next_transaction sq))
               = (in_block 2%nat [WTransaction row2] st
                    (next_transaction (next_transaction sq)),
                  Some (t + 1 + 1))).
  { rewrite exec_insert_transaction. cbn [reference_of].
    rewrite C2, Ecur2, Ed2, A2. cbv zeta.
    cbn [replay fold_right reference_ok next_transaction
           transactions_id_seq].
    unfold has_transaction.
    rewrite (absent_above tx_id t _ _ Kt) by (subst t; lia).
    rewrite Ha. reflexivity. }
  destruct (among_step 2%nat 1%nat ne12 _ db5 _ _ _ _ Y5 U5 I2)
    as (db6 & E6 & X6 & Y6 & O6 & U6).
  rewrite (turn_second _ _ _ _ _ _ _ _ _ E6). clear E6 X5 Y5 O5 U5 I2 db5.
  cbn [committed seqs blocks in_block block_of Nat.eqb] in Y6, U6.
  (* the debits are written *)
  set (sq2 := next_transaction (next_transaction sq)) in *.
  set (e1 := {| le_id := e + 1; transaction_id := t + 1; account_id := a;
                entry_type := "debit"; le_amount := c1 |}).
  set (e2 := {| le_id := e + 1 + 1; transaction_id := t + 1 + 1;
                account_id := a; entry_type := "debit"; le_amount := c2 |}).
  assert (L1 : exec 1%nat (InsertLedgerEntries [(t + 1, id1, "debit", am1)])
                 (in_block 1%nat [WTransaction row1] st sq2)
               = (in_block 1%nat [WEntries [e1]; WTransaction row1] st
                    (next_entries 1 sq2), Some tt)).
  { rewrite exec_insert_entries. cbn [entry_rows]. rewrite A1, C1.
    cbn [forallb replay fold_right].
    rewrite (entry_ok_posted st sq)
      by first [assumption | reflexivity | cbn; subst e; lia].
    reflexivity. }
  destruct (among_step 1%nat 2%nat ne21 _ db6 _ _ _ _ Y6 U6 L1)
    as (db7 & E7 & X7 & Y7 & O7 & U7).
  rewrite (turn_first _ _ _ _ _ _ _ _ _ E7). clear E7 X6 Y6 O6 U6 L1 db6.
  cbn [committed seqs blocks in_block block_of Nat.eqb] in Y7, U7.
  assert (L2 : exec 2%nat
                 (InsertLedgerEntries [(t + 1 + 1, id2, "debit", am2)])
                 (in_block 2%nat [WTransaction row2] st (next_entries 1 sq2))
               = (in_block 2%nat [WEntries [e2]; WTransaction row2] st
                    (next_entries 1 (next_entries 1 sq2)), Some tt)).
  { rewrite exec_insert_entries. cbn [entry_rows]. rewrite A2, C2.
    cbn [forallb replay fold_right].
    rewrite (entry_ok_posted st sq)
      by first [assumption | reflexivity | cbn; subst e; lia].
    reflexivity. }
  destruct (among_step 2%nat 1%nat ne12 _ db7 _ _ _ _ Y7 U7 L2)
    as (db8 & E8 & X8 & Y8 & O8 & U8).
  rewrite (turn_second _ _ _ _ _ _ _ _ _ E8). clear E8 X7 Y7 O7 U7 L2 db7.
  cbn [committed seqs blocks in_block block_of Nat.eqb] in Y8, U8.
  (* each reads the balance with its own debit only *)
  set (sq4 := next_entries 1 (next_entries 1 sq2)) in *.
  assert (F1 : sum_entries a (replay [WEntries [e1]; WTransaction row1] st)
               = sum_entries a st - c1).
  { cbn [replay fold_right apply_write accounts transactions ledger_entries].
    rewrite sum_entries_append. cbn [filter account_id e1].
    rewrite Z.eqb_refl. cbn. lia. }
  assert (F2 : sum_entries a (replay [WEntries [e2]; WTransaction row2] st)
               = sum_entries a st - c2).
  { cbn [replay fold_right apply_write accounts transactions ledger_entries].
    rewrite sum_entries_append. cbn [filter account_id e2].
    rewrite Z.eqb_refl. cbn. lia. }
  assert (R1 : exec 1%nat (SelectBalance id1)
                 (in_block 1%nat [WEntries [e1]; WTransaction row1] st sq4)
               = (in_block 1%nat [WEntries [e1]; WTransaction row1] st sq4,
                  Some (balance_text a
                          (replay [WEntries [e1]; WTransaction row1] st)))).
  { rewrite exec_select_balance, A1. reflexivity. }
  destruct (among_step 1%nat 2%nat ne21 _ db8 _ _ _ _ Y8 U8 R1)
    as (db9 & E9 & X9 & Y9 & O9 & U9).
  rewrite (turn_first _ _ _ _ _ _ _ _ _ E9). clear E9 X8 Y8 O8 U8 R1 db8.
  rewrite balance_below_zero, F1.
  replace (sum_entries a st - c1 <? 0) with false
    by (symmetry; apply Z.ltb_ge; lia).
  cbn [committed seqs blocks in_block block_of Nat.eqb] in Y9, U9.
  assert (R2 : exec 2%nat (SelectBalance id2)
                 (in_block 2%nat [WEntries [e2]; WTransaction row2] st sq4)
               = (in_block 2%nat [WEntries [e2]; WTransaction row2] st sq4,
                  Some (balance_text a
                          (replay [WEntries [e2]; WTransaction row2] st)))).
  { rewrite exec_select_balance, A2. reflexivity. }
  destruct (among_step 2%nat 1%nat ne12 _ db9 _ _ _ _ Y9 U9 R2)
    as (db10 & E10 & X10 & Y10 & O10 & U10).
  rewrite (turn_second _ _ _ _ _ _ _ _ _ E10).
  clear E10 X9 Y9 O9 U9 R2 db9.
  rewrite balance_below_zero, F2.
  replace (sum_entries a st - c2 <? 0) with false
    by (symmetry; apply Z.ltb_ge; lia).
  cbn [committed seqs blocks in_block block_of Nat.eqb] in Y10, U10.
  (* both mark their transaction completed *)
  destruct (among_step 1%nat 2%nat ne21 _ db10 _ _ _ _ Y10 U10
              (exec_update_status 1%nat st sq4 _ "completed" (t + 1)))
    as (db11 & E11 & X11 & Y11 & O11 & U11).
  rewrite (turn_first _ _ _ _ _ _ _ _ _ E11).
  clear E11 X10 Y10 O10 U10 db10.
  cbn [committed seqs blocks in_block block_of Nat.eqb] in Y11, U11.
  destruct (among_step 2%nat 1%nat ne12 _ db11 _ _ _ _ Y11 U11
              (exec_update_status 2%nat st sq4 _ "completed" (t + 1 + 1)))
    as (db12 & E12 & X12 & Y12 & O12 & U12).
  rewrite (turn_second _ _ _ _ _ _ _ _ _ E12).
  clear E12 X11 Y11 O11 U11 db11.
  cbn [committed seqs blocks in_block block_of Nat.eqb] in Y12, U12.
  (* and both commit *)
  destruct (among_step 1%nat 2%nat ne21 _ db12 _ _ _ _ Y12 U12
              (exec_commit 1%nat st sq4 _))
    as (db13 & E13 & X13 & Y13 & O13 & U13).
  rewrite (turn_first _ _ _ _ _ _ _ _ _ E13).
  clear E13 X12 Y12 O12 U12 db12.
  cbn [committed seqs blocks at_rest in_block block_of Nat.eqb] in Y13, U13.
  destruct (among_step 2%nat 1%nat ne12 _ db13 _ _ _ _ Y13 U13
              (exec_commit 2%nat _ sq4 _))
    as (db14 & E14 & X14 & Y14 & O14 & U14).
  rewrite (turn_second _ _ _ _ _ _ _ _ _ E14).
  clear E14 X13 Y13 O13 U13 db13.
  cbn [committed seqs blocks at_rest in_block block_of Nat.eqb] in Y14, U14.
  cbn [interleave advance step].
  eexists _, _. split; [reflexivity |]. split; [reflexivity |].
  split; [reflexivity |]. split; [reflexivity |].
  split; [| split; [exact O14 | exact U14]].
  destruct (alone_parts 2%nat _ _ X14) as (Hc & _ & _). rewrite Hc.
  cbn [committed at_rest].
  rewrite (replay_completed st t (t + 1) row1 [e1])
    by first [assumption | reflexivity | lia].
  rewrite (replay_completed _ (t + 1) (t + 1 + 1) row2 [e2]).
  - rewrite !sum_entries_append.
    cbn [filter account_id e1 e2]. rewrite Z.eqb_refl. cbn. lia.
  - cbn [transactions]. apply Forall_app. split.
    + eapply Forall_impl; [| exact Kt]. cbn. intros; lia.
    + constructor; [cbn; lia | constructor].
  - lia.
  - reflexivity.
Qed.

End Overdraft.

(** X24.  Two withdrawals from the same account on two pool clients,
    each of an amount the balance covers on its own, both succeed when
    their statements take turns: each reads the balance with its own
    debit only, the other's not being committed yet, finds it at or above
    zero and commits.  Both are answered 201 and the balance is lowered
    by both amounts - below zero whenever the two together exceed it.
    Neither client is left with a transaction open. *)
Theorem concurrent_debits_both_succeed (body1 body2 : object)
  (db : database) (a : Z) (c1 c2 : cents) :
  idle db -> keyed db = true ->
  valid_single body1 = true -> valid_single body2 = true ->
  account_named "accountId" body1 = Some a ->
  account_named "accountId" body2 = Some a ->
  has_account a (committed db) = true ->
  amount_stored body1 = Some c1 -> amount_stored body2 = Some c2 ->
  texts_storable body1 = true -> texts_storable body2 = true ->
  c1 <= sum_entries a (committed db) ->
  c2 <= sum_entries a (committed db) ->
  let '(db', t1, t2) :=
    interleave alternating
      (Running (route (PostWithdrawals body1)))
      (Running (route (PostWithdrawals body2))) db in
  (exists r1 r2,
     t1 = Finished r1 /\ t2 = Finished r2
     /\ status r1 = 201 /\ status r2 = 201)
  /\ sum_entries a (committed db')
     = sum_entries a (committed db) - c1 - c2
  /\ (sum_entries a (committed db) < c1 + c2 ->
      sum_entries a (committed db') < 0)
  /\ block_of 1%nat (blocks db') = None
  /\ block_of 2%nat (blocks db') = None.
Proof.
  intros Hi Hk V1 V2 A1 A2 Ha C1 C2 T1 T2 B1 B2.
  rewrite (idle_at_rest db Hi) in *.
  set (st := committed db) in *. set (sq := seqs db) in *.
  clearbody st sq. clear Hi db.
  change (committed (at_rest st sq)) with st in *.
  pose proof (two_debits_take_turns body1 body2 st sq a c1 c2
                Hk V1 V2 A1 A2 Ha C1 C2 T1 T2 B1 B2) as H.
  destruct (interleave alternating _ _ (at_rest st sq)) as [[db' t1] t2].
  destruct H as (r1 & r2 & F1 & F2 & S1 & S2 & Hs & O1 & O2).
  split; [now exists r1, r2 |]. split; [exact Hs |].
  split; [lia |]. split; assumption.
Qed.

Lemma concurrent_debits_both_succeed_witness :
  idle sample_database /\ keyed sample_database = true
  /\ valid_single (single_body 1 "60.00") = true
  /\ account_named "accountId" (single_body 1 "60.00") = Some 1
  /\ has_account 1 (committed sample_database) = true
  /\ amount_stored (single_body 1 "60.00") = Some 6000
  /\ texts_storable (single_body 1 "60.00") = true
  /\ 6000 <= sum_entries 1 (committed sample_database)
  /\ sum_entries 1 (committed sample_database) < 6000 + 6000
  /\ sum_entries 1
       (committed
          (fst (fst (interleave alternating
                       (Running (route (PostWithdrawals
                                          (single_body 1 "60.00"))))
                       (Running (route (PostWithdrawals
                                          (single_body 1 "60.00"))))
                       sample_database))))
     < 0.
Proof.
  assert (H1 : idle sample_database) by reflexivity.
  assert (H2 : keyed sample_database = true) by (vm_compute; reflexivity).
  assert (H3 : valid_single (single_body 1 "60.00") = true)
    by (vm_compute; reflexivity).
  assert (H4 : account_named "accountId" (single_body 1 "60.00") = Some 1)
    by (vm_compute; reflexivity).
  assert (H5 : has_account 1 (committed sample_database) = true)
    by (vm_compute; reflexivity).
  assert (H6 : amount_stored (single_body 1 "60.00") = Some 6000)
    by (vm_compute; reflexivity).
  assert (H7 : texts_storable (single_body 1 "60.00") = true)
    by (vm_compute; reflexivity).
  assert (H8 : 6000 <= sum_entries 1 (committed sample_database))
    by (vm_compute; discriminate).
  assert (H9 : sum_entries 1 (committed sample_database) < 6000 + 6000)
    by (vm_compute; reflexivity).
  split; [exact H1 |]. split; [exact H2 |]. split; [exact H3 |].
  split; [exact H4 |]. split; [exact H5 |]. split; [exact H6 |].
  split; [exact H7 |]. split; [exact H8 |]. split; [exact H9 |].
  pose proof (concurrent_debits_both_succeed (single_body 1 "60.00")
                (single_body 1 "60.00") sample_database 1 6000 6000
                H1 H2 H3 H3 H4 H4 H5 H6 H6 H7 H7 H8 H8) as A.
  destruct (interleave alternating
              (Running (route (PostWithdrawals (single_body 1 "60.00"))))
              (Running (route (PostWithdrawals (single_body 1 "60.00"))))
              sample_database) as [[db' t1] t2].
  cbn [fst]. destruct A as (_ & _ & A & _). exact (A H9).
Defined.
